(** * Token authentication and session lifecycle of the had-service user package

    A shallow embedding of the Go sources
      - config/config.go                 (EnvLoad, getEnv)
      - constants/redis_keys.go          (ActiveUsersRK, UserSessionRK)
      - internal/utils/generate_token.go (GenerateToken)
      - internal/utils (ValidateToken)
      - internal/user/repository.go      (CreateSession, GetSession, GetByEmail)
      - internal/user/auth_service.go    (Login, ValidateToken)
    together with the parts of the libraries they call (package time,
    golang-jwt/jwt v4, go-redis v9), followed by the properties of the
    specification that were checked against them. *)

From Stdlib Require Import ZArith Lia Ascii String List Bool.
From stdpp Require Import gmap strings list fin_maps pretty.

Local Open Scope Z_scope.

(* ===================================================================== *)
(** * Package time *)
(* ===================================================================== *)

Module GoTime.

(** An instant is a count of nanoseconds since the Unix epoch (UTC); the
    monotonic reading and the location of a Go [time.Time] are not modelled.
    A [Duration] is an int64 count of nanoseconds. *)
Definition Time := Z.
Definition Duration := Z.

Definition Nanosecond : Duration := 1.
Definition Second : Duration := 1000000000 * Nanosecond.
Definition Minute : Duration := 60 * Second.
Definition Hour : Duration := 60 * Minute.

Definition minDuration : Duration := - 2 ^ 63.
Definition maxDuration : Duration := 2 ^ 63 - 1.

(** Two's complement wrap-around of int64 arithmetic. *)
Definition wrap64 (z : Z) : Z := (z + 2 ^ 63) mod 2 ^ 64 - 2 ^ 63.

(** [d * k] on Durations is int64 multiplication. *)
Definition mulDuration (d : Duration) (k : Z) : Duration := wrap64 (d * k).

(** [t.Sub(u)]: the difference, saturated to the Duration range. *)
Definition Sub (t u : Time) : Duration :=
  let d := t - u in
  if d <? minDuration then minDuration
  else if maxDuration <? d then maxDuration
  else d.

Definition Add (t : Time) (d : Duration) : Time := t + d.

Definition Before (t u : Time) : bool := t <? u.
Definition After (t u : Time) : bool := u <? t.

(** [t.Unix()]: whole seconds since the epoch (the nanosecond part of a Time
    is never negative, so this is the floor). *)
Definition Unix (t : Time) : Z := t / Second.

(** [time.Unix(sec, 0)]. *)
Definition FromUnix (sec : Z) : Time := sec * Second.

(** The zero Time: January 1, year 1, 00:00:00 UTC. *)
Definition zeroTime : Time := FromUnix (-62135596800).

Definition IsZero (t : Time) : bool := t =? zeroTime.

(** What survives a layout without fractional seconds. *)
Definition truncSec (t : Time) : Time := FromUnix (Unix t).

(** The layout [time.RFC3339] as used by [t.Format] and [time.Parse]; [Parse]
    answers [None] where Go returns an error.  The functions of the
    repository are written against this interface; [rfc3339_utc] below is
    the instance of a process running in UTC. *)
Class Layout := {
  Format : Time -> string;
  Parse : string -> option Time
}.

(** ** The proleptic Gregorian calendar, for the UTC instance *)

Definition civil_from_days (z : Z) : Z * Z * Z :=
  let z := z + 719468 in
  let era := z / 146097 in
  let doe := z - era * 146097 in
  let yoe := (doe - doe / 1460 + doe / 36524 - doe / 146096) / 365 in
  let y := yoe + era * 400 in
  let doy := doe - (365 * yoe + yoe / 4 - yoe / 100) in
  let mp := (5 * doy + 2) / 153 in
  let d := doy - (153 * mp + 2) / 5 + 1 in
  let m := if mp <? 10 then mp + 3 else mp - 9 in
  (if m <=? 2 then y + 1 else y, m, d).

Definition days_from_civil (y m d : Z) : Z :=
  let y := if m <=? 2 then y - 1 else y in
  let era := y / 400 in
  let yoe := y - era * 400 in
  let doy := (153 * (if 2 <? m then m - 3 else m + 9) + 2) / 5 + d - 1 in
  let doe := yoe * 365 + yoe / 4 - yoe / 100 + doy in
  era * 146097 + doe - 719468.

Definition isLeap (y : Z) : bool :=
  (y mod 4 =? 0) && (negb (y mod 100 =? 0) || (y mod 400 =? 0)).

Definition daysIn (y m : Z) : Z :=
  if m =? 2 then (if isLeap y then 29 else 28)
  else if (m =? 4) || (m =? 6) || (m =? 9) || (m =? 11) then 30
  else 31.

Definition digit (n : Z) : ascii := ascii_of_nat (48 + Z.to_nat (n mod 10)).

Definition pad2 (n : Z) (rest : string) : string :=
  String (digit (n / 10)) (String (digit n) rest).

Definition pad4 (n : Z) (rest : string) : string :=
  String (digit (n / 1000)) (String (digit (n / 100)) (pad2 n rest)).

Definition formatUTC (t : Time) : string :=
  let sec := Unix t in
  let '(y, m, d) := civil_from_days (sec / 86400) in
  let s := sec mod 86400 in
  pad4 y (String "-" (pad2 m (String "-" (pad2 d (String "T"
    (pad2 (s / 3600) (String ":" (pad2 (s / 60 mod 60) (String ":"
      (pad2 (s mod 60) "Z"))))))))))%char.

Definition digitVal (c : ascii) : option Z :=
  let n := Z.of_nat (nat_of_ascii c) in
  if (48 <=? n) && (n <=? 57) then Some (n - 48) else None.

Definition num2 (a b : ascii) : option Z :=
  match digitVal a, digitVal b with
  | Some x, Some y => Some (10 * x + y)
  | _, _ => None
  end.

Definition num4 (a b c d : ascii) : option Z :=
  match num2 a b, num2 c d with
  | Some x, Some y => Some (100 * x + y)
  | _, _ => None
  end.

(** The text ["YYYY-MM-DDTHH:MM:SSZ"] with every field in range. *)
Definition parseUTC (s : string) : option Time :=
  match list_ascii_of_string s with
  | [y1; y2; y3; y4; "-"; m1; m2; "-"; d1; d2; "T";
     h1; h2; ":"; i1; i2; ":"; s1; s2; "Z"]%char =>
      match num4 y1 y2 y3 y4, num2 m1 m2, num2 d1 d2,
            num2 h1 h2, num2 i1 i2, num2 s1 s2 with
      | Some y, Some m, Some d, Some hh, Some mi, Some ss =>
          if (1 <=? m) && (m <=? 12) && (1 <=? d) && (d <=? daysIn y m)
             && (hh <? 24) && (mi <? 60) && (ss <? 60)
          then Some (FromUnix (days_from_civil y m d * 86400
                               + hh * 3600 + mi * 60 + ss))
          else None
      | _, _, _, _, _, _ => None
      end
  | _ => None
  end.

(** The RFC3339 layout of a process whose local zone is UTC, for years 0 to
    9999. *)
Definition rfc3339_utc : Layout := {| Format := formatUTC; Parse := parseUTC |}.

End GoTime.

(* ===================================================================== *)
(** * Errors and results *)
(* ===================================================================== *)

Module GoErrors.

(** Go [error] values as this program builds them: [errors.New] and
    [fmt.Errorf] without [%w] give an [errorString]; [fmt.Errorf] with [%w]
    keeps the wrapped error beside the formatted message; the jwt library
    returns [*ValidationError] with its three fields. *)
#[warnings="-register-all"]
Inductive error : Type :=
| errorString (s : string)
| wrapError (msg : string) (err : error)
| ValidationError (Inner : option error) (Errors : Z) (text : string).

(** [err.Error()]. *)
Fixpoint Error (e : error) : string :=
  match e with
  | errorString s => s
  | wrapError msg _ => msg
  | ValidationError (Some inner) _ _ => Error inner
  | ValidationError None _ text =>
      if String.eqb text "" then "token is invalid" else text
  end.

(** [errors.New(msg)]. *)
Definition New (msg : string) : error := errorString msg.

(** [fmt.Errorf(prefix + "%w", err)]. *)
Definition Errorf_w (prefix : string) (err : error) : error :=
  wrapError (prefix +:+ Error err) err.

(** A Go result pair [(value, error)] of which exactly one is set. *)
Inductive result (A : Type) : Type :=
| Ok (a : A)
| Err (e : error).

Arguments Ok {A} a.
Arguments Err {A} e.

Definition isOk {A} (r : result A) : bool :=
  match r with Ok _ => true | Err _ => false end.

End GoErrors.

Import GoTime GoErrors.

(* ===================================================================== *)
(** * Package jwt (github.com/golang-jwt/jwt/v4) *)
(* ===================================================================== *)

Module jwt.

(** JSON values as [encoding/json] decodes them into [interface{}].  Numbers
    are float64 in Go; the numeric claims of this program are whole Unix
    seconds, which a float64 holds exactly, so a number is an integer here.
    Arrays and nested objects do not occur in the headers and claims the
    program reads. *)
Inductive JValue : Type :=
| JString (s : string)
| JNumber (n : Z)
| JBool (b : bool)
| JNull.

(** [jwt.MapClaims] and [Token.Header] are [map[string]interface{}]. *)
Abbreviation MapClaims := (gmap string JValue).
Abbreviation Header := (gmap string JValue).

(** One dot-separated segment of a compact token.  The base64url and JSON
    codecs are injective on what they encode, so a segment that decodes is
    represented by the value it decodes to; any other segment by its text and
    the decoder's error. *)
Inductive Segment (A : Type) : Type :=
| Encoded (a : A)
| Undecodable (raw : string) (err : error).

Arguments Encoded {A} a.
Arguments Undecodable {A} raw err.

(** A token string, as [strings.Split(tokenString, ".")] sees it. *)
Inductive TokenString : Type :=
| Compact (header : Segment Header) (claims : Segment MapClaims)
          (signature : Segment string)
| NotThreeSegments (raw : string).

(** [strings.Join(parts[0:2], ".")], the text that is signed. *)
Definition SigningString : Type := Segment Header * Segment MapClaims.

Inductive Hash : Type := SHA256 | SHA384 | SHA512.

(** The signing methods the library registers at start-up. *)
Inductive SigningMethod : Type :=
| SigningMethodHMAC (h : Hash)
| SigningMethodRSA (h : Hash)
| SigningMethodRSAPSS (h : Hash)
| SigningMethodECDSA (h : Hash)
| SigningMethodEd25519
| SigningMethodNone.

Definition SigningMethodHS256 : SigningMethod := SigningMethodHMAC SHA256.

Definition hashSuffix (h : Hash) : string :=
  match h with SHA256 => "256" | SHA384 => "384" | SHA512 => "512" end.

(** [method.Alg()]. *)
Definition Alg (m : SigningMethod) : string :=
  match m with
  | SigningMethodHMAC h => "HS" +:+ hashSuffix h
  | SigningMethodRSA h => "RS" +:+ hashSuffix h
  | SigningMethodRSAPSS h => "PS" +:+ hashSuffix h
  | SigningMethodECDSA h => "ES" +:+ hashSuffix h
  | SigningMethodEd25519 => "EdDSA"
  | SigningMethodNone => "none"
  end.

Definition registeredMethods : list SigningMethod :=
  [SigningMethodHMAC SHA256; SigningMethodHMAC SHA384; SigningMethodHMAC SHA512;
   SigningMethodRSA SHA256; SigningMethodRSA SHA384; SigningMethodRSA SHA512;
   SigningMethodRSAPSS SHA256; SigningMethodRSAPSS SHA384;
   SigningMethodRSAPSS SHA512;
   SigningMethodECDSA SHA256; SigningMethodECDSA SHA384;
   SigningMethodECDSA SHA512;
   SigningMethodEd25519; SigningMethodNone].

(** [jwt.GetSigningMethod(alg)]: the registered method of that name. *)
Definition GetSigningMethod (alg : string) : option SigningMethod :=
  List.find (fun m => String.eqb (Alg m) alg) registeredMethods.

(** The type assertion of [token.Method] to a pointer to
    [jwt.SigningMethodHMAC]. *)
Definition isSigningMethodHMAC (m : SigningMethod) : bool :=
  match m with SigningMethodHMAC _ => true | _ => false end.

(** The bits of [ValidationError.Errors]. *)
Definition ValidationErrorMalformed : Z := Z.shiftl 1 0.
Definition ValidationErrorUnverifiable : Z := Z.shiftl 1 1.
Definition ValidationErrorSignatureInvalid : Z := Z.shiftl 1 2.
Definition ValidationErrorAudience : Z := Z.shiftl 1 3.
Definition ValidationErrorExpired : Z := Z.shiftl 1 4.
Definition ValidationErrorIssuedAt : Z := Z.shiftl 1 5.
Definition ValidationErrorIssuer : Z := Z.shiftl 1 6.
Definition ValidationErrorNotValidYet : Z := Z.shiftl 1 7.
Definition ValidationErrorId : Z := Z.shiftl 1 8.
Definition ValidationErrorClaimsInvalid : Z := Z.shiftl 1 9.

(** [jwt.NewValidationError(text, flags)]. *)
Definition NewValidationError (text : string) (flags : Z) : error :=
  ValidationError None flags text.

Definition ErrSignatureInvalid : error := New "signature is invalid".
Definition ErrInvalidKeyType : error := New "key is of invalid type".
Definition NoneSignatureTypeDisallowedError : error :=
  NewValidationError "'none' signature type is not allowed"
                     ValidationErrorSignatureInvalid.

(** [jwt.Token]. *)
Record Token : Type := mkToken {
  Method : SigningMethod;
  TokenHeader : Header;
  Claims : MapClaims;
  Signature : Segment string;
  Valid : bool
}.

(** [jwt.New(method)]: the header names the type and the algorithm, the claim
    set starts empty. *)
Definition NewToken (m : SigningMethod) : Token :=
  {| Method := m;
     TokenHeader := <["alg" := JString (Alg m)]> {["typ" := JString "JWT"]};
     Claims := ∅;
     Signature := Encoded "";
     Valid := false |}.

(** HMAC itself is a parameter: the MAC of a signing string under a key. *)
Class Mac := { hmacSum : Hash -> string -> SigningString -> string }.

(** What the program observes of a call of [Parse]: the key lookup and the
    signature check, in the order they happen. *)
Inductive ParseEvent : Type := CallKeyfunc | CallVerify.


(** A [ValidationError] under construction ([vErr] in the library). *)
Record vErr : Type := mkVErr {
  vInner : option error;
  vErrors : Z;
  vText : string
}.

Definition emptyVErr : vErr := {| vInner := None; vErrors := 0; vText := "" |}.

Definition asError (v : vErr) : error :=
  ValidationError (vInner v) (vErrors v) (vText v).

(** [vErr.Inner = err; vErr.Errors |= flag]. *)
Definition flag (v : vErr) (err : error) (bit : Z) : vErr :=
  {| vInner := Some err; vErrors := Z.lor (vErrors v) bit; vText := vText v |}.

(** [e.valid()]. *)
Definition valid (v : vErr) : bool := vErrors v =? 0.

(** ** Claim validation (map_claims.go, claims.go) *)

Definition verifyExp (exp : option Time) (now : Time) (required : bool) : bool :=
  match exp with
  | None => negb required
  | Some e => Before now e
  end.

Definition verifyIat (iat : option Time) (now : Time) (required : bool) : bool :=
  match iat with
  | None => negb required
  | Some i => After now i || (now =? i)
  end.

Definition verifyNbf (nbf : option Time) (now : Time) (required : bool) : bool :=
  match nbf with
  | None => negb required
  | Some n => After now n || (now =? n)
  end.

(** The shape shared by [VerifyExpiresAt], [VerifyIssuedAt] and
    [VerifyNotBefore]: an absent claim passes unless required, a number is
    compared as a date (zero counting as absent), anything else fails.
    The date of a number of seconds is taken exactly.  The library converts
    the float64 to an int64 and calls [time.Unix]; both are exact for whole
    seconds up to 2^53, and the overflow of either for larger numbers is
    not modelled: a statement that a token with an expiry of the caller's
    choice is accepted bounds that expiry by 2^53. *)
Definition verifyDateClaim (check : option Time -> Time -> bool -> bool)
    (m : MapClaims) (name : string) (cmp : Z) (req : bool) : bool :=
  let cmpTime := FromUnix cmp in
  match m !! name with
  | None => negb req
  | Some (JNumber v) =>
      if v =? 0 then check None cmpTime req
      else check (Some (FromUnix v)) cmpTime req
  | Some _ => false
  end.

Definition VerifyExpiresAt (m : MapClaims) (cmp : Z) (req : bool) : bool :=
  verifyDateClaim verifyExp m "exp" cmp req.

Definition VerifyIssuedAt (m : MapClaims) (cmp : Z) (req : bool) : bool :=
  verifyDateClaim verifyIat m "iat" cmp req.

Definition VerifyNotBefore (m : MapClaims) (cmp : Z) (req : bool) : bool :=
  verifyDateClaim verifyNbf m "nbf" cmp req.

(** [MapClaims.Valid()], with [TimeFunc()] reading [clock]. *)
Definition ClaimsValid (clock : Time) (m : MapClaims) : option error :=
  let now := Unix clock in
  let v := emptyVErr in
  let v := if VerifyExpiresAt m now false then v
           else flag v (New "Token is expired") ValidationErrorExpired in
  let v := if VerifyIssuedAt m now false then v
           else flag v (New "Token used before issued") ValidationErrorIssuedAt in
  let v := if VerifyNotBefore m now false then v
           else flag v (New "Token is not valid yet") ValidationErrorNotValidYet in
  if valid v then None else Some (asError v).

(** ** Parsing (parser.go) *)

Definition lowerChar (c : ascii) : ascii :=
  let n := nat_of_ascii c in
  if (65 <=? n)%nat && (n <=? 90)%nat then ascii_of_nat (n + 32) else c.

Fixpoint ToLower (s : string) : string :=
  match s with
  | EmptyString => EmptyString
  | String c rest => String (lowerChar c) (ToLower rest)
  end.

(** [Parser.ParseUnverified] into [MapClaims]: the token without its
    [Valid] flag, and the text to verify. *)
Definition ParseUnverified (tokenString : TokenString)
    : result (Token * SigningString) :=
  match tokenString with
  | NotThreeSegments _ =>
      Err (NewValidationError "token contains an invalid number of segments"
                              ValidationErrorMalformed)
  | Compact (Undecodable raw err) _ _ =>
      if String.prefix "bearer " (ToLower raw)
      then Err (NewValidationError "tokenstring should not contain 'bearer '"
                                   ValidationErrorMalformed)
      else Err (ValidationError (Some err) ValidationErrorMalformed "")
  | Compact (Encoded _) (Undecodable _ err) _ =>
      Err (ValidationError (Some err) ValidationErrorMalformed "")
  | Compact (Encoded header as h) (Encoded claims as c) sig =>
      match header !! "alg" with
      | Some (JString method) =>
          match GetSigningMethod method with
          | Some m =>
              Ok ({| Method := m; TokenHeader := header; Claims := claims;
                     Signature := sig; Valid := false |}, (h, c))
          | None =>
              Err (NewValidationError "signing method (alg) is unavailable."
                                      ValidationErrorUnverifiable)
          end
      | _ =>
          Err (NewValidationError "signing method (alg) is unspecified."
                                  ValidationErrorUnverifiable)
      end
  end.

Section Signing.

Context `{Mac}.

(** [method.Verify(signingString, signature, key)] for a key of type
    [[]byte], the only kind of key this program hands out: the methods other
    than HMAC refuse it. *)
Definition Verify (m : SigningMethod) (signingString : SigningString)
    (signature : Segment string) (key : string) : option error :=
  match m with
  | SigningMethodHMAC h =>
      match signature with
      | Undecodable _ err => Some err
      | Encoded sig =>
          if String.eqb sig (hmacSum h key signingString) then None
          else Some ErrSignatureInvalid
      end
  | SigningMethodNone => Some NoneSignatureTypeDisallowedError
  | _ => Some ErrInvalidKeyType
  end.

(** [method.Sign(signingString, key)], again for a [[]byte] key. *)
Definition Sign (m : SigningMethod) (signingString : SigningString)
    (key : string) : result (Segment string) :=
  match m with
  | SigningMethodHMAC h => Ok (Encoded (hmacSum h key signingString))
  | SigningMethodNone => Err NoneSignatureTypeDisallowedError
  | _ => Err ErrInvalidKeyType
  end.

(** [token.SignedString(key)]. *)
Definition SignedString (t : Token) (key : string) : result TokenString :=
  let sstr : SigningString := (Encoded (TokenHeader t), Encoded (Claims t)) in
  match Sign (Method t) sstr key with
  | Err e => Err e
  | Ok sig => Ok (Compact (fst sstr) (snd sstr) sig)
  end.

(** [jwt.Parse(tokenString, keyFunc)] at time [clock], with the library
    calls it makes on the way.  As in v4.5.0, the claims are validated
    before the signature is checked and both findings are reported
    together. *)
Definition Parse (clock : Time) (tokenString : TokenString)
    (keyFunc : Token -> result string) : result Token * list ParseEvent :=
  match ParseUnverified tokenString with
  | Err e => (Err e, [])
  | Ok (token, signingString) =>
      match keyFunc token with
      | Err (ValidationError _ _ _ as ve) => (Err ve, [CallKeyfunc])
      | Err err =>
          (Err (ValidationError (Some err) ValidationErrorUnverifiable ""),
           [CallKeyfunc])
      | Ok key =>
          let v := match ClaimsValid clock (Claims token) with
                   | Some (ValidationError i e t) =>
                       {| vInner := i; vErrors := e; vText := t |}
                   | Some err =>
                       {| vInner := Some err;
                          vErrors := ValidationErrorClaimsInvalid;
                          vText := "" |}
                   | None => emptyVErr
                   end in
          let v := match Verify (Method token) signingString
                                (Signature token) key with
                   | Some err => flag v err ValidationErrorSignatureInvalid
                   | None => v
                   end in
          if valid v
          then (Ok {| Method := Method token; TokenHeader := TokenHeader token;
                      Claims := Claims token; Signature := Signature token;
                      Valid := true |}, [CallKeyfunc; CallVerify])
          else (Err (asError v), [CallKeyfunc; CallVerify])
      end
  end.

End Signing.

End jwt.

(* ===================================================================== *)
(** * Package config (config/config.go) *)
(* ===================================================================== *)

Module config.

(** [EnvConfig]; the two integer ports, which no token or session code
    reads, are left out. *)
Record EnvConfig : Type := mkEnvConfig {
  JwtScretKey : string;
  DBHost : string;
  DBUser : string;
  DBPassword : string;
  DBName : string;
  AppEnv : string;
  LogLevel : string
}.

(** The process environment after [godotenv.Load()], as [os.Getenv] reads
    it: an unset variable reads as the empty string. *)
Definition Getenv (env : gmap string string) (key : string) : string :=
  default "" (env !! key).

Definition getEnv (env : gmap string string) (key defaultValue : string)
    : string :=
  let value := Getenv env key in
  if String.eqb value "" then defaultValue else value.

Definition EnvLoad (env : gmap string string) : EnvConfig :=
  {| JwtScretKey := getEnv env "JWT_SCRET_KEY" "";
     DBHost := getEnv env "DB_HOST" "localhost";
     DBUser := getEnv env "DB_USER" "postgres";
     DBPassword := getEnv env "DB_PASSWORD" "";
     DBName := getEnv env "DB_NAME" "myapp";
     AppEnv := getEnv env "APP_ENV" "development";
     LogLevel := getEnv env "LOG_LEVEL" "info" |}.

End config.

(* ===================================================================== *)
(** * Package utils (internal/utils) *)
(* ===================================================================== *)

Module utils.

Import jwt.

Section Tokens.

Context `{Mac}.

(** [GenerateToken(username, id)] in environment [env] at time [now]. *)
Definition GenerateToken (env : gmap string string) (now : Time)
    (username id : string) : result TokenString :=
  let envConfig := config.EnvLoad env in
  let token := NewToken SigningMethodHS256 in
  let claims := Claims token in
  let claims := <["userId" := JString id]> claims in
  let claims := <["username" := JString username]> claims in
  let claims :=
    <["exp" := JNumber (Unix (Add now (Hour * 24 * 7)))]> claims in
  let token := {| Method := Method token; TokenHeader := TokenHeader token;
                  Claims := claims; Signature := Signature token;
                  Valid := Valid token |} in
  match SignedString token (config.JwtScretKey envConfig) with
  | Err err => Err (New ("failed to sign token: " +:+ Error err))
  | Ok tokenString => Ok tokenString
  end.

(** The key function of [utils.ValidateToken]. *)
Definition keyFunc (envConfig : config.EnvConfig) (token : Token)
    : result string :=
  if negb (isSigningMethodHMAC (Method token)) then
    Err (New ("unexpected signing method: " +:+
              match TokenHeader token !! "alg" with
              | Some (JString a) => a
              | _ => "<nil>"
              end))
  else Ok (config.JwtScretKey envConfig).

(** [ValidateToken(tokenString)]: the claims of a valid token. *)
Definition ValidateToken (env : gmap string string) (now : Time)
    (tokenString : TokenString) : result MapClaims * list ParseEvent :=
  let envConfig := config.EnvLoad env in
  match Parse now tokenString (keyFunc envConfig) with
  | (Err err, events) =>
      (Err (New ("failed to parse token: " +:+ Error err)), events)
  | (Ok token, events) =>
      if Valid token then (Ok (Claims token), events)
      else (Err (New "invalid token"), events)
  end.

End Tokens.

End utils.

(* ===================================================================== *)
(** * Package constants (constants/redis_keys.go) *)
(* ===================================================================== *)

Module constants.

(** The Redis key of the set of all active users. *)
Definition ActiveUsersRK : string := "active_users".

(** The format of the key that stores a user's session. *)
Definition UserSessionRK : string := "session:%s".

End constants.

(** [fmt.Sprintf(format, arg)] for a format with [%s] verbs and one string
    argument: the first [%s] is replaced by the argument. *)
Fixpoint Sprintf (format arg : string) : string :=
  match format with
  | String "%" (String "s" rest) => arg +:+ rest
  | String c rest => String c (Sprintf rest arg)
  | EmptyString => EmptyString
  end.

(* ===================================================================== *)
(** * The Redis server behind go-redis v9 *)
(* ===================================================================== *)

Module redis.

(** A hash key: its fields and, once EXPIRE has been applied, the instant at
    which the server drops it. *)
Record HashEntry : Type := mkHashEntry {
  fields : gmap string string;
  deadline : option Time
}.

(** The server as the client sees it.  [outcomes] is what the connection
    will do to the coming commands, one entry per command: [None] (or no
    entry left) lets the command through, [Some err] makes it fail with
    [err] without any effect on the data. *)
Record Client : Type := mkClient {
  hashes : gmap string HashEntry;
  sets : gmap string (gset string);
  outcomes : list (option error)
}.

(** Take the outcome of the next command. *)
Definition next (r : Client) : option error * Client :=
  match outcomes r with
  | [] => (None, r)
  | o :: rest =>
      (o, {| hashes := hashes r; sets := sets r; outcomes := rest |})
  end.

Definition withHashes (r : Client) (h : gmap string HashEntry) : Client :=
  {| hashes := h; sets := sets r; outcomes := outcomes r |}.

Definition withSets (r : Client) (s : gmap string (gset string)) : Client :=
  {| hashes := hashes r; sets := s; outcomes := outcomes r |}.

Definition live (now : Time) (e : HashEntry) : bool :=
  match deadline e with
  | None => true
  | Some d => now <? d
  end.

(** The hash stored at [key] at time [now], if it has not timed out. *)
Definition liveHash (r : Client) (now : Time) (key : string)
    : option HashEntry :=
  match hashes r !! key with
  | Some e => if live now e then Some e else None
  | None => None
  end.

(** HSET key field value [field value ...]: the given fields are written
    over those of the hash, its other fields and its time-out stay. *)
Definition HSet (r : Client) (now : Time) (key : string)
    (values : gmap string string) : option error * Client :=
  match next r with
  | (Some err, r) => (Some err, r)
  | (None, r) =>
      let old := default {| fields := ∅; deadline := None |}
                         (liveHash r now key) in
      (None, withHashes r
               (<[key := {| fields := values ∪ fields old;
                            deadline := deadline old |}]> (hashes r)))
  end.

(** go-redis sends a time-out in whole seconds (command.go, [formatSec]). *)
Definition formatSec (dur : Duration) : Z :=
  if (0 <? dur) && (dur <? Second) then 1 else Z.quot dur Second.

(** EXPIRE key seconds: a positive time-out replaces the deadline of an
    existing key, a time-out that is not positive deletes the key. *)
Definition Expire (r : Client) (now : Time) (key : string)
    (expiration : Duration) : option error * Client :=
  match next r with
  | (Some err, r) => (Some err, r)
  | (None, r) =>
      match liveHash r now key with
      | None => (None, r)
      | Some e =>
          let seconds := formatSec expiration in
          if seconds <=? 0 then (None, withHashes r (delete key (hashes r)))
          else (None, withHashes r
                        (<[key := {| fields := fields e;
                                     deadline := Some (now + seconds * Second)
                                  |}]> (hashes r)))
      end
  end.

(** SADD key member. *)
Definition SAdd (r : Client) (key member : string) : option error * Client :=
  match next r with
  | (Some err, r) => (Some err, r)
  | (None, r) =>
      (None, withSets r
               (<[key := {[member]} ∪ default ∅ (sets r !! key)]> (sets r)))
  end.

(** HGETALL key: every field of the hash, none for a key that is absent or
    has timed out. *)
Definition HGetAll (r : Client) (now : Time) (key : string)
    : result (gmap string string) * Client :=
  match next r with
  | (Some err, r) => (Err err, r)
  | (None, r) =>
      (Ok (match liveHash r now key with
           | Some e => fields e
           | None => ∅
           end), r)
  end.

(** DEL key. *)
Definition Del (r : Client) (key : string) : option error * Client :=
  match next r with
  | (Some err, r) => (Some err, r)
  | (None, r) =>
      (None, {| hashes := delete key (hashes r);
                sets := delete key (sets r);
                outcomes := outcomes r |})
  end.

End redis.

(* ===================================================================== *)
(** * Package user (internal/user) *)
(* ===================================================================== *)

Module user.

(** ** Models *)

Record User : Type := mkUser {
  ID : string;
  Username : string;
  Email : string;
  PasswordHash : string;
  LuckyNumber : string;
  FirstName : string;
  LastName : string;
  Location : string;
  ProfilePicture : string;
  CoverPicture : string;
  Ft3Pictures : list string;
  IsPremium : bool;
  PremiumExp : option Time;
  IsPrivate : bool;
  IsVerified : bool;
  ProfileLikes : Z;
  LastLoginAt : option Time;
  CreatedAt : Time;
  UpdatedAt : Time;
  DeletedAt : option Time
}.

(** [UserSession]: a login session (stored in Redis). *)
Record UserSession : Type := mkUserSession {
  sID : string;
  sUserID : string;
  sTokenHash : string;
  sUserAgent : string;
  sIP : string;
  sExpiresAt : Time;
  sCreatedAt : Time;
  sUpdatedAt : Time
}.

Record LoginRequest : Type := mkLoginRequest {
  reqEmail : string;
  reqPassword : string
}.

Record UserResponse : Type := mkUserResponse {
  rID : string;
  rUsername : string;
  rEmail : string;
  rFirstName : string;
  rLastName : string;
  rLocation : string;
  rProfilePicture : string;
  rCoverPicture : string;
  rFt3Pictures : list string;
  rProfileLikes : Z;
  rIsPremium : bool;
  rPremiumExp : option Time;
  rIsPrivate : bool;
  rIsVerified : bool;
  rCreatedAt : Time
}.

Record LoginResponse : Type := mkLoginResponse {
  Token : string;
  ExpiresAt : Time;
  RespUser : UserResponse
}.

Definition ToResponse (u : User) : UserResponse :=
  {| rID := ID u; rUsername := Username u; rEmail := Email u;
     rFirstName := FirstName u; rLastName := LastName u;
     rLocation := Location u; rProfilePicture := ProfilePicture u;
     rCoverPicture := CoverPicture u; rFt3Pictures := Ft3Pictures u;
     rProfileLikes := ProfileLikes u; rIsPremium := IsPremium u;
     rPremiumExp := PremiumExp u; rIsPrivate := IsPrivate u;
     rIsVerified := IsVerified u; rCreatedAt := CreatedAt u |}.

(** bcrypt is a parameter: [CompareHashAndPassword hash password] holds when
    the library returns no error. *)
Class Bcrypt := { CompareHashAndPassword : string -> string -> bool }.

(** [CheckPasswordHash(password, hash)]. *)
Definition CheckPasswordHash `{Bcrypt} (password hash : string) : bool :=
  CompareHashAndPassword hash password.

(** ** The relational store behind gorm *)

(** The users table in primary-key order, and the error every query meets
    while the connection is broken. *)
Record DB : Type := mkDB {
  rows : list User;
  broken : option error
}.

Definition ErrRecordNotFound : error := New "record not found".

(** [errors.Is(err, gorm.ErrRecordNotFound)]. *)
Definition isRecordNotFound (err : error) : bool :=
  match err with
  | errorString s => String.eqb s "record not found"
  | _ => false
  end.

(** [db.First(user, cond)]: the first row that is not soft-deleted and meets
    the condition. *)
Definition First (d : DB) (cond : User -> bool) : result User :=
  match broken d with
  | Some err => Err err
  | None =>
      match List.find (fun u => match DeletedAt u with
                                | None => cond u
                                | Some _ => false
                                end) (rows d) with
      | Some u => Ok u
      | None => Err ErrRecordNotFound
      end
  end.

(** ** The repository (repository.go) *)

(** The state behind a [UserPersistRepository]: its two stores, and the
    lines the repository has written through package log. *)
Record UserPersistRepository : Type := mkRepo {
  db : DB;
  redis : redis.Client;
  logged : list string
}.

Definition withRedis (r : UserPersistRepository) (c : redis.Client)
    : UserPersistRepository :=
  {| db := db r; redis := c; logged := logged r |}.

Definition GetByEmail (r : UserPersistRepository) (email : string)
    : result User :=
  match First (db r) (fun u => String.eqb (Email u) email) with
  | Err err =>
      if isRecordNotFound err then Err (New "user not found") else Err err
  | Ok u => Ok u
  end.

Section Sessions.

Context `{Layout}.

(** The hash fields [CreateSession] writes. *)
Definition sessionFields (session : UserSession) : gmap string string :=
  <["user_id" := sUserID session]>
  (<["user_agent" := sUserAgent session]>
  (<["ip" := sIP session]>
  (<["expires_at" := Format (sExpiresAt session)]>
  (<["created_at" := Format (sCreatedAt session)]>
  (<["updated_at" := Format (sUpdatedAt session)]> ∅))))).

(** The session as [CreateSession] stamps it before anything else: the
    creation time when it was not provided, and the update time. *)
Definition stamp (now : Time) (session : UserSession) : UserSession :=
  {| sID := sID session; sUserID := sUserID session;
     sTokenHash := sTokenHash session; sUserAgent := sUserAgent session;
     sIP := sIP session; sExpiresAt := sExpiresAt session;
     sCreatedAt := if IsZero (sCreatedAt session) then now
                   else sCreatedAt session;
     sUpdatedAt := now |}.

(** [CreateSession(ctx, session)] at time [now]; every [time.Now()] of one
    call reads the same instant. *)
Definition CreateSession (r : UserPersistRepository) (now : Time)
    (session : UserSession) : result UserSession * UserPersistRepository :=
  let session := stamp now session in
  let ttl := mulDuration (Sub (sExpiresAt session) now) 2 in
  if ttl <=? 0 then (Err (New "session already expired"), r)
  else
    let sessionKey := Sprintf constants.UserSessionRK (sUserID session) in
    let fields := sessionFields session in
    match redis.HSet (redis r) now sessionKey fields with
    | (Some err, c) =>
        (Err (Errorf_w "failed to store session in Redis: " err),
         withRedis r c)
    | (None, c) =>
        match redis.Expire c now sessionKey ttl with
        | (Some err, c) =>
            (Err (Errorf_w "failed to set session expiration: " err),
             withRedis r c)
        | (None, c) =>
            let activeUsersKey := constants.ActiveUsersRK in
            match redis.SAdd c activeUsersKey (sUserID session) with
            | (Some err, c) =>
                (Err (Errorf_w "failed to add user to active users set: " err),
                 withRedis r c)
            | (None, c) => (Ok session, withRedis r c)
            end
        end
    end.

(** [sessionData[name]] on a Go map: the empty string for a missing key. *)
Definition field (sessionData : gmap string string) (name : string) : string :=
  default "" (sessionData !! name).

(** A time field as [GetSession] reads it: the zero Time when the text does
    not parse. *)
Definition parsedOrZero (sessionData : gmap string string) (name : string)
    : Time :=
  match Parse (field sessionData name) with
  | Some t => t
  | None => zeroTime
  end.

(** The session [GetSession] reconstructs from the fields of a hash. *)
Definition sessionOfFields (userId : string)
    (sessionData : gmap string string) : UserSession :=
  {| sID := ""; sUserID := userId; sTokenHash := "";
     sUserAgent := field sessionData "user_agent";
     sIP := field sessionData "ip";
     sExpiresAt := parsedOrZero sessionData "expires_at";
     sCreatedAt := parsedOrZero sessionData "created_at";
     sUpdatedAt := parsedOrZero sessionData "updated_at" |}.

(** [GetSession(ctx, userId)] at time [now]. *)
Definition GetSession (r : UserPersistRepository) (now : Time)
    (userId : string) : result UserSession * UserPersistRepository :=
  let sessionKey := Sprintf "session:%s" userId in
  match redis.HGetAll (redis r) now sessionKey with
  | (Err err, c) =>
      (Err (Errorf_w "failed to get session data: " err), withRedis r c)
  | (Ok sessionData, c) =>
      if (size sessionData =? 0)%nat
      then (Err (New ("session not found for user " +:+ userId)),
            withRedis r c)
      else
        let session := sessionOfFields userId sessionData in
        if After now (sExpiresAt session) then
          match redis.Del c sessionKey with
          | (Some err, c) =>
              (Err (New "session has expired"),
               {| db := db r; redis := c;
                  logged := logged r ++
                    ["Failed to delete expired session: " +:+ Error err] |})
          | (None, c) => (Err (New "session has expired"), withRedis r c)
          end
        else (Ok session, withRedis r c)
  end.

End Sessions.

(** ** The authentication service (auth_service.go) *)

Record AuthServiceConfig : Type := mkAuthServiceConfig {
  JWTSecret : string;
  TokenExpiration : Duration;
  UploadDir : string;
  DefaultAvatarURL : string
}.

Section Auth.

Context `{jwt.Mac} `{Layout} `{Bcrypt}.

(** [Login] calls a method [generateToken] of the service that the sources
    do not define; it is a parameter here, from the configuration, the clock
    and the user id to a token or an error. *)
Variable generateToken : AuthServiceConfig -> Time -> string -> result string.

(** [Login(ctx, req)] at time [now].  The source reads the service's
    repository and configuration as [s.userRepo], [s.repo] and [s.config]:
    they are the repository [r] and [authConfig]. *)
Definition Login (authConfig : AuthServiceConfig) (r : UserPersistRepository)
    (now : Time) (req : LoginRequest)
    : result LoginResponse * UserPersistRepository :=
  match GetByEmail r (reqEmail req) with
  | Err _ => (Err (New "invalid email"), r)
  | Ok user =>
      if negb (CheckPasswordHash (reqPassword req) (PasswordHash user))
      then (Err (New "invalid password"), r)
      else
        match generateToken authConfig now (ID user) with
        | Err _ => (Err (New "failed to generate token"), r)
        | Ok token =>
            let session :=
              {| sID := ""; sUserID := ID user; sTokenHash := token;
                 sUserAgent := ""; sIP := "";
                 sExpiresAt := Add now (TokenExpiration authConfig);
                 sCreatedAt := now; sUpdatedAt := now |} in
            match CreateSession r now session with
            | (Err _, r) => (Err (New "failed to create session"), r)
            | (Ok _, r) =>
                (Ok {| Token := token; ExpiresAt := sExpiresAt session;
                       RespUser := ToResponse user |}, r)
            end
        end
  end.

(** The key function of [AuthServiceImpl.ValidateToken]. *)
Definition keyFunc (authConfig : AuthServiceConfig) (token : jwt.Token)
    : result string :=
  if negb (jwt.isSigningMethodHMAC (jwt.Method token))
  then Err (New "unexpected signing method")
  else Ok (JWTSecret authConfig).

(** [ValidateToken(tokenString)] at time [now]: the user id of a valid
    token.  As in the library, [time.Unix(int64(exp), 0)] is taken exactly,
    which it is for whole seconds up to 2^53. *)
Definition ValidateToken (authConfig : AuthServiceConfig) (now : Time)
    (tokenString : jwt.TokenString) : result string * list jwt.ParseEvent :=
  match jwt.Parse now tokenString (keyFunc authConfig) with
  | (Err err, events) => (Err err, events)
  | (Ok token, events) =>
      if jwt.Valid token then
        match jwt.Claims token !! "exp" with
        | Some (jwt.JNumber exp) =>
            if Before (FromUnix exp) now
            then (Err (New "token expired"), events)
            else
              match jwt.Claims token !! "sub" with
              | Some (jwt.JString userID) => (Ok userID, events)
              | _ => (Err (New "invalid user ID in token"), events)
              end
        | _ => (Err (New "invalid token expiration"), events)
        end
      else (Err (New "invalid token"), events)
  end.

End Auth.

End user.

(* ===================================================================== *)
(** * Stand-ins for the cryptographic parameters *)
(* ===================================================================== *)

(** The theorems below hold for every MAC and every password hash.  To run
    the code on concrete inputs one of each is needed; these are transparent
    ones, of no cryptographic value. *)
Module Reference.

Import jwt.

Definition showValue (v : JValue) : string :=
  match v with
  | JString s => s
  | JNumber n => pretty n
  | JBool b => if b then "true" else "false"
  | JNull => "null"
  end.

Definition showMap (m : gmap string JValue) : string :=
  foldr (fun kv acc => kv.1 +:+ "=" +:+ showValue kv.2 +:+ ";" +:+ acc)
        "" (map_to_list m).

Definition showSegment (s : Segment (gmap string JValue)) : string :=
  match s with
  | Encoded m => showMap m
  | Undecodable raw _ => raw
  end.

(** The key and the signed text, spelled out. *)
Definition plainMac : Mac :=
  {| hmacSum h key sstr :=
       "mac" +:+ hashSuffix h +:+ "(" +:+ key +:+ "," +:+
       showSegment sstr.1 +:+ "." +:+ showSegment sstr.2 +:+ ")" |}.

(** A hash is the password behind a fixed prefix. *)
Definition plainBcrypt : user.Bcrypt :=
  {| user.CompareHashAndPassword hash password :=
       String.eqb hash ("$2a$14$" +:+ password) |}.

(** A [generateToken] for [user.Login]: the user id behind a prefix. *)
Definition plainGenerateToken (_ : user.AuthServiceConfig) (_ : Time)
    (id : string) : result string :=
  Ok ("token-of-" +:+ id).

End Reference.

(* ===================================================================== *)
(** * Package user, continued: the users table (repository.go) *)
(* ===================================================================== *)

Module repository.

Import user.

Definition withDB (r : UserPersistRepository) (d : DB)
    : UserPersistRepository :=
  {| db := d; redis := redis r; logged := logged r |}.

(** [GetByID(ctx, id)].  The table is searched by comparing strings: an id
    that the column type would refuse is one that no row has. *)
Definition GetByID (r : UserPersistRepository) (id : string) : result User :=
  match First (db r) (fun u => String.eqb (ID u) id) with
  | Err err =>
      if isRecordNotFound err then Err (New "user not found") else Err err
  | Ok u => Ok u
  end.

(** [GetByUsername(ctx, username)]. *)
Definition GetByUsername (r : UserPersistRepository) (username : string)
    : result User :=
  match First (db r) (fun u => String.eqb (Username u) username) with
  | Err err =>
      if isRecordNotFound err then Err (New "user not found") else Err err
  | Ok u => Ok u
  end.

Definition setDeletedAt (u : User) (t : option Time) : User :=
  {| ID := ID u; Username := Username u; Email := Email u;
     PasswordHash := PasswordHash u; LuckyNumber := LuckyNumber u;
     FirstName := FirstName u; LastName := LastName u;
     Location := Location u; ProfilePicture := ProfilePicture u;
     CoverPicture := CoverPicture u; Ft3Pictures := Ft3Pictures u;
     IsPremium := IsPremium u; PremiumExp := PremiumExp u;
     IsPrivate := IsPrivate u; IsVerified := IsVerified u;
     ProfileLikes := ProfileLikes u; LastLoginAt := LastLoginAt u;
     CreatedAt := CreatedAt u; UpdatedAt := UpdatedAt u; DeletedAt := t |}.

(** What a soft delete does to one row: [deleted_at] is set on a row that
    meets the condition and is not deleted yet. *)
Definition markDeleted (now : Time) (cond : User -> bool) (u : User) : User :=
  match DeletedAt u with
  | None => if cond u then setDeletedAt u (Some now) else u
  | Some _ => u
  end.

(** [db.Delete(&User{}, cond)].  [User.DeletedAt] is a [gorm.DeletedAt], so
    the delete is a soft one: an UPDATE that sets [deleted_at] to the
    current time on the rows that meet the condition and are not deleted
    yet.  That no row is affected is not an error. *)
Definition softDelete (d : DB) (now : Time) (cond : User -> bool)
    : option error * DB :=
  match broken d with
  | Some err => (Some err, d)
  | None =>
      (None, {| rows := List.map (markDeleted now cond) (rows d);
                broken := None |})
  end.

(** [Delete(ctx, username)] at time [now]. *)
Definition Delete (r : UserPersistRepository) (now : Time) (username : string)
    : option error * UserPersistRepository :=
  match softDelete (db r) now (fun u => String.eqb (Username u) username) with
  | (err, d) => (err, withDB r d)
  end.

Section Writes.

(** gorm's [Create] and [Save] are not embedded: what an INSERT or an
    UPDATE of all fields does depends on the hooks, the column defaults and
    the constraints of the table.  They are parameters, from the table, the
    clock and the record behind the pointer to the error, the record as the
    call leaves it, and the table. *)
Variable dbCreate : DB -> Time -> User -> option error * User * DB.
Variable dbSave : DB -> Time -> User -> option error * User * DB.

(** [Create(ctx, user)]; the record is passed by pointer, so what gorm
    writes into it is returned beside the error. *)
Definition Create (r : UserPersistRepository) (now : Time) (user : User)
    : option error * User * UserPersistRepository :=
  match dbCreate (db r) now user with
  | (err, user, d) => (err, user, withDB r d)
  end.

(** [Update(ctx, user)]. *)
Definition Update (r : UserPersistRepository) (now : Time) (user : User)
    : option error * User * UserPersistRepository :=
  match dbSave (db r) now user with
  | (err, user, d) => (err, user, withDB r d)
  end.

End Writes.

End repository.

(* ===================================================================== *)
(** * Package user, continued: the user service *)
(* ===================================================================== *)

Module service.

Import user repository.

(** [UserServiceImpl] holds a [UserRepository]; the implementation in the
    sources is [UserPersistRepository], whose functions are the ones called
    here. *)

(** [CreateUserRequest].  [Register] reads [req.LuckyNumber], which the
    declaration of the struct in the sources does not list; it is a field
    here. *)
Record CreateUserRequest : Type := mkCreateUserRequest {
  cUsername : string;
  cEmail : string;
  cPassword : string;
  cFirstName : string;
  cLastName : string;
  cLuckyNumber : string;
  cProfilePicture : string;
  cCoverPicture : string;
  cFt3Pictures : list string;
  cIsPremium : bool;
  cIsPrivate : bool;
  cIsVerified : bool
}.

(** [UpdateUserRequest]; a nil slice and the nil pointers are [None]. *)
Record UpdateUserRequest : Type := mkUpdateUserRequest {
  upFirstName : string;
  upLastName : string;
  upEmail : string;
  upProfilePicture : string;
  upCoverPicture : string;
  upFt3Pictures : option (list string);
  upIsPremium : option bool;
  upPremiumExp : option Time;
  upIsPrivate : option bool;
  upIsVerified : option bool
}.

(** [CheckEmailAndUsernameRequest] is not declared in the sources; these are
    the two fields the service reads. *)
Record CheckEmailAndUsernameRequest : Type := mkCheckRequest {
  chkUsername : string;
  chkEmail : string
}.

Record UserProfile : Type := mkUserProfile {
  pID : string;
  pUsername : string;
  pFirstName : string;
  pLastName : string;
  pLocation : string;
  pProfilePicture : string;
  pCoverPicture : string;
  pFt3Pictures : list string;
  pProfileLikes : Z;
  pIsPremium : bool;
  pPremiumExp : option Time;
  pIsPrivate : bool;
  pIsVerified : bool;
  pPostsCount : Z
}.

Definition ToProfile (u : User) : UserProfile :=
  {| pID := ID u; pUsername := Username u; pFirstName := FirstName u;
     pLastName := LastName u; pLocation := Location u;
     pProfilePicture := ProfilePicture u; pCoverPicture := CoverPicture u;
     pFt3Pictures := Ft3Pictures u; pProfileLikes := ProfileLikes u;
     pIsPremium := IsPremium u; pPremiumExp := PremiumExp u;
     pIsPrivate := IsPrivate u; pIsVerified := IsVerified u;
     pPostsCount := 0 |}.

(** bcrypt's hashing is a parameter: the hash of a password at a cost, or
    the library's error. *)
Class BcryptHash := { GenerateFromPassword : string -> Z -> result string }.

(** [HashPassword(password)]. *)
Definition HashPassword `{BcryptHash} (password : string) : result string :=
  GenerateFromPassword password 14.

Section Service.

Context `{BcryptHash}.

Variable dbCreate : DB -> Time -> User -> option error * User * DB.
Variable dbSave : DB -> Time -> User -> option error * User * DB.

(** [Register(ctx, req)] at time [now]: the user and the token, or the
    error.  The lookups of this repository return a user exactly when they
    return no error, which decides the tests [err == nil && existing != nil]. *)
Definition Register (r : UserPersistRepository) (now : Time)
    (req : CreateUserRequest)
    : result (User * string) * UserPersistRepository :=
  match GetByUsername r (cUsername req) with
  | Ok _ => (Err (New "username already exists"), r)
  | Err _ =>
      match GetByEmail r (cEmail req) with
      | Ok _ => (Err (New "email already exists"), r)
      | Err _ =>
          match HashPassword (cPassword req) with
          | Err _ => (Err (New "failed to hash password"), r)
          | Ok hashedPassword =>
              let user :=
                {| ID := ""; Username := cUsername req; Email := cEmail req;
                   PasswordHash := hashedPassword;
                   LuckyNumber := cLuckyNumber req;
                   FirstName := cFirstName req; LastName := cLastName req;
                   Location := "";
                   ProfilePicture := cProfilePicture req;
                   CoverPicture := cCoverPicture req;
                   Ft3Pictures := cFt3Pictures req;
                   IsPremium := false; PremiumExp := None;
                   IsPrivate := cIsPrivate req;
                   IsVerified := cIsVerified req;
                   ProfileLikes := 0; LastLoginAt := None;
                   CreatedAt := now; UpdatedAt := now; DeletedAt := None |} in
              match Create dbCreate r now user with
              | (Some err, _, r) => (Err err, r)
              | (None, user, r) => (Ok (user, ""), r)
              end
          end
      end
  end.

(** [CheckEmailAndUsername(ctx, req)]. *)
Definition CheckEmailAndUsername (r : UserPersistRepository)
    (req : CheckEmailAndUsernameRequest) : bool * option error :=
  match GetByUsername r (chkUsername req) with
  | Ok _ => (true, Some (New "username already exists"))
  | Err _ =>
      match GetByEmail r (chkEmail req) with
      | Ok _ => (true, Some (New "email already exists"))
      | Err _ => (false, None)
      end
  end.

(** [GetProfile(ctx, userID)]. *)
Definition GetProfile (r : UserPersistRepository) (userID : string)
    : result UserProfile :=
  match GetByID r userID with
  | Err err => Err err
  | Ok user => Ok (ToProfile user)
  end.

(** The assignments of [UpdateProfile] to the user it has read. *)
Definition applyUpdate (now : Time) (req : UpdateUserRequest) (user : User)
    : User :=
  {| ID := ID user; Username := Username user; Email := Email user;
     PasswordHash := PasswordHash user; LuckyNumber := LuckyNumber user;
     FirstName := if String.eqb (upFirstName req) "" then FirstName user
                  else upFirstName req;
     LastName := if String.eqb (upLastName req) "" then LastName user
                 else upLastName req;
     Location := Location user;
     ProfilePicture := if String.eqb (upProfilePicture req) ""
                       then ProfilePicture user else upProfilePicture req;
     CoverPicture := if String.eqb (upCoverPicture req) ""
                     then CoverPicture user else upCoverPicture req;
     Ft3Pictures := match upFt3Pictures req with
                    | Some pictures => pictures
                    | None => Ft3Pictures user
                    end;
     IsPremium := IsPremium user; PremiumExp := PremiumExp user;
     IsPrivate := IsPrivate user; IsVerified := IsVerified user;
     ProfileLikes := ProfileLikes user; LastLoginAt := LastLoginAt user;
     CreatedAt := CreatedAt user; UpdatedAt := now;
     DeletedAt := DeletedAt user |}.

(** [UpdateProfile(ctx, userID, req)] at time [now]. *)
Definition UpdateProfile (r : UserPersistRepository) (now : Time)
    (userID : string) (req : UpdateUserRequest)
    : result User * UserPersistRepository :=
  match GetByID r userID with
  | Err err => (Err err, r)
  | Ok user =>
      let user := applyUpdate now req user in
      match Update dbSave r now user with
      | (Some err, _, r) => (Err err, r)
      | (None, user, r) => (Ok user, r)
      end
  end.

End Service.

(** [DeleteProfile(ctx, userID)] at time [now].  The user id is what the
    service hands to the repository's [Delete]; a lookup of this repository
    that returns no error returns a user, so the test [user == nil] is never
    met. *)
Definition DeleteProfile (r : UserPersistRepository) (now : Time)
    (userID : string) : option error * UserPersistRepository :=
  match GetByID r userID with
  | Err err => (Some err, r)
  | Ok _ =>
      match Delete r now userID with
      | (Some err, r) => (Some err, r)
      | (None, r) => (None, r)
      end
  end.

End service.

(* ===================================================================== *)
(** * Package config, continued: the two ports *)
(* ===================================================================== *)

Module strconv.

(** The two errors of package strconv. *)
Inductive NumError : Type := ErrSyntax | ErrRange.

Definition digit (c : ascii) : option Z :=
  let n := Z.of_N (N_of_ascii c) in
  if (48 <=? n) && (n <=? 57) then Some (n - 48) else None.

Definition maxUint64 : Z := 2 ^ 64 - 1.

(** The loop of [ParseUint(s, 10, 64)] with [n] read so far: a byte that is
    not a digit is a syntax error with value 0; a number beyond 64 bits is a
    range error with the largest value, reported at the digit that
    overflows, whatever follows it. *)
Fixpoint parseUint (s : string) (n : Z) : Z * option NumError :=
  match s with
  | EmptyString => (n, None)
  | String c rest =>
      match digit c with
      | None => (0, Some ErrSyntax)
      | Some d =>
          if maxUint64 / 10 + 1 <=? n then (maxUint64, Some ErrRange)
          else
            let n1 := n * 10 + d in
            if maxUint64 <? n1 then (maxUint64, Some ErrRange)
            else parseUint rest n1
      end
  end.

(** [ParseInt(s, 10, 0)] where an int has 64 bits. *)
Definition ParseInt (s : string) : Z * option NumError :=
  match s with
  | EmptyString => (0, Some ErrSyntax)
  | _ =>
      let '(neg, body) :=
        match s with
        | String "+" rest => (false, rest)
        | String "-" rest => (true, rest)
        | _ => (false, s)
        end in
      match body with
      | EmptyString => (0, Some ErrSyntax)
      | _ =>
          match parseUint body 0 with
          | (_, Some ErrSyntax) => (0, Some ErrSyntax)
          | (un, _) =>
              let cutoff := 2 ^ 63 in
              if negb neg && (cutoff <=? un) then (cutoff - 1, Some ErrRange)
              else if neg && (cutoff <? un) then (- cutoff, Some ErrRange)
              else (if neg then - un else un, None)
          end
      end
  end.

(** [strconv.Atoi(s)].  Its fast path for short strings computes what
    [ParseInt] computes. *)
Definition Atoi (s : string) : Z * option NumError := ParseInt s.

End strconv.

Module ports.

Import config.

(** The [Port] and [DBPort] of the configuration [EnvLoad] returns; the
    error of [Atoi] is dropped. *)
Definition Port (env : gmap string string) : Z :=
  fst (strconv.Atoi (getEnv env "PORT" "9090")).

Definition DBPort (env : gmap string string) : Z :=
  fst (strconv.Atoi (getEnv env "DB_PORT" "5432")).

End ports.

(* ===================================================================== *)
(** * What the properties speak about *)
(* ===================================================================== *)

(** ** Tokens *)

Module Observe.

Import jwt.

(** The claim set a token string carries, when its claims segment decodes. *)
Definition claimsOf (ts : TokenString) : option MapClaims :=
  match ts with
  | Compact _ (Encoded c) _ => Some c
  | _ => None
  end.

(** The token lifetime of [GenerateToken], in seconds: 7 days. *)
Definition weekSeconds : Z := 7 * 24 * 3600.

(** The claims [GenerateToken] issues for a user at a given time. *)
Definition issuedClaims (now : Time) (username id : string) : MapClaims :=
  <["exp" := JNumber (Unix now + weekSeconds)]>
  (<["username" := JString username]>
  (<["userId" := JString id]> ∅)).

(** The instant at which a token issued at [now] expires. *)
Definition expiryOf (now : Time) : Time := FromUnix (Unix now + weekSeconds).

(** The names of the HMAC family. *)
Definition hmacAlgs : list string :=
  [Alg (SigningMethodHMAC SHA256); Alg (SigningMethodHMAC SHA384);
   Alg (SigningMethodHMAC SHA512)].

(** An error of the jwt library whose only flag is "unverifiable": the token
    was turned away for its signing method. *)
Definition AlgorithmMismatch (e : error) : Prop :=
  exists inner text, e = ValidationError inner ValidationErrorUnverifiable text.

End Observe.

(** ** The calendar, one era at a time *)

Module CalendarCheck.

(** The day-of-era part of [civil_from_days]: the year of the era, the
    month and the day of month of day [doe] of a 400-year era that starts
    on March 1. *)
Definition civil_of_doe (doe : Z) : Z * Z * Z :=
  let yoe := (doe - doe / 1460 + doe / 36524 - doe / 146096) / 365 in
  let doy := doe - (365 * yoe + yoe / 4 - yoe / 100) in
  let mp := (5 * doy + 2) / 153 in
  let d := doy - (153 * mp + 2) / 5 + 1 in
  let m := if mp <? 10 then mp + 3 else mp - 9 in
  (yoe, m, d).

(** The way back, as [days_from_civil] computes it within the era. *)
Definition doe_of_civil (yoe m d : Z) : Z :=
  let doy := (153 * (if 2 <? m then m - 3 else m + 9) + 2) / 5 + d - 1 in
  yoe * 365 + yoe / 4 - yoe / 100 + doy.

(** What holds of every day of the era: the fields are in range, the day
    exists in its month, the way back returns the day, and the last sixty
    days of the era are the January and February of its last year. *)
Definition dayOk (doe : Z) : bool :=
  let '(yoe, m, d) := civil_of_doe doe in
  let y := if m <=? 2 then yoe + 1 else yoe in
  (0 <=? yoe) && (yoe <=? 399) && (1 <=? m) && (m <=? 12) && (1 <=? d)
  && (d <=? daysIn y m) && (doe_of_civil yoe m d =? doe)
  && (if doe <? 146037 then y <=? 399 else (yoe =? 399) && (m <=? 2)).

(** The same in two steps: the year of the era, then month and day from the
    day of that year. *)
Definition yoe_of_doe (doe : Z) : Z :=
  (doe - doe / 1460 + doe / 36524 - doe / 146096) / 365.

(** The first day of a year of the era. *)
Definition yearStart (yoe : Z) : Z := 365 * yoe + yoe / 4 - yoe / 100.

(** The days of a year of the era; it runs from March to February, so its
    leap day is that of the following calendar year. *)
Definition yearLength (yoe : Z) : Z := if isLeap (yoe + 1) then 366 else 365.

Definition md_of_doy (doy : Z) : Z * Z :=
  let mp := (5 * doy + 2) / 153 in
  let d := doy - (153 * mp + 2) / 5 + 1 in
  (if mp <? 10 then mp + 3 else mp - 9, d).

Definition doy_of_md (m d : Z) : Z :=
  (153 * (if 2 <? m then m - 3 else m + 9) + 2) / 5 + d - 1.

(** What is checked of one year of the era: its first and its last day get
    that year, and the next year starts where it ends (the era ends with
    its last year). *)
Definition yearOk (yoe : Z) : bool :=
  let lo := yearStart yoe in
  let hi := lo + yearLength yoe in
  (yoe_of_doe lo =? yoe) && (yoe_of_doe (hi - 1) =? yoe)
  && (if yoe =? 399 then hi =? 146097 else yearStart (yoe + 1) =? hi).

(** What is checked of one day of a year: month and day are in range, the
    way back returns the day, the 366th day is February 29, and January and
    February are the days from the 307th on. *)
Definition doyOk (doy : Z) : bool :=
  let '(m, d) := md_of_doy doy in
  (1 <=? m) && (m <=? 12) && (1 <=? d)
  && (d <=? (if m =? 2 then (if doy =? 365 then 29 else 28) else daysIn 1 m))
  && (doy_of_md m d =? doy) && (Bool.eqb (m <=? 2) (306 <=? doy)).

Fixpoint allFrom (lo : Z) (n : nat) (f : Z -> bool) : bool :=
  match n with
  | O => true
  | S n' => f lo && allFrom (lo + 1) n' f
  end.

(** The instants of the years 0 to 9999, in Unix seconds. *)
Definition year0 : Z := days_from_civil 0 1 1 * 86400.
Definition year10000 : Z := days_from_civil 10000 1 1 * 86400.

End CalendarCheck.

(** ** Sessions *)

Module SessionView.

Import user.

(** The key of a user's session hash. *)
Definition sessionKey (userId : string) : string := "session:" +:+ userId.

(** What [GetSession] can give back of a session that [CreateSession]
    stored: the id and the token are not among the hash fields, and the
    text format keeps whole seconds. *)
Definition persisted (s : UserSession) : UserSession :=
  {| sID := ""; sUserID := sUserID s; sTokenHash := "";
     sUserAgent := sUserAgent s; sIP := sIP s;
     sExpiresAt := truncSec (sExpiresAt s);
     sCreatedAt := truncSec (sCreatedAt s);
     sUpdatedAt := truncSec (sUpdatedAt s) |}.

(** The three timestamps of a session survive [Format] followed by [Parse]
    up to whole seconds. *)
Definition roundTrips `{Layout} (s : UserSession) : Prop :=
  Parse (Format (sExpiresAt s)) = Some (truncSec (sExpiresAt s)) /\
  Parse (Format (sCreatedAt s)) = Some (truncSec (sCreatedAt s)) /\
  Parse (Format (sUpdatedAt s)) = Some (truncSec (sUpdatedAt s)).

(** An instant of the years 0 to 9999, which RFC3339 can write. *)
Definition inYears (t : Time) : Prop :=
  CalendarCheck.year0 <= Unix t < CalendarCheck.year10000.

(** A connection that lets every command through. *)
Definition healthy (c : redis.Client) : Prop := redis.outcomes c = [].

(** The users in the active-users set. *)
Definition activeUsers (c : redis.Client) : gset string :=
  default ∅ (redis.sets c !! constants.ActiveUsersRK).

End SessionView.

(** ** Inputs to run the code on *)

Module Fixtures.

Import user.

(** A process in UTC. *)
#[local] Existing Instance rfc3339_utc.

Definition emptyRepo : UserPersistRepository :=
  {| db := {| rows := []; broken := None |};
     redis := {| redis.hashes := ∅; redis.sets := ∅; redis.outcomes := [] |};
     logged := [] |}.

(** 2023-11-14T22:13:20Z. *)
Definition t0 : Time := FromUnix 1700000000.

(** A session as a login hands it over, good for one hour. *)
Definition aSession : UserSession :=
  {| sID := "s-1"; sUserID := "u1"; sTokenHash := "tok";
     sUserAgent := "curl/8.4"; sIP := "10.0.0.7";
     sExpiresAt := t0 + Hour; sCreatedAt := zeroTime; sUpdatedAt := zeroTime |}.

Definition expiring (s : UserSession) (expiresAt : Time) : UserSession :=
  {| sID := sID s; sUserID := sUserID s; sTokenHash := sTokenHash s;
     sUserAgent := sUserAgent s; sIP := sIP s; sExpiresAt := expiresAt;
     sCreatedAt := sCreatedAt s; sUpdatedAt := sUpdatedAt s |}.

(** The repository after [aSession] was created at [t0]. *)
Definition stored : UserPersistRepository :=
  snd (CreateSession emptyRepo t0 aSession).

(** The same store behind a connection that lets one command through and
    fails the next. *)
Definition flaky : UserPersistRepository :=
  {| db := db stored;
     redis := {| redis.hashes := redis.hashes (redis stored);
                 redis.sets := redis.sets (redis stored);
                 redis.outcomes :=
                   [None; Some (New "connection reset by peer")] |};
     logged := [] |}.

(** A store that holds a hash without an [expires_at] field. *)
Definition partial : UserPersistRepository :=
  {| db := db emptyRepo;
     redis := {| redis.hashes :=
                   {[ "session:u1" :=
                        {| redis.fields := {[ "user_agent" := "curl/8.4" ]};
                           redis.deadline := None |} ]};
                 redis.sets := ∅; redis.outcomes := [] |};
     logged := [] |}.

(** A second login of the same user, a minute later, from elsewhere. *)
Definition bSession : UserSession :=
  {| sID := "s-2"; sUserID := "u1"; sTokenHash := "tok2";
     sUserAgent := "Mozilla/5.0"; sIP := "192.168.1.20";
     sExpiresAt := t0 + 2 * Hour; sCreatedAt := zeroTime;
     sUpdatedAt := zeroTime |}.

Definition storedTwice : UserPersistRepository :=
  snd (CreateSession stored (t0 + Minute) bSession).

Definition alice : User :=
  {| ID := "u1"; Username := "alice"; Email := "a@x.com";
     PasswordHash := "$2a$14$secret1"; LuckyNumber := "7";
     FirstName := "Alice"; LastName := "A"; Location := "";
     ProfilePicture := ""; CoverPicture := ""; Ft3Pictures := [];
     IsPremium := false; PremiumExp := None; IsPrivate := false;
     IsVerified := true; ProfileLikes := 0; LastLoginAt := None;
     CreatedAt := FromUnix 1600000000; UpdatedAt := FromUnix 1600000000;
     DeletedAt := None |}.

Definition repoWithAlice : UserPersistRepository :=
  {| db := {| rows := [alice]; broken := None |};
     redis := {| redis.hashes := ∅; redis.sets := ∅; redis.outcomes := [] |};
     logged := [] |}.

Definition authConfig : AuthServiceConfig :=
  {| JWTSecret := "s3cret"; TokenExpiration := 24 * Hour;
     UploadDir := "uploads"; DefaultAvatarURL := "" |}.

Definition unknownEmail : LoginRequest :=
  {| reqEmail := "b@x.com"; reqPassword := "secret1" |}.

Definition wrongPassword : LoginRequest :=
  {| reqEmail := "a@x.com"; reqPassword := "secret2" |}.

Definition goodLogin : LoginRequest :=
  {| reqEmail := "a@x.com"; reqPassword := "secret1" |}.

End Fixtures.

(** ** Users *)

Module UserView.

Import user repository service.

(** A row that has not been soft-deleted. *)
Definition liveUser (u : User) : bool :=
  match DeletedAt u with None => true | Some _ => false end.

(** The live rows of the table that carry a user name, an address, an id. *)
Definition hasUsername (r : UserPersistRepository) (username : string) : Prop :=
  exists u, u ∈ rows (db r) /\ liveUser u = true /\ Username u = username.

Definition hasEmail (r : UserPersistRepository) (email : string) : Prop :=
  exists u, u ∈ rows (db r) /\ liveUser u = true /\ Email u = email.

(** Two update requests that agree on the five fields [UpdateProfile]
    copies. *)
Definition sameProfileFields (req1 req2 : UpdateUserRequest) : Prop :=
  upFirstName req1 = upFirstName req2 /\
  upLastName req1 = upLastName req2 /\
  upProfilePicture req1 = upProfilePicture req2 /\
  upCoverPicture req1 = upCoverPicture req2 /\
  upFt3Pictures req1 = upFt3Pictures req2.

(** The request that spells out what an update leaves alone: every empty
    field replaced by the value the user has. *)
Definition filledIn (u : User) (req : UpdateUserRequest) : UpdateUserRequest :=
  {| upFirstName := if String.eqb (upFirstName req) "" then FirstName u
                    else upFirstName req;
     upLastName := if String.eqb (upLastName req) "" then LastName u
                   else upLastName req;
     upEmail := upEmail req;
     upProfilePicture := if String.eqb (upProfilePicture req) ""
                         then ProfilePicture u else upProfilePicture req;
     upCoverPicture := if String.eqb (upCoverPicture req) ""
                       then CoverPicture u else upCoverPicture req;
     upFt3Pictures := Some (match upFt3Pictures req with
                            | Some pictures => pictures
                            | None => Ft3Pictures u
                            end);
     upIsPremium := upIsPremium req; upPremiumExp := upPremiumExp req;
     upIsPrivate := upIsPrivate req; upIsVerified := upIsVerified req |}.

(** A byte that is a decimal digit. *)
Definition isDigit (c : ascii) : bool :=
  match strconv.digit c with Some _ => true | None => false end.

Fixpoint allDigits (s : string) : bool :=
  match s with
  | EmptyString => true
  | String c rest => isDigit c && allDigits rest
  end.

(** The text of a number after its sign, if it has one. *)
Definition unsigned (s : string) : string :=
  match s with
  | String "+" rest => rest
  | String "-" rest => rest
  | _ => s
  end.

End UserView.

(** ** More inputs to run the code on *)

Module UserFixtures.

Import user repository service Fixtures.

(** A table without constraints: [Create] gives a record without id the id
    ["generated"] and appends it, [Save] replaces the rows of the record's
    id. *)
Definition plainCreate (d : DB) (_ : Time) (u : User)
    : option error * User * DB :=
  match broken d with
  | Some err => (Some err, u, d)
  | None =>
      let u' := {| ID := if String.eqb (ID u) "" then "generated" else ID u;
                   Username := Username u; Email := Email u;
                   PasswordHash := PasswordHash u;
                   LuckyNumber := LuckyNumber u;
                   FirstName := FirstName u; LastName := LastName u;
                   Location := Location u;
                   ProfilePicture := ProfilePicture u;
                   CoverPicture := CoverPicture u;
                   Ft3Pictures := Ft3Pictures u;
                   IsPremium := IsPremium u; PremiumExp := PremiumExp u;
                   IsPrivate := IsPrivate u; IsVerified := IsVerified u;
                   ProfileLikes := ProfileLikes u;
                   LastLoginAt := LastLoginAt u;
                   CreatedAt := CreatedAt u; UpdatedAt := UpdatedAt u;
                   DeletedAt := DeletedAt u |} in
      (None, u', {| rows := rows d ++ [u']; broken := None |})
  end.

Definition plainSave (d : DB) (_ : Time) (u : User)
    : option error * User * DB :=
  match broken d with
  | Some err => (Some err, u, d)
  | None =>
      (None, u,
       {| rows := List.map (fun v => if String.eqb (ID v) (ID u) then u else v)
                           (rows d);
          broken := None |})
  end.

(** A password hash is the password behind the cost. *)
Definition plainBcryptHash : BcryptHash :=
  {| GenerateFromPassword password cost :=
       Ok ("$2a$" +:+ pretty cost +:+ "$" +:+ password) |}.

(** A second user, whose user name is the id of [alice]. *)
Definition mallory : User :=
  {| ID := "u2"; Username := "u1"; Email := "m@x.com";
     PasswordHash := "$2a$14$secret9"; LuckyNumber := "3";
     FirstName := "Mallory"; LastName := "M"; Location := "";
     ProfilePicture := ""; CoverPicture := ""; Ft3Pictures := [];
     IsPremium := false; PremiumExp := None; IsPrivate := false;
     IsVerified := false; ProfileLikes := 0; LastLoginAt := None;
     CreatedAt := FromUnix 1650000000; UpdatedAt := FromUnix 1650000000;
     DeletedAt := None |}.

Definition repoWithTwo : UserPersistRepository :=
  {| db := {| rows := [alice; mallory]; broken := None |};
     redis := redis emptyRepo; logged := [] |}.

(** The table behind a connection that is down. *)
Definition repoDown : UserPersistRepository :=
  {| db := {| rows := [alice]; broken := Some (New "connection refused") |};
     redis := redis emptyRepo; logged := [] |}.

(** A registration that asks for the user name and the address of [alice]. *)
Definition aliceAgain : CreateUserRequest :=
  {| cUsername := "alice"; cEmail := "a@x.com"; cPassword := "secret3";
     cFirstName := "Alice"; cLastName := "B"; cLuckyNumber := "9";
     cProfilePicture := ""; cCoverPicture := ""; cFt3Pictures := [];
     cIsPremium := true; cIsPrivate := false; cIsVerified := true |}.

(** A registration under a free user name and address, which asks to be
    premium and verified. *)
Definition bobRequest : CreateUserRequest :=
  {| cUsername := "bob"; cEmail := "b@x.com"; cPassword := "secret4";
     cFirstName := "Bob"; cLastName := "B"; cLuckyNumber := "5";
     cProfilePicture := ""; cCoverPicture := ""; cFt3Pictures := [];
     cIsPremium := true; cIsPrivate := false; cIsVerified := true |}.

(** The user that registration leaves in the table. *)
Definition bob : User :=
  {| ID := "generated"; Username := "bob"; Email := "b@x.com";
     PasswordHash := "$2a$14$secret4"; LuckyNumber := "5";
     FirstName := "Bob"; LastName := "B"; Location := "";
     ProfilePicture := ""; CoverPicture := ""; Ft3Pictures := [];
     IsPremium := false; PremiumExp := None; IsPrivate := false;
     IsVerified := true; ProfileLikes := 0; LastLoginAt := None;
     CreatedAt := t0; UpdatedAt := t0; DeletedAt := None |}.

Definition repoWithBob : UserPersistRepository :=
  {| db := {| rows := [alice; bob]; broken := None |};
     redis := redis repoWithAlice; logged := [] |}.

Definition checkAlice : CheckEmailAndUsernameRequest :=
  {| chkUsername := "alice"; chkEmail := "a@x.com" |}.

(** An update that names a new last name and, in the fields that
    [UpdateProfile] does not read, a new address and a premium account. *)
Definition rename : UpdateUserRequest :=
  {| upFirstName := ""; upLastName := "Liddell"; upEmail := "new@x.com";
     upProfilePicture := ""; upCoverPicture := ""; upFt3Pictures := None;
     upIsPremium := Some true; upPremiumExp := None;
     upIsPrivate := None; upIsVerified := Some true |}.

Definition renameOnly : UpdateUserRequest :=
  {| upFirstName := ""; upLastName := "Liddell"; upEmail := "";
     upProfilePicture := ""; upCoverPicture := ""; upFt3Pictures := None;
     upIsPremium := None; upPremiumExp := None;
     upIsPrivate := None; upIsVerified := None |}.

(** A connection whose first command fails. *)
Definition repoAliceFailing (outcomes : list (option error))
    : UserPersistRepository :=
  {| db := db repoWithAlice;
     redis := {| redis.hashes := ∅; redis.sets := ∅;
                 redis.outcomes := outcomes |};
     logged := [] |}.

(** A header that names HS512, claims with a subject and an expiry in
    2027, and claims without any date. *)
Definition hs512Header : jwt.Header :=
  <["alg" := jwt.JString "HS512"]> {["typ" := jwt.JString "JWT"]}.

Definition subClaims : jwt.MapClaims :=
  <["sub" := jwt.JString "u1"]> {["exp" := jwt.JNumber 1800000000]}.

Definition undatedClaims : jwt.MapClaims := {["sub" := jwt.JString "u1"]}.

(** The token of a header and claims signed with HS512 under a key by the
    stand-in MAC. *)
Definition signedHS512 (key : string) (header : jwt.Header)
    (claims : jwt.MapClaims) : jwt.TokenString :=
  jwt.Compact (jwt.Encoded header) (jwt.Encoded claims)
    (jwt.Encoded (@jwt.hmacSum Reference.plainMac jwt.SHA512 key
                    (jwt.Encoded header, jwt.Encoded claims))).

(** An environment that sets the signing secret, and one that sets a port
    with a blank in it. *)
Definition envSecret : gmap string string := {["JWT_SCRET_KEY" := "s3cret"]}.

Definition envBadPort : gmap string string := {["PORT" := "80 80"]}.

End UserFixtures.

(** ** Proof steps that recur *)

(** No signature check among the events of a call. *)
Ltac no_verify :=
  repeat (apply not_elem_of_cons; split; [discriminate|]);
  apply not_elem_of_nil.

(** Settle a closed statement by running the code. *)
Ltac run :=
  cbv zeta; split_and?;
  vm_compute; first [reflexivity | congruence | by intros ?].

(* ===================================================================== *)
(** * The RFC3339 text of an instant and back *)
(* ===================================================================== *)

Module CalendarProps.

Import CalendarCheck.

Lemma allFrom_spec (f : Z -> bool) (n : nat) (lo : Z) :
  allFrom lo n f = true ->
  forall k, lo <= k < lo + Z.of_nat n -> f k = true.
Proof.
  revert lo. induction n as [|n IH]; intros lo Hall k Hk; [lia|].
  cbn [allFrom] in Hall. apply andb_true_iff in Hall as [Hlo Hrest].
  destruct (Z.eq_dec k lo) as [->|Hne]; [exact Hlo|].
  apply (IH (lo + 1) Hrest). lia.
Qed.

(** The 400 years of an era and the 366 days of a year pass their checks. *)
Lemma years_checked : allFrom 0 400 yearOk = true.
Proof. vm_compute. reflexivity. Qed.

Lemma days_checked : allFrom 0 366 doyOk = true.
Proof. vm_compute. reflexivity. Qed.

Lemma yearOk_all (yoe : Z) : 0 <= yoe < 400 -> yearOk yoe = true.
Proof. intros Hy. apply (allFrom_spec yearOk 400 0 years_checked). lia. Qed.

Lemma doyOk_all (doy : Z) : 0 <= doy < 366 -> doyOk doy = true.
Proof. intros Hd. apply (allFrom_spec doyOk 366 0 days_checked). lia. Qed.

(** The year of the era does not decrease with the day. *)
Lemma yoe_of_doe_mono (a b : Z) :
  0 <= a <= b -> yoe_of_doe a <= yoe_of_doe b.
Proof.
  intros Hab. unfold yoe_of_doe. apply Z.div_le_mono; [lia|].
  Z.div_mod_to_equations. lia.
Qed.

Lemma yearStart_mono (a b : Z) : 0 <= a <= b -> yearStart a <= yearStart b.
Proof. intros Hab. unfold yearStart. Z.div_mod_to_equations. lia. Qed.

(** The years tile the era: every day lies in one of them. *)
Lemma year_of_day (n : nat) (doe : Z) :
  (n <= 400)%nat ->
  0 <= doe < (if Z.of_nat n =? 400 then 146097 else yearStart (Z.of_nat n)) ->
  exists yoe,
    0 <= yoe < Z.of_nat n /\
    yearStart yoe <= doe < yearStart yoe + yearLength yoe.
Proof.
  induction n as [|n IH]; intros Hn Hdoe.
  - change (0 <= doe < 0) in Hdoe. lia.
  - pose proof (yearOk_all (Z.of_nat n) ltac:(lia)) as Hok.
    unfold yearOk in Hok. cbv zeta in Hok.
    apply andb_true_iff in Hok as [_ Hnext].
    assert (Hend : (if Z.of_nat (S n) =? 400 then 146097
                    else yearStart (Z.of_nat (S n)))
                   = yearStart (Z.of_nat n) + yearLength (Z.of_nat n)).
    { replace (Z.of_nat (S n)) with (Z.of_nat n + 1) by lia.
      destruct (Z.eqb_spec (Z.of_nat n) 399) as [H399|Hne];
        apply Z.eqb_eq in Hnext.
      - rewrite H399 in *. rewrite <- Hnext. reflexivity.
      - destruct (Z.eqb_spec (Z.of_nat n + 1) 400); [lia|]. exact Hnext. }
    rewrite Hend in Hdoe.
    destruct (Z_lt_ge_dec doe (yearStart (Z.of_nat n))) as [Hlt|Hge].
    + destruct (IH ltac:(lia)) as (yoe & Hy & Hin).
      { destruct (Z.eqb_spec (Z.of_nat n) 400); lia. }
      exists yoe. split; [lia|exact Hin].
    + exists (Z.of_nat n). split; lia.
Qed.

(** The first step of [civil_from_days] finds the year a day lies in. *)
Lemma yoe_of_doe_spec (doe : Z) :
  0 <= doe < 146097 ->
  0 <= yoe_of_doe doe <= 399 /\
  yearStart (yoe_of_doe doe) <= doe
    < yearStart (yoe_of_doe doe) + yearLength (yoe_of_doe doe).
Proof.
  intros Hdoe.
  destruct (year_of_day 400 doe ltac:(lia)) as (yoe & Hy & Hin).
  { change (Z.of_nat 400 =? 400) with true. cbv iota. lia. }
  change (Z.of_nat 400) with 400 in Hy.
  pose proof (yearOk_all yoe ltac:(lia)) as Hok.
  unfold yearOk in Hok. cbv zeta in Hok.
  apply andb_true_iff in Hok as [Hok _].
  apply andb_true_iff in Hok as [Hlo Hhi].
  apply Z.eqb_eq in Hlo, Hhi.
  assert (Hstart : 0 <= yearStart yoe).
  { change 0 with (yearStart 0). apply yearStart_mono. lia. }
  pose proof (yoe_of_doe_mono (yearStart yoe) doe ltac:(lia)).
  pose proof (yoe_of_doe_mono doe (yearStart yoe + yearLength yoe - 1)
                ltac:(lia)).
  assert (Heq : yoe_of_doe doe = yoe) by lia.
  rewrite Heq. split; [lia|exact Hin].
Qed.

Lemma civil_of_doe_steps (doe : Z) :
  civil_of_doe doe =
  let yoe := yoe_of_doe doe in
  let md := md_of_doy (doe - yearStart yoe) in
  (yoe, fst md, snd md).
Proof. reflexivity. Qed.

Lemma daysIn_other_month (y m : Z) : m <> 2 -> daysIn y m = daysIn 1 m.
Proof.
  intros Hm. unfold daysIn. destruct (Z.eqb_spec m 2); [lia|reflexivity].
Qed.

(** Every day of a 400-year era gets a date that exists and leads back to
    the day. *)
Lemma dayOk_all (doe : Z) : 0 <= doe < 146097 -> dayOk doe = true.
Proof.
  intros Hdoe. unfold dayOk. rewrite civil_of_doe_steps. cbv zeta.
  destruct (yoe_of_doe_spec doe Hdoe) as [Hyoe Hin].
  remember (yoe_of_doe doe) as yoe eqn:Eyoe. clear Eyoe.
  remember (doe - yearStart yoe) as doy eqn:Edoy.
  assert (Hlen : yearLength yoe <= 366)
    by (unfold yearLength; destruct (isLeap _); lia).
  pose proof (doyOk_all doy ltac:(lia)) as Hok. unfold doyOk in Hok.
  destruct (md_of_doy doy) as [m d] eqn:Hmd. cbn [fst snd].
  repeat (apply andb_true_iff in Hok as [Hok ?]).
  repeat match goal with
         | Hb : (_ <=? _) = true |- _ => apply Z.leb_le in Hb
         | Hb : (_ =? _) = true |- _ => apply Z.eqb_eq in Hb
         | Hb : Bool.eqb _ _ = true |- _ => apply Bool.eqb_prop in Hb
         end.
  assert (Hstart399 : yearStart 399 = 145731) by reflexivity.
  assert (Hdays : d <= daysIn (if m <=? 2 then yoe + 1 else yoe) m).
  { destruct (Z.eqb_spec m 2) as [->|Hm].
    - cbn [Z.leb Z.compare Pos.compare Pos.compare_cont]. unfold daysIn.
      cbn [Z.eqb Pos.eqb].
      destruct (Z.eqb_spec doy 365) as [H365|_].
      + unfold yearLength in Hin. destruct (isLeap (yoe + 1)); lia.
      + destruct (isLeap (yoe + 1)); lia.
    - rewrite daysIn_other_month by exact Hm. lia. }
  assert (Hback : doe_of_civil yoe m d = doe).
  { unfold doe_of_civil. fold (doy_of_md m d). unfold yearStart in Edoy.
    lia. }
  assert (Hlast : (if doe <? 146037
                   then (if m <=? 2 then yoe + 1 else yoe) <=? 399
                   else (yoe =? 399) && (m <=? 2)) = true).
  { destruct (Z.ltb_spec doe 146037) as [Hlt|Hge].
    - apply Z.leb_le.
      destruct (Z.leb_spec m 2) as [Hm|Hm]; [|lia].
      destruct (Z.leb_spec 306 doy); [|discriminate].
      destruct (Z.eq_dec yoe 399) as [H399|]; [|lia].
      rewrite H399, Hstart399 in Edoy. lia.
    - assert (H399 : yoe = 399).
      { destruct (Z.eq_dec yoe 399) as [|Hne]; [done|]. exfalso.
        pose proof (yearOk_all yoe ltac:(lia)) as Hy. unfold yearOk in Hy.
        cbv zeta in Hy. apply andb_true_iff in Hy as [_ Hnext].
        destruct (Z.eqb_spec yoe 399); [lia|]. apply Z.eqb_eq in Hnext.
        pose proof (yearStart_mono (yoe + 1) 399 ltac:(lia)). lia. }
      rewrite H399, Hstart399 in Edoy.
      rewrite H399. apply andb_true_iff. split; [reflexivity|].
      destruct (Z.leb_spec 306 doy); [|lia].
      destruct (m <=? 2); [reflexivity|discriminate]. }
  rewrite Hback, Hlast, Z.eqb_refl.
  repeat (apply andb_true_iff; split); try reflexivity; apply Z.leb_le; lia.
Qed.

Lemma civil_from_days_era (z : Z) :
  civil_from_days z =
  let era := (z + 719468) / 146097 in
  let '(yoe, m, d) := civil_of_doe ((z + 719468) mod 146097) in
  (if m <=? 2 then yoe + era * 400 + 1 else yoe + era * 400, m, d).
Proof.
  unfold civil_from_days, civil_of_doe. cbv zeta.
  rewrite (Z.mod_eq (z + 719468) 146097) by lia.
  rewrite (Z.mul_comm 146097). reflexivity.
Qed.

Lemma days_from_civil_era (era yoe m d : Z) :
  0 <= yoe <= 399 ->
  days_from_civil (if m <=? 2 then yoe + era * 400 + 1 else yoe + era * 400)
                  m d
  = era * 146097 + doe_of_civil yoe m d - 719468.
Proof.
  intros Hyoe. unfold days_from_civil, doe_of_civil. cbv zeta.
  assert (Hy : (if m <=? 2
                then (if m <=? 2 then yoe + era * 400 + 1
                      else yoe + era * 400) - 1
                else (if m <=? 2 then yoe + era * 400 + 1
                      else yoe + era * 400)) = yoe + era * 400)
    by (destruct (m <=? 2); lia).
  rewrite Hy.
  rewrite Z.div_add, (Z.div_small yoe 400) by lia.
  replace (yoe + era * 400 - (0 + era) * 400) with yoe by lia.
  reflexivity.
Qed.

Lemma isLeap_era (y era : Z) : isLeap (y + era * 400) = isLeap y.
Proof.
  unfold isLeap.
  replace (y + era * 400) with (y + (era * 100) * 4) at 1 by lia.
  replace (y + era * 400) with (y + (era * 4) * 100) at 1 by lia.
  by rewrite !Z.mod_add by lia.
Qed.

Lemma daysIn_era (y era m : Z) : daysIn (y + era * 400) m = daysIn y m.
Proof. unfold daysIn. by rewrite isLeap_era. Qed.

(** [civil_from_days] yields a date that exists, [days_from_civil] leads
    back from it, and the days of the years 0 to 9999 get those years. *)
Lemma civil_from_days_spec (z : Z) (y m d : Z) :
  civil_from_days z = (y, m, d) ->
  1 <= m <= 12 /\ 1 <= d <= daysIn y m /\ days_from_civil y m d = z /\
  (-719528 <= z < 2932897 -> 0 <= y <= 9999).
Proof.
  rewrite civil_from_days_era. cbv zeta.
  pose proof (Z.mod_pos_bound (z + 719468) 146097 ltac:(lia)) as Hdoe.
  pose proof (dayOk_all _ Hdoe) as Hok. unfold dayOk in Hok.
  pose proof (Z.div_mod (z + 719468) 146097 ltac:(lia)) as Hdm.
  set (era := (z + 719468) / 146097) in *.
  set (doe := (z + 719468) mod 146097) in *.
  destruct (civil_of_doe doe) as [[yoe m'] d'].
  intros [= <- <- <-].
  repeat (apply andb_true_iff in Hok as [Hok ?]).
  repeat match goal with
         | Hb : (_ <=? _) = true |- _ => apply Z.leb_le in Hb
         | Hb : (_ =? _) = true |- _ => apply Z.eqb_eq in Hb
         end.
  assert (Hdays : daysIn (if m' <=? 2 then yoe + era * 400 + 1
                          else yoe + era * 400) m'
                  = daysIn (if m' <=? 2 then yoe + 1 else yoe) m').
  { destruct (m' <=? 2); [|apply daysIn_era].
    replace (yoe + era * 400 + 1) with (yoe + 1 + era * 400) by lia.
    apply daysIn_era. }
  split; [lia|]. split; [rewrite Hdays; lia|].
  split; [rewrite days_from_civil_era by lia; lia|].
  intros Hz.
  destruct (Z.ltb_spec doe 146037) as [Hlt|Hge].
  - match goal with Hb : (_ <=? 399) = true |- _ => apply Z.leb_le in Hb end.
    destruct (m' <=? 2); lia.
  - match goal with
    | Hb : (_ =? 399) && (_ <=? 2) = true |- _ =>
        apply andb_true_iff in Hb as [Hy Hm];
        apply Z.eqb_eq in Hy; rewrite Hm
    end.
    lia.
Qed.


(** ** Digits *)

Lemma digitVal_digit (n : Z) : digitVal (digit n) = Some (n mod 10).
Proof.
  pose proof (Z.mod_pos_bound n 10 ltac:(lia)) as Hk.
  unfold digitVal, digit.
  rewrite nat_ascii_embedding by lia.
  replace (Z.of_nat (48 + Z.to_nat (n mod 10))) with (48 + n mod 10) by lia.
  destruct (Z.leb_spec 48 (48 + n mod 10)); [|lia].
  destruct (Z.leb_spec (48 + n mod 10) 57); [|lia].
  cbn [andb]. f_equal. lia.
Qed.

Lemma num2_pad (n : Z) :
  0 <= n < 100 -> num2 (digit (n / 10)) (digit n) = Some n.
Proof.
  intros Hn. unfold num2. rewrite !digitVal_digit. f_equal.
  rewrite (Z.mod_small (n / 10) 10)
    by (split; [apply Z.div_pos|apply Z.div_lt_upper_bound]; lia).
  pose proof (Z.div_mod n 10 ltac:(lia)). lia.
Qed.

Lemma num4_pad (n : Z) :
  0 <= n <= 9999 ->
  num4 (digit (n / 1000)) (digit (n / 100)) (digit (n / 10)) (digit n)
  = Some n.
Proof.
  intros Hn. unfold num4.
  replace (n / 1000) with (n / 100 / 10)
    by (rewrite Z.div_div by lia; reflexivity).
  rewrite (num2_pad (n / 100))
    by (split; [apply Z.div_pos|apply Z.div_lt_upper_bound]; lia).
  unfold num2. rewrite !digitVal_digit. f_equal.
  replace (n / 10) with (10 * (n / 100) + (n mod 100) / 10).
  2:{ pose proof (Z.div_mod n 100 ltac:(lia)) as H100.
      rewrite H100 at 3.
      replace (100 * (n / 100) + n mod 100)
        with (n mod 100 + (10 * (n / 100)) * 10) by lia.
      rewrite Z.div_add by lia. lia. }
  replace ((10 * (n / 100) + n mod 100 / 10) mod 10)
    with ((n mod 100 / 10) mod 10).
  2:{ replace (10 * (n / 100) + n mod 100 / 10)
        with (n mod 100 / 10 + (n / 100) * 10) by lia.
      by rewrite Z.mod_add by lia. }
  pose proof (Z.mod_pos_bound n 100 ltac:(lia)) as H100.
  rewrite (Z.mod_small (n mod 100 / 10) 10)
    by (split; [apply Z.div_pos|apply Z.div_lt_upper_bound]; lia).
  replace (n mod 10) with ((n mod 100) mod 10).
  2:{ replace 100 with (10 * 10) by lia.
      rewrite Z.rem_mul_r by lia.
      replace (n mod 10 + 10 * ((n / 10) mod 10))
        with (n mod 10 + ((n / 10) mod 10) * 10) by lia.
      rewrite Z.mod_add by lia. apply Z.mod_mod. lia. }
  pose proof (Z.div_mod n 100 ltac:(lia)).
  pose proof (Z.div_mod (n mod 100) 10 ltac:(lia)).
  lia.
Qed.

(** ** The round trip of the UTC layout *)

(** For every instant of the years 0 to 9999, parsing the RFC3339 text of
    the instant gives the instant cut to whole seconds. *)
Theorem rfc3339_utc_round_trip (t : Time) :
  year0 <= Unix t < year10000 ->
  parseUTC (formatUTC t) = Some (truncSec t).
Proof.
  intros Hrange.
  assert (Hy0 : year0 = -719528 * 86400) by reflexivity.
  assert (Hy1 : year10000 = 2932897 * 86400) by reflexivity.
  rewrite Hy0, Hy1 in Hrange. clear Hy0 Hy1.
  unfold formatUTC, truncSec.
  set (sec := Unix t) in *.
  pose proof (Z.div_mod sec 86400 ltac:(lia)) as Hdm.
  pose proof (Z.mod_pos_bound sec 86400 ltac:(lia)) as Hs.
  set (day := sec / 86400) in *. set (s := sec mod 86400) in *.
  destruct (civil_from_days day) as [[y m] d] eqn:Hcivil.
  destruct (civil_from_days_spec _ _ _ _ Hcivil)
    as (Hm & Hd & Hback & Hyear).
  specialize (Hyear ltac:(lia)).
  assert (Hd31 : daysIn y m <= 31).
  { unfold daysIn, isLeap.
    repeat match goal with |- context [if ?b then _ else _] => destruct b end;
      lia. }
  unfold parseUTC, pad4, pad2. cbn [list_ascii_of_string].
  rewrite (num4_pad y) by lia.
  rewrite (num2_pad m), (num2_pad d) by lia.
  assert (Hhh : 0 <= s / 3600 < 24)
    by (split; [apply Z.div_pos|apply Z.div_lt_upper_bound]; lia).
  pose proof (Z.mod_pos_bound (s / 60) 60 ltac:(lia)) as Hmi.
  pose proof (Z.mod_pos_bound s 60 ltac:(lia)) as Hss.
  rewrite (num2_pad (s / 3600)), (num2_pad (s / 60 mod 60)),
    (num2_pad (s mod 60)) by lia.
  assert (Hcond : (1 <=? m) && (m <=? 12) && (1 <=? d) && (d <=? daysIn y m)
                  && (s / 3600 <? 24) && (s / 60 mod 60 <? 60)
                  && (s mod 60 <? 60) = true).
  { repeat (apply andb_true_iff; split);
      first [apply Z.leb_le | apply Z.ltb_lt]; lia. }
  rewrite Hcond, Hback. do 2 f_equal.
  assert (Hhms : s / 3600 * 3600 + s / 60 mod 60 * 60 + s mod 60 = s).
  { pose proof (Z.div_mod s 60 ltac:(lia)) as H60.
    pose proof (Z.div_mod (s / 60) 60 ltac:(lia)) as H3600.
    replace (s / 3600) with (s / 60 / 60)
      by (rewrite Z.div_div by lia; reflexivity).
    lia. }
  lia.
Qed.

End CalendarProps.

(* ===================================================================== *)
(** * Properties of token issuance and validation *)
(* ===================================================================== *)

Module TokenProps.

Import jwt Observe.

Lemma Unix_Add_week (now : Time) :
  Unix (Add now (Hour * 24 * 7)) = Unix now + weekSeconds.
Proof.
  unfold Unix, Add, weekSeconds, Hour, Minute, Second, Nanosecond.
  replace (60 * (60 * (1000000000 * 1)) * 24 * 7)
    with (7 * 24 * 3600 * (1000000000 * 1)) by lia.
  rewrite Z.div_add by lia. reflexivity.
Qed.

Lemma Unix_lt_of_before (t : Time) (sec : Z) :
  t < FromUnix sec -> Unix t < sec.
Proof.
  unfold Unix, FromUnix, Second, Nanosecond. intros Hlt.
  apply Z.div_lt_upper_bound; lia.
Qed.

Lemma GetSigningMethod_HS256 :
  GetSigningMethod "HS256" = Some (SigningMethodHMAC SHA256).
Proof. reflexivity. Qed.

Section WithMac.

Context `{Mac}.

(** What [GenerateToken] returns, spelled out: signing with HS256 never
    fails on a byte key, whatever the key. *)
Lemma GenerateToken_eq (env : gmap string string) (now : Time)
    (username id : string) :
  utils.GenerateToken env now username id =
  let header : Header :=
    <["alg" := JString "HS256"]> {["typ" := JString "JWT"]} in
  let claims := issuedClaims now username id in
  Ok (Compact (Encoded header) (Encoded claims)
        (Encoded (hmacSum SHA256 (config.JwtScretKey (config.EnvLoad env))
                          (Encoded header, Encoded claims)))).
Proof.
  unfold utils.GenerateToken, SignedString, Sign, issuedClaims. cbn.
  rewrite Unix_Add_week. reflexivity.
Qed.

(** C8.  Every token issued by [GenerateToken] carries exactly three claims:
    [exp], the issuance time in Unix seconds plus 7 days, [userId], the
    user's id, and [username]. *)
Theorem GenerateToken_claims (env : gmap string string) (now : Time)
    (username id : string) :
  exists tokenString,
    utils.GenerateToken env now username id = Ok tokenString /\
    exists claims,
      claimsOf tokenString = Some claims /\
      claims !! "exp" = Some (JNumber (Unix now + 7 * 24 * 3600)) /\
      claims !! "userId" = Some (JString id) /\
      claims !! "username" = Some (JString username) /\
      dom claims = {["exp"; "userId"; "username"]}.
Proof.
  rewrite GenerateToken_eq. cbn zeta.
  eexists; split; [reflexivity|].
  exists (issuedClaims now username id). unfold issuedClaims.
  split; [reflexivity|].
  split_and!.
  - by rewrite lookup_insert_eq.
  - by simplify_map_eq.
  - by simplify_map_eq.
  - rewrite !dom_insert_L, dom_empty_L. set_solver.
Qed.

(** C9 (as amended).  An empty configured secret is not turned away: the
    token comes back signed with the empty key. *)
Theorem GenerateToken_empty_secret (env : gmap string string) (now : Time)
    (username id : string) :
  config.JwtScretKey (config.EnvLoad env) = "" ->
  exists header claims,
    utils.GenerateToken env now username id =
    Ok (Compact (Encoded header) (Encoded claims)
          (Encoded (hmacSum SHA256 "" (Encoded header, Encoded claims)))) /\
    claims = issuedClaims now username id.
Proof.
  intros Hsecret. rewrite GenerateToken_eq, Hsecret. cbn zeta.
  eexists _, _. split; reflexivity.
Qed.

(** The library's own check of the claims passes on an issued claim set
    before it expires. *)
Lemma ClaimsValid_issued (now now' : Time) (username id : string) :
  now' < expiryOf now ->
  ClaimsValid now' (issuedClaims now username id) = None.
Proof.
  intros Hlt. apply Unix_lt_of_before in Hlt.
  unfold ClaimsValid, VerifyExpiresAt, VerifyIssuedAt, VerifyNotBefore,
    verifyDateClaim, issuedClaims.
  rewrite lookup_insert_eq.
  rewrite !lookup_insert_ne, !lookup_empty by done.
  assert (Hexp : (if Unix now + weekSeconds =? 0
                  then verifyExp None (FromUnix (Unix now')) false
                  else verifyExp (Some (FromUnix (Unix now + weekSeconds)))
                                 (FromUnix (Unix now')) false) = true).
  { destruct (Unix now + weekSeconds =? 0); [reflexivity|].
    unfold verifyExp, Before, FromUnix, Second, Nanosecond.
    apply Z.ltb_lt. lia. }
  rewrite Hexp. reflexivity.
Qed.

(** C1 does not hold on the code.  A token issued by [GenerateToken] passes
    the signature and expiry checks of [AuthServiceImpl.ValidateToken] at
    any time before it expires, and is then refused for want of a [sub]
    claim: the user id was issued under [userId].  [utils.ValidateToken]
    accepts the same token and returns its claims. *)
Theorem ValidateToken_refuses_issued_token (env : gmap string string)
    (authConfig : user.AuthServiceConfig) (now now' : Time)
    (username id : string) (tokenString : TokenString) :
  utils.GenerateToken env now username id = Ok tokenString ->
  user.JWTSecret authConfig = config.JwtScretKey (config.EnvLoad env) ->
  now' < expiryOf now ->
  user.ValidateToken authConfig now' tokenString =
    (Err (New "invalid user ID in token"), [CallKeyfunc; CallVerify]) /\
  utils.ValidateToken env now' tokenString =
    (Ok (issuedClaims now username id), [CallKeyfunc; CallVerify]).
Proof.
  intros Hgen Hsecret Hlt. rewrite GenerateToken_eq in Hgen. cbn zeta in Hgen.
  injection Hgen as <-.
  pose proof (ClaimsValid_issued now now' username id Hlt) as Hvalid.
  split.
  - unfold user.ValidateToken, Parse, ParseUnverified.
    rewrite lookup_insert_eq, GetSigningMethod_HS256.
    unfold user.keyFunc. cbn [Method isSigningMethodHMAC negb Claims Signature].
    rewrite Hvalid. unfold Verify. rewrite Hsecret, String.eqb_refl.
    cbn [valid emptyVErr vErrors Z.eqb Valid Claims].
    unfold issuedClaims at 1. rewrite lookup_insert_eq.
    assert (Hnow : Before (FromUnix (Unix now + weekSeconds)) now' = false).
    { apply Z.ltb_ge. unfold expiryOf in Hlt. lia. }
    rewrite Hnow. unfold issuedClaims.
    rewrite !lookup_insert_ne, lookup_empty by done. reflexivity.
  - unfold utils.ValidateToken, Parse, ParseUnverified.
    rewrite lookup_insert_eq, GetSigningMethod_HS256.
    unfold utils.keyFunc. cbn [Method isSigningMethodHMAC negb Claims Signature].
    rewrite Hvalid. unfold Verify. rewrite String.eqb_refl.
    reflexivity.
Qed.

(** From its expiry on, the library's check of the claims flags an issued
    claim set as expired (an expiry of exactly zero would count as none). *)
Lemma ClaimsValid_expired (now now' : Time) (username id : string) :
  expiryOf now <= now' ->
  Unix now + weekSeconds <> 0 ->
  ClaimsValid now' (issuedClaims now username id) =
  Some (ValidationError (Some (New "Token is expired"))
                        ValidationErrorExpired "").
Proof.
  intros Hle Hnz.
  assert (Hsec : Unix now + weekSeconds <= Unix now').
  { unfold expiryOf, FromUnix, Unix, Second, Nanosecond in *.
    apply Z.div_le_lower_bound; lia. }
  unfold ClaimsValid, VerifyExpiresAt, VerifyIssuedAt, VerifyNotBefore,
    verifyDateClaim, issuedClaims.
  rewrite lookup_insert_eq.
  rewrite !lookup_insert_ne, !lookup_empty by done.
  destruct (Z.eqb_spec (Unix now + weekSeconds) 0) as [|_]; [done|].
  assert (Hexp : verifyExp (Some (FromUnix (Unix now + weekSeconds)))
                           (FromUnix (Unix now')) false = false).
  { unfold verifyExp, Before, FromUnix, Second, Nanosecond.
    apply Z.ltb_ge. lia. }
  rewrite Hexp. reflexivity.
Qed.

(** From its expiry on, a token issued by [GenerateToken] is refused by
    both validators as expired, its signature notwithstanding. *)
Theorem ValidateToken_expired_token (env : gmap string string)
    (authConfig : user.AuthServiceConfig) (now now' : Time)
    (username id : string) (tokenString : TokenString) :
  utils.GenerateToken env now username id = Ok tokenString ->
  user.JWTSecret authConfig = config.JwtScretKey (config.EnvLoad env) ->
  expiryOf now <= now' ->
  Unix now + weekSeconds <> 0 ->
  fst (user.ValidateToken authConfig now' tokenString) =
    Err (ValidationError (Some (New "Token is expired"))
                         ValidationErrorExpired "") /\
  fst (utils.ValidateToken env now' tokenString) =
    Err (New "failed to parse token: Token is expired").
Proof.
  intros Hgen Hsecret Hle Hnz. rewrite GenerateToken_eq in Hgen.
  cbn zeta in Hgen. injection Hgen as <-.
  pose proof (ClaimsValid_expired now now' username id Hle Hnz) as Hvalid.
  split.
  - unfold user.ValidateToken, Parse, ParseUnverified.
    rewrite lookup_insert_eq, GetSigningMethod_HS256.
    unfold user.keyFunc. cbn [Method isSigningMethodHMAC negb Claims Signature].
    rewrite Hvalid. unfold Verify. rewrite Hsecret, String.eqb_refl.
    reflexivity.
  - unfold utils.ValidateToken, Parse, ParseUnverified.
    rewrite lookup_insert_eq, GetSigningMethod_HS256.
    unfold utils.keyFunc. cbn [Method isSigningMethodHMAC negb Claims Signature].
    rewrite Hvalid. unfold Verify. rewrite String.eqb_refl.
    reflexivity.
Qed.

(** A registered method answers to the name it was looked up by. *)
Lemma GetSigningMethod_Alg (alg : string) (m : SigningMethod) :
  GetSigningMethod alg = Some m -> Alg m = alg.
Proof.
  unfold GetSigningMethod. intros Hfind.
  apply List.find_some in Hfind as [_ Heq].
  by apply String.eqb_eq.
Qed.

Lemma Alg_HMAC_in_hmacAlgs (h : Hash) : Alg (SigningMethodHMAC h) ∈ hmacAlgs.
Proof. destruct h; unfold hmacAlgs; set_solver. Qed.

Lemma other_alg_not_HMAC (alg : string) (m : SigningMethod) :
  alg ∉ hmacAlgs -> GetSigningMethod alg = Some m ->
  isSigningMethodHMAC m = false.
Proof.
  intros Hnot Hget. apply GetSigningMethod_Alg in Hget as <-.
  destruct m as [h| | | | |]; try reflexivity.
  destruct Hnot. apply Alg_HMAC_in_hmacAlgs.
Qed.

(** [Parse] on a token that names another algorithm, for a key function
    that turns every method but HMAC away with [refusal]: the library either
    does not know the method or reports the key function's error, and stops
    there. *)
Lemma Parse_other_alg (now : Time) (header : Header) (claims : MapClaims)
    (signature : Segment string) (alg : string)
    (keyFunc : Token -> result string) (refusal : string) :
  header !! "alg" = Some (JString alg) ->
  alg ∉ hmacAlgs ->
  (forall token, isSigningMethodHMAC (Method token) = false ->
                 TokenHeader token = header ->
                 keyFunc token = Err (New refusal)) ->
  Parse now (Compact (Encoded header) (Encoded claims) signature) keyFunc =
  match GetSigningMethod alg with
  | Some _ =>
      (Err (ValidationError (Some (New refusal)) ValidationErrorUnverifiable ""),
       [CallKeyfunc])
  | None =>
      (Err (NewValidationError "signing method (alg) is unavailable."
                               ValidationErrorUnverifiable), [])
  end.
Proof.
  intros Halg Hnot Hkey. unfold Parse, ParseUnverified. rewrite Halg.
  destruct (GetSigningMethod alg) as [m|] eqn:Hget; [|reflexivity].
  rewrite Hkey; [reflexivity| |reflexivity].
  cbn [Method]. by eapply other_alg_not_HMAC.
Qed.

(** C2 (as amended).  A token whose header and claims segments decode and
    whose header names an algorithm outside the HMAC family is refused by
    both validators with an algorithm error of the jwt library, whatever
    its claims and signature are, and no signature check takes place. *)
Theorem ValidateToken_other_alg (env : gmap string string)
    (authConfig : user.AuthServiceConfig) (now : Time) (header : Header)
    (claims : MapClaims) (signature : Segment string) (alg : string) :
  header !! "alg" = Some (JString alg) ->
  alg ∉ hmacAlgs ->
  (exists e events,
     user.ValidateToken authConfig now
       (Compact (Encoded header) (Encoded claims) signature) = (Err e, events)
     /\ AlgorithmMismatch e /\ CallVerify ∉ events) /\
  (exists e events,
     utils.ValidateToken env now
       (Compact (Encoded header) (Encoded claims) signature) =
       (Err (New ("failed to parse token: " +:+ Error e)), events)
     /\ AlgorithmMismatch e /\ CallVerify ∉ events).
Proof.
  intros Halg Hnot. split.
  - unfold user.ValidateToken.
    rewrite (Parse_other_alg now header claims signature alg _
               "unexpected signing method" Halg Hnot).
    + destruct (GetSigningMethod alg); eexists _, _;
        (split; [reflexivity|]); (split; [by eexists _, _|]); no_verify.
    + intros token Hm _. unfold user.keyFunc. by rewrite Hm.
  - unfold utils.ValidateToken.
    rewrite (Parse_other_alg now header claims signature alg _
               ("unexpected signing method: " +:+ alg) Halg Hnot).
    + destruct (GetSigningMethod alg); eexists _, _;
        (split; [reflexivity|]); (split; [by eexists _, _|]); no_verify.
    + intros token Hm Hh. unfold utils.keyFunc. by rewrite Hm, Hh, Halg.
Qed.

(** Beyond C2: when the claims segment does not decode either, the token is
    refused as malformed; in no case is a signature of a token of another
    algorithm checked. *)
Lemma ValidateToken_other_alg_never_verifies (env : gmap string string)
    (authConfig : user.AuthServiceConfig) (now : Time) (header : Header)
    (claims : Segment MapClaims) (signature : Segment string) (alg : string) :
  header !! "alg" = Some (JString alg) ->
  alg ∉ hmacAlgs ->
  let tokenString := Compact (Encoded header) claims signature in
  isOk (fst (user.ValidateToken authConfig now tokenString)) = false /\
  (CallVerify ∉ snd (user.ValidateToken authConfig now tokenString)) /\
  isOk (fst (utils.ValidateToken env now tokenString)) = false /\
  CallVerify ∉ snd (utils.ValidateToken env now tokenString).
Proof.
  intros Halg Hnot tokenString. subst tokenString.
  destruct claims as [claims|raw err].
  - unfold user.ValidateToken, utils.ValidateToken.
    rewrite (Parse_other_alg now header claims signature alg
               (user.keyFunc authConfig) "unexpected signing method"
               Halg Hnot)
      by (intros token Hm _; unfold user.keyFunc; by rewrite Hm).
    rewrite (Parse_other_alg now header claims signature alg
               (utils.keyFunc (config.EnvLoad env))
               ("unexpected signing method: " +:+ alg) Halg Hnot)
      by (intros token Hm Hh; unfold utils.keyFunc; by rewrite Hm, Hh, Halg).
    destruct (GetSigningMethod alg); cbn;
      (split_and!; [done|no_verify|done|no_verify]).
  - unfold user.ValidateToken, utils.ValidateToken, Parse, ParseUnverified.
    cbn. split_and!; [done|no_verify|done|no_verify].
Qed.

End WithMac.

(** C9, the claim as stated, is false: with no secret in the environment the
    configured secret is empty, and a token is returned. *)
Lemma GenerateToken_empty_secret_example :
  config.JwtScretKey (config.EnvLoad ∅) = "" /\
  isOk (@utils.GenerateToken Reference.plainMac ∅ (FromUnix 1700000000)
          "alice" "u1") = true.
Proof. split; reflexivity. Qed.

Lemma GenerateToken_empty_secret_witness :
  config.JwtScretKey (config.EnvLoad ∅) = "" /\
  exists header claims,
    @utils.GenerateToken Reference.plainMac ∅ (FromUnix 1700000000)
       "alice" "u1" =
    Ok (Compact (Encoded header) (Encoded claims)
          (Encoded (@hmacSum Reference.plainMac SHA256 ""
                      (Encoded header, Encoded claims)))) /\
    claims = issuedClaims (FromUnix 1700000000) "alice" "u1".
Proof.
  split; [reflexivity|].
  apply (@GenerateToken_empty_secret Reference.plainMac ∅). reflexivity.
Defined.

Lemma ValidateToken_refuses_issued_token_witness :
  let env : gmap string string := {["JWT_SCRET_KEY" := "s3cret"]} in
  let authConfig := user.mkAuthServiceConfig "s3cret" (24 * Hour) "" "" in
  let now := FromUnix 1700000000 in
  let now' := FromUnix 1700000060 in
  exists tokenString,
    @utils.GenerateToken Reference.plainMac env now "alice" "u1"
      = Ok tokenString /\
    user.JWTSecret authConfig = config.JwtScretKey (config.EnvLoad env) /\
    now' < expiryOf now /\
    @user.ValidateToken Reference.plainMac authConfig now' tokenString =
      (Err (New "invalid user ID in token"), [CallKeyfunc; CallVerify]) /\
    @utils.ValidateToken Reference.plainMac env now' tokenString =
      (Ok (issuedClaims now "alice" "u1"), [CallKeyfunc; CallVerify]).
Proof.
  cbv zeta.
  pose proof (@GenerateToken_eq Reference.plainMac
                {["JWT_SCRET_KEY" := "s3cret"]} (FromUnix 1700000000)
                "alice" "u1") as Hgen.
  cbv zeta in Hgen. eexists.
  assert (Hsecret :
    user.JWTSecret (user.mkAuthServiceConfig "s3cret" (24 * Hour) "" "") =
    config.JwtScretKey (config.EnvLoad {["JWT_SCRET_KEY" := "s3cret"]}))
    by reflexivity.
  assert (Hlt : FromUnix 1700000060 < expiryOf (FromUnix 1700000000))
    by (vm_compute; reflexivity).
  split; [exact Hgen|]. split; [exact Hsecret|]. split; [exact Hlt|].
  exact (@ValidateToken_refuses_issued_token Reference.plainMac _ _ _ _ _ _ _
           Hgen Hsecret Hlt).
Defined.

(** C2, the claim as stated, is false: the library decodes the claims
    segment before it looks at the algorithm, so a token that names RS256
    and whose claims segment is not base64 is refused as malformed, which is
    not an algorithm error. *)
Lemma ValidateToken_other_alg_example :
  let header : Header :=
    <["alg" := JString "RS256"]> {["typ" := JString "JWT"]} in
  let undecodable := New "illegal base64 data at input byte 0" in
  let tokenString :=
    Compact (Encoded header) (Undecodable "!!!" undecodable) (Encoded "x") in
  let authConfig := user.mkAuthServiceConfig "s3cret" (24 * Hour) "" "" in
  header !! "alg" = Some (JString "RS256") /\
  ("RS256" ∉ hmacAlgs) /\
  @user.ValidateToken Reference.plainMac authConfig (FromUnix 1700000000)
    tokenString =
    (Err (ValidationError (Some undecodable) ValidationErrorMalformed ""),
     []) /\
  ~ AlgorithmMismatch
      (ValidationError (Some undecodable) ValidationErrorMalformed "") /\
  @utils.ValidateToken Reference.plainMac ∅ (FromUnix 1700000000)
    tokenString =
    (Err (New "failed to parse token: illegal base64 data at input byte 0"),
     []).
Proof.
  cbv zeta. split; [reflexivity|].
  split; [apply (bool_decide_unpack _); vm_compute; exact I|].
  split; [reflexivity|]. split; [|reflexivity].
  intros (inner & text & Heq). discriminate Heq.
Qed.

Lemma ValidateToken_other_alg_witness :
  let header : Header :=
    <["alg" := JString "RS256"]> {["typ" := JString "JWT"]} in
  let claims : MapClaims :=
    <["sub" := JString "u1"]> {["exp" := JNumber 1800000000]} in
  let tokenString := Compact (Encoded header) (Encoded claims) (Encoded "x") in
  let authConfig := user.mkAuthServiceConfig "s3cret" (24 * Hour) "" "" in
  header !! "alg" = Some (JString "RS256") /\
  ("RS256" ∉ hmacAlgs) /\
  (exists e events,
     @user.ValidateToken Reference.plainMac authConfig (FromUnix 1700000000)
       tokenString = (Err e, events)
     /\ AlgorithmMismatch e /\ CallVerify ∉ events) /\
  (exists e events,
     @utils.ValidateToken Reference.plainMac ∅ (FromUnix 1700000000)
       tokenString =
       (Err (New ("failed to parse token: " +:+ Error e)), events)
     /\ AlgorithmMismatch e /\ CallVerify ∉ events).
Proof.
  cbv zeta.
  assert (Halg : (<["alg" := JString "RS256"]> {["typ" := JString "JWT"]}
                    : Header) !! "alg" = Some (JString "RS256"))
    by reflexivity.
  assert (Hnot : "RS256" ∉ hmacAlgs)
    by (apply (bool_decide_unpack _); vm_compute; exact I).
  split; [exact Halg|]. split; [exact Hnot|].
  exact (@ValidateToken_other_alg Reference.plainMac ∅ _ _ _ _ _ _ Halg Hnot).
Defined.

Lemma ValidateToken_expired_token_witness :
  let env : gmap string string := {["JWT_SCRET_KEY" := "s3cret"]} in
  let authConfig := user.mkAuthServiceConfig "s3cret" (24 * Hour) "" "" in
  let now := FromUnix 1700000000 in
  let now' := FromUnix 1700604800 in
  exists tokenString,
    @utils.GenerateToken Reference.plainMac env now "alice" "u1"
      = Ok tokenString /\
    user.JWTSecret authConfig = config.JwtScretKey (config.EnvLoad env) /\
    expiryOf now <= now' /\
    Unix now + weekSeconds <> 0 /\
    fst (@user.ValidateToken Reference.plainMac authConfig now' tokenString) =
      Err (ValidationError (Some (New "Token is expired"))
                           ValidationErrorExpired "") /\
    fst (@utils.ValidateToken Reference.plainMac env now' tokenString) =
      Err (New "failed to parse token: Token is expired").
Proof.
  cbv zeta.
  pose proof (@GenerateToken_eq Reference.plainMac
                {["JWT_SCRET_KEY" := "s3cret"]} (FromUnix 1700000000)
                "alice" "u1") as Hgen.
  cbv zeta in Hgen. eexists.
  assert (Hsecret :
    user.JWTSecret (user.mkAuthServiceConfig "s3cret" (24 * Hour) "" "") =
    config.JwtScretKey (config.EnvLoad {["JWT_SCRET_KEY" := "s3cret"]}))
    by reflexivity.
  assert (Hle : expiryOf (FromUnix 1700000000) <= FromUnix 1700604800)
    by (vm_compute; discriminate).
  assert (Hnz : Unix (FromUnix 1700000000) + weekSeconds <> 0)
    by (vm_compute; discriminate).
  split; [exact Hgen|]. split; [exact Hsecret|]. split; [exact Hle|].
  split; [exact Hnz|].
  exact (@ValidateToken_expired_token Reference.plainMac _ _ _ _ _ _ _
           Hgen Hsecret Hle Hnz).
Defined.

Lemma ValidateToken_other_alg_never_verifies_witness :
  let header : Header :=
    <["alg" := JString "none"]> {["typ" := JString "JWT"]} in
  let tokenString :=
    Compact (Encoded header)
            (Undecodable "e30x" (New "illegal base64 data at input byte 4"))
            (Encoded "") in
  let authConfig := user.mkAuthServiceConfig "s3cret" (24 * Hour) "" "" in
  header !! "alg" = Some (JString "none") /\
  ("none" ∉ hmacAlgs) /\
  isOk (fst (@user.ValidateToken Reference.plainMac authConfig
               (FromUnix 1700000000) tokenString)) = false /\
  (CallVerify ∉ snd (@user.ValidateToken Reference.plainMac authConfig
                       (FromUnix 1700000000) tokenString)) /\
  isOk (fst (@utils.ValidateToken Reference.plainMac ∅
               (FromUnix 1700000000) tokenString)) = false /\
  CallVerify ∉ snd (@utils.ValidateToken Reference.plainMac ∅
                      (FromUnix 1700000000) tokenString).
Proof.
  cbv zeta.
  assert (Halg : (<["alg" := JString "none"]> {["typ" := JString "JWT"]}
                    : Header) !! "alg" = Some (JString "none"))
    by reflexivity.
  assert (Hnot : "none" ∉ hmacAlgs)
    by (apply (bool_decide_unpack _); vm_compute; exact I).
  split; [exact Halg|]. split; [exact Hnot|].
  exact (@ValidateToken_other_alg_never_verifies Reference.plainMac ∅ _ _ _ _
           _ _ Halg Hnot).
Defined.

End TokenProps.

(* ===================================================================== *)
(** * Properties of the session store *)
(* ===================================================================== *)

Module SessionProps.

Import user SessionView.

(** ** Durations *)

Lemma wrap64_small (z : Z) : - 2 ^ 63 <= z < 2 ^ 63 -> wrap64 z = z.
Proof. intros Hz. unfold wrap64. rewrite Z.mod_small; lia. Qed.

Lemma Sub_small (t u : Time) :
  minDuration <= t - u <= maxDuration -> Sub t u = t - u.
Proof.
  intros [Hlo Hhi]. unfold Sub.
  destruct (Z.ltb_spec (t - u) minDuration); [lia|].
  destruct (Z.ltb_spec maxDuration (t - u)); [lia|reflexivity].
Qed.

(** The time-to-live of a session that expired at most 2^62 ns (about 146
    years) ago is not positive. *)
Lemma ttl_expired (expiresAt now : Time) :
  expiresAt <= now -> now - expiresAt <= 2 ^ 62 ->
  mulDuration (Sub expiresAt now) 2 <= 0.
Proof.
  intros Hle Hwin. unfold mulDuration.
  rewrite Sub_small by (unfold minDuration, maxDuration; lia).
  rewrite wrap64_small; lia.
Qed.

(** A positive time-to-live of a session that lies ahead is twice what is
    left, and what is left is below 2^62 ns. *)
Lemma ttl_positive (expiresAt now : Time) :
  now <= expiresAt -> 0 < mulDuration (Sub expiresAt now) 2 ->
  expiresAt - now < 2 ^ 62 /\
  mulDuration (Sub expiresAt now) 2 = 2 * (expiresAt - now).
Proof.
  intros Hle Hpos. unfold mulDuration in *.
  assert (Hsub : 0 <= Sub expiresAt now <= maxDuration).
  { unfold Sub, minDuration, maxDuration.
    destruct (Z.ltb_spec (expiresAt - now) (- 2 ^ 63)); [lia|].
    destruct (Z.ltb_spec (2 ^ 63 - 1) (expiresAt - now)); lia. }
  assert (Hlt : Sub expiresAt now < 2 ^ 62).
  { destruct (Z_lt_ge_dec (Sub expiresAt now) (2 ^ 62)) as [|Hge]; [done|].
    exfalso. unfold wrap64, maxDuration in *.
    replace (Sub expiresAt now * 2 + 2 ^ 63)
      with (Sub expiresAt now * 2 - 2 ^ 63 + 1 * 2 ^ 64) in Hpos by lia.
    rewrite Z.mod_add in Hpos by lia.
    rewrite Z.mod_small in Hpos; lia. }
  assert (Heq : Sub expiresAt now = expiresAt - now).
  { unfold Sub, minDuration, maxDuration in *.
    destruct (Z.ltb_spec (expiresAt - now) (- 2 ^ 63)); [lia|].
    destruct (Z.ltb_spec (2 ^ 63 - 1) (expiresAt - now)); lia. }
  rewrite Heq in *. rewrite wrap64_small by lia. lia.
Qed.

(** The server keeps a session beyond its expiry. *)
Lemma formatSec_covers (left : Duration) :
  0 < left -> left < redis.formatSec (2 * left) * Second.
Proof.
  intros Hpos. unfold redis.formatSec, Second, Nanosecond.
  destruct (Z.ltb_spec 0 (2 * left)); [|lia].
  destruct (Z.ltb_spec (2 * left) (1000000000 * 1)); cbn [andb]; [lia|].
  pose proof (Z.quot_rem' (2 * left) (1000000000 * 1)) as Hqr.
  pose proof (Z.rem_bound_pos (2 * left) (1000000000 * 1)) as Hrem.
  destruct (Z_lt_ge_dec left (1000000000 * 1)).
  - assert (1 <= Z.quot (2 * left) (1000000000 * 1)).
    { apply Z.quot_le_lower_bound; lia. }
    lia.
  - lia.
Qed.


Lemma formatSec_pos (d : Duration) : 0 < d -> 0 < redis.formatSec d.
Proof.
  intros Hpos. unfold redis.formatSec, Second, Nanosecond.
  destruct (Z.ltb_spec 0 d); [|lia].
  destruct (Z.ltb_spec d (1000000000 * 1)); cbn [andb]; [lia|].
  apply Z.quot_str_pos. lia.
Qed.

(** ** The Redis commands *)

Lemma next_data (c c' : redis.Client) (o : option error) :
  redis.next c = (o, c') ->
  redis.hashes c' = redis.hashes c /\ redis.sets c' = redis.sets c.
Proof.
  unfold redis.next. destruct (redis.outcomes c); intros [= <- <-]; done.
Qed.

Lemma next_healthy (c : redis.Client) :
  healthy c -> redis.next c = (None, c).
Proof. unfold healthy, redis.next. by intros ->. Qed.

Lemma liveHash_live (c : redis.Client) (now : Time) (key : string)
    (e : redis.HashEntry) :
  redis.liveHash c now key = Some e ->
  redis.hashes c !! key = Some e /\ redis.live now e = true.
Proof.
  unfold redis.liveHash. destruct (redis.hashes c !! key) as [e'|]; [|done].
  destruct (redis.live now e') eqn:Hlive; [|done]. by intros [= <-].
Qed.

Lemma liveHash_absent (c : redis.Client) (now : Time) (key : string) :
  redis.hashes c !! key = None -> redis.liveHash c now key = None.
Proof. unfold redis.liveHash. by intros ->. Qed.

Lemma append_empty_r (s : string) : s +:+ "" = s.
Proof.
  induction s as [|c s IH]; [reflexivity|].
  change (String c (s +:+ "") = String c s). by rewrite IH.
Qed.

Lemma sessionKey_create (userId : string) :
  Sprintf constants.UserSessionRK userId = sessionKey userId.
Proof.
  unfold sessionKey, constants.UserSessionRK. cbn. by rewrite append_empty_r.
Qed.

Lemma sessionKey_get (userId : string) :
  Sprintf "session:%s" userId = sessionKey userId.
Proof. unfold sessionKey. cbn. by rewrite append_empty_r. Qed.

Section WithLayout.

Context `{Layout}.

(** What a successful [CreateSession] leaves behind: the stamped session,
    its fields written over whatever the hash of the key held, a deadline,
    and the user among the active users. *)
Lemma CreateSession_Ok (r r' : UserPersistRepository) (now : Time)
    (s s' : UserSession) :
  CreateSession r now s = (Ok s', r') ->
  s' = stamp now s /\
  0 < mulDuration (Sub (sExpiresAt s) now) 2 /\
  db r' = db r /\ logged r' = logged r /\
  (exists old,
     redis.hashes (redis r') !! sessionKey (sUserID s) =
     Some {| redis.fields := sessionFields s' ∪ old;
             redis.deadline :=
               Some (now + redis.formatSec
                             (mulDuration (Sub (sExpiresAt s) now) 2)
                           * Second) |}) /\
  sUserID s ∈ activeUsers (redis r').
Proof.
  unfold CreateSession. cbn zeta. rewrite sessionKey_create.
  cbn [stamp sExpiresAt sUserID].
  set (ttl := mulDuration (Sub (sExpiresAt s) now) 2).
  destruct (Z.leb_spec ttl 0) as [|Httl]; [done|].
  unfold redis.HSet.
  destruct (redis.next (redis r)) as [[e1|] c1] eqn:Hn1; [done|].
  set (old := default {| redis.fields := ∅; redis.deadline := None |}
                      (redis.liveHash c1 now (sessionKey (sUserID s)))).
  assert (Hold : redis.live now old = true).
  { subst old. destruct (redis.liveHash c1 now _) as [e|] eqn:Hl; [|done].
    by apply liveHash_live in Hl as [_ ?]. }
  unfold redis.Expire.
  destruct (redis.next (redis.withHashes c1 _)) as [[e2|] c2] eqn:Hn2; [done|].
  apply next_data in Hn2 as [Hh2 Hs2]. cbn in Hh2, Hs2.
  unfold redis.liveHash at 1. rewrite Hh2, lookup_insert_eq.
  unfold redis.live at 1. cbn [redis.deadline]. fold (redis.live now old).
  rewrite Hold.
  pose proof (formatSec_pos ttl Httl) as Hsec.
  destruct (Z.leb_spec (redis.formatSec ttl) 0) as [|_]; [lia|].
  unfold redis.SAdd.
  destruct (redis.next (redis.withHashes c2 _)) as [[e3|] c3] eqn:Hn3; [done|].
  apply next_data in Hn3 as [Hh3 Hs3]. cbn in Hh3, Hs3.
  intros [= <- <-]. split_and!; try done.
  - exists (redis.fields old). cbn. rewrite Hh3, lookup_insert_eq. done.
  - unfold activeUsers. cbn. rewrite lookup_insert_eq. cbn. set_solver.
Qed.


(** Within 2^62 ns of the expiry, [CreateSession] on a session that has
    expired fails before it sends anything to the store: the repository,
    the coming outcomes of the connection included, is as it was. *)
Lemma CreateSession_expired_no_writes (r : UserPersistRepository)
    (now : Time) (s : UserSession) :
  sExpiresAt s <= now -> now - sExpiresAt s <= 2 ^ 62 ->
  CreateSession r now s = (Err (New "session already expired"), r).
Proof.
  intros Hle Hwin. unfold CreateSession. cbn zeta. cbn [stamp sExpiresAt].
  pose proof (ttl_expired _ _ Hle Hwin) as Httl.
  destruct (Z.leb_spec (mulDuration (Sub (sExpiresAt s) now) 2) 0); [done|lia].
Qed.

(** ** Reading a session back *)

Lemma size_nonempty (m : gmap string string) (k v : string) :
  m !! k = Some v -> (size m =? 0)%nat = false.
Proof.
  intros Hk. apply Nat.eqb_neq. intros Hsize.
  apply map_size_empty_iff in Hsize. subst m. by rewrite lookup_empty in Hk.
Qed.

Lemma sessionFields_size (s : UserSession) (old : gmap string string) :
  (size (sessionFields s ∪ old) =? 0)%nat = false.
Proof.
  apply (size_nonempty _ "user_id" (sUserID s)).
  apply lookup_union_Some_l. unfold sessionFields. by simplify_map_eq.
Qed.

(** The fields [GetSession] reads are among those [CreateSession] writes, so
    what else the hash held does not show. *)
Lemma sessionOfFields_union (userId : string) (s : UserSession)
    (old : gmap string string) :
  sessionOfFields userId (sessionFields s ∪ old) =
  sessionOfFields userId (sessionFields s).
Proof.
  assert (Hfield : forall name v,
            sessionFields s !! name = Some v ->
            field (sessionFields s ∪ old) name = field (sessionFields s) name).
  { intros name v Hv. unfold field.
    by rewrite (lookup_union_Some_l _ _ _ _ Hv), Hv. }
  unfold sessionOfFields, parsedOrZero.
  rewrite (Hfield "user_agent" (sUserAgent s)),
    (Hfield "ip" (sIP s)),
    (Hfield "expires_at" (Format (sExpiresAt s))),
    (Hfield "created_at" (Format (sCreatedAt s))),
    (Hfield "updated_at" (Format (sUpdatedAt s)));
    unfold sessionFields; by simplify_map_eq.
Qed.

Lemma sessionOfFields_persisted (s : UserSession) :
  roundTrips s ->
  sessionOfFields (sUserID s) (sessionFields s) = persisted s.
Proof.
  intros (Hexp & Hcre & Hupd).
  unfold sessionOfFields, parsedOrZero, field, sessionFields, persisted.
  by simplify_map_eq.
Qed.

Lemma truncSec_le (t : Time) : truncSec t <= t.
Proof.
  unfold truncSec, FromUnix, Unix, Second, Nanosecond.
  rewrite Z.mul_comm. apply Z.mul_div_le. lia.
Qed.

(** [GetSession] once the store has answered with a hash that has fields. *)
Lemma GetSession_read (r : UserPersistRepository) (now : Time)
    (userId : string) (data : gmap string string) (c : redis.Client) :
  redis.HGetAll (redis r) now (sessionKey userId) = (Ok data, c) ->
  (size data =? 0)%nat = false ->
  GetSession r now userId =
  if After now (sExpiresAt (sessionOfFields userId data)) then
    (Err (New "session has expired"),
     match redis.Del c (sessionKey userId) with
     | (Some err, c') =>
         {| db := db r; redis := c';
            logged := logged r ++
              ["Failed to delete expired session: " +:+ Error err] |}
     | (None, c') => withRedis r c'
     end)
  else (Ok (sessionOfFields userId data), withRedis r c).
Proof.
  intros Hread Hsize. unfold GetSession. cbn zeta.
  rewrite sessionKey_get, Hread, Hsize.
  destruct (After now _); [|done].
  by destruct (redis.Del c (sessionKey userId)) as [[err|] c'].
Qed.

(** [GetSession] once the store has answered that there is nothing. *)
Lemma GetSession_absent (r : UserPersistRepository) (now : Time)
    (userId : string) :
  fst (redis.next (redis r)) = None ->
  redis.hashes (redis r) !! sessionKey userId = None ->
  fst (GetSession r now userId) =
  Err (New ("session not found for user " +:+ userId)).
Proof.
  intros Hnext Habsent. unfold GetSession. cbn zeta.
  rewrite sessionKey_get. unfold redis.HGetAll.
  destruct (redis.next (redis r)) as [o c] eqn:Hn. cbn in Hnext. subst o.
  apply next_data in Hn as [Hh _].
  rewrite liveHash_absent by (by rewrite Hh). done.
Qed.


(** Over a healthy connection a session that lies ahead by less than 2^62 ns
    is stored. *)
Lemma CreateSession_succeeds (r : UserPersistRepository) (now : Time)
    (s : UserSession) :
  healthy (redis r) ->
  0 < sExpiresAt s - now < 2 ^ 62 ->
  exists r',
    CreateSession r now s = (Ok (stamp now s), r') /\ healthy (redis r').
Proof.
  intros Hhealthy Hleft. unfold CreateSession. cbn zeta.
  cbn [stamp sExpiresAt sUserID]. unfold mulDuration.
  rewrite Sub_small by (unfold minDuration, maxDuration; lia).
  rewrite wrap64_small by lia.
  destruct (Z.leb_spec ((sExpiresAt s - now) * 2) 0) as [|Httl]; [lia|].
  unfold healthy in Hhealthy.
  unfold redis.HSet. rewrite (next_healthy _ Hhealthy).
  set (old := default {| redis.fields := ∅; redis.deadline := None |} _).
  assert (Hold : redis.live now old = true).
  { subst old. destruct (redis.liveHash _ now _) as [e|] eqn:Hl; [|done].
    by apply liveHash_live in Hl as [_ ?]. }
  unfold redis.Expire. rewrite next_healthy by exact Hhealthy.
  unfold redis.liveHash. cbn [redis.withHashes redis.hashes].
  rewrite lookup_insert_eq.
  unfold redis.live at 1. cbn [redis.deadline]. fold (redis.live now old).
  rewrite Hold.
  pose proof (formatSec_pos _ Httl).
  destruct (Z.leb_spec (redis.formatSec ((sExpiresAt s - now) * 2)) 0); [lia|].
  unfold redis.SAdd. rewrite next_healthy by exact Hhealthy.
  eexists. split; [reflexivity|]. exact Hhealthy.
Qed.

(** C4 (as amended).  [GetSession] on a stored session whose expiry has
    passed fails with the expired error and sends a delete for the key; a
    failure of that delete is logged and changes nothing else.  When the
    delete went through the key is gone, and the next [GetSession] that the
    store answers fails with the not-found error. *)
Theorem GetSession_expired (r : UserPersistRepository) (now : Time)
    (userId : string) (data : gmap string string) (c c1 : redis.Client)
    (o : option error) :
  redis.HGetAll (redis r) now (sessionKey userId) = (Ok data, c) ->
  size data <> 0%nat ->
  sExpiresAt (sessionOfFields userId data) < now ->
  redis.next c = (o, c1) ->
  exists r',
    GetSession r now userId = (Err (New "session has expired"), r') /\
    match o with
    | Some err =>
        logged r' = logged r ++
          ["Failed to delete expired session: " +:+ Error err] /\
        redis.hashes (redis r') = redis.hashes c
    | None =>
        logged r' = logged r /\
        redis.hashes (redis r') !! sessionKey userId = None /\
        forall now',
          fst (redis.next (redis r')) = None ->
          fst (GetSession r' now' userId) =
          Err (New ("session not found for user " +:+ userId))
    end.
Proof.
  intros Hread Hsize Hpast Hnext.
  rewrite (GetSession_read r now userId data c Hread)
    by (by apply Nat.eqb_neq).
  assert (Hafter : After now (sExpiresAt (sessionOfFields userId data)) = true)
    by (by apply Z.ltb_lt).
  rewrite Hafter. unfold redis.Del. rewrite Hnext.
  apply next_data in Hnext as [Hh Hs].
  destruct o as [err|]; eexists; (split; [reflexivity|]); cbn.
  - done.
  - assert (Hgone : delete (sessionKey userId) (redis.hashes c1)
                      !! sessionKey userId = None)
      by apply lookup_delete_eq.
    split_and!; [done|done|].
    intros now' Hn. by apply GetSession_absent.
Qed.


(** Reading back what [CreateSession] has just stored. *)
Lemma GetSession_after_create (r r1 : UserPersistRepository)
    (now now' : Time) (s s' : UserSession) :
  CreateSession r now s = (Ok s', r1) ->
  roundTrips s' ->
  now <= now' <= truncSec (sExpiresAt s) ->
  fst (redis.next (redis r1)) = None ->
  s' = stamp now s /\
  exists r2, GetSession r1 now' (sUserID s) = (Ok (persisted s'), r2).
Proof.
  intros Hcreate Hround [Hnow Hnow'] Hnext.
  apply CreateSession_Ok in Hcreate
    as (-> & Httl & _ & _ & (old & Hstored) & _).
  split; [reflexivity|].
  pose proof (truncSec_le (sExpiresAt s)) as Htrunc.
  destruct (ttl_positive (sExpiresAt s) now ltac:(lia) Httl) as [_ Heq].
  rewrite Heq in Hstored, Httl.
  pose proof (formatSec_covers (sExpiresAt s - now) ltac:(lia)) as Hcover.
  destruct (redis.next (redis r1)) as [o c] eqn:Hn. cbn in Hnext. subst o.
  pose proof (next_data _ _ _ Hn) as [Hh _].
  assert (Hread : redis.HGetAll (redis r1) now' (sessionKey (sUserID s)) =
                  (Ok (sessionFields (stamp now s) ∪ old), c)).
  { unfold redis.HGetAll, redis.liveHash. rewrite Hn, Hh, Hstored.
    unfold redis.live. cbn [redis.deadline redis.fields].
    destruct (Z.ltb_spec now'
                (now + redis.formatSec (2 * (sExpiresAt s - now)) * Second));
      [done|lia]. }
  rewrite (GetSession_read _ _ _ _ _ Hread (sessionFields_size _ _)).
  rewrite sessionOfFields_union.
  change (sUserID s) with (sUserID (stamp now s)).
  rewrite (sessionOfFields_persisted _ Hround).
  assert (Hlive : After now' (sExpiresAt (persisted (stamp now s))) = false).
  { apply Z.ltb_ge. cbn. lia. }
  rewrite Hlive. by eexists.
Qed.



End WithLayout.

(** ** A process in UTC *)

Lemma roundTrips_utc (s : UserSession) :
  inYears (sExpiresAt s) -> inYears (sCreatedAt s) ->
  inYears (sUpdatedAt s) ->
  @roundTrips rfc3339_utc s.
Proof.
  intros Hexp Hcre Hupd. unfold roundTrips. cbn [Parse Format rfc3339_utc].
  by rewrite !CalendarProps.rfc3339_utc_round_trip.
Qed.

Lemma inYears_zeroTime : inYears zeroTime.
Proof. unfold inYears. split; vm_compute; congruence. Qed.


End SessionProps.

(* ===================================================================== *)
(** * The session store on concrete inputs *)
(* ===================================================================== *)

Module SessionExamples.

Import user SessionView SessionProps Fixtures.

#[local] Existing Instance rfc3339_utc.

(** C3 does not hold on the code.  A session that expired on 1800-01-01, more than
    2^62 ns before [t0], is accepted: doubling the negative difference
    overflows int64 to a positive time-to-live, and hash, time-out and
    active user are all written. *)
Theorem CreateSession_far_past_expiry :
  let s := expiring aSession (FromUnix (-5364662400)) in
  let created := CreateSession emptyRepo t0 s in
  Format (sExpiresAt s) = "1800-01-01T00:00:00Z" /\
  sExpiresAt s <= t0 /\
  mulDuration (Sub (sExpiresAt s) t0) 2 = 4317419273709551616 /\
  fst created = Ok (stamp t0 s) /\
  redis.hashes (redis (snd created)) !! "session:u1" =
    Some {| redis.fields := sessionFields (stamp t0 s);
            redis.deadline := Some (t0 + 4317419273 * Second) |} /\
  activeUsers (redis (snd created)) = {["u1"]}.
Proof. run. Qed.

(** C4, the claim as stated, is false: when the delete of the expired
    session fails, the failure is logged, the hash stays, and the next
    [GetSession] reports the session as expired again, not as missing. *)
Lemma GetSession_failed_delete_example :
  let first := GetSession flaky (t0 + 90 * Minute) "u1" in
  fst first = Err (New "session has expired") /\
  logged (snd first) =
    ["Failed to delete expired session: connection reset by peer"] /\
  fst (GetSession (snd first) (t0 + 90 * Minute) "u1") =
    Err (New "session has expired") /\
  fst (GetSession (snd first) (t0 + 90 * Minute) "u1") <>
    Err (New "session not found for user u1").
Proof. run. Qed.



Lemma GetSession_expired_witness :
  let now := t0 + 90 * Minute in
  let data := sessionFields (stamp t0 aSession) in
  redis.HGetAll (redis stored) now (sessionKey "u1") = (Ok data, redis stored)
  /\ size data <> 0%nat
  /\ sExpiresAt (sessionOfFields "u1" data) < now
  /\ redis.next (redis stored) = (None, redis stored)
  /\ exists r',
       GetSession stored now "u1" = (Err (New "session has expired"), r') /\
       logged r' = logged stored /\
       redis.hashes (redis r') !! sessionKey "u1" = None /\
       forall now',
         fst (redis.next (redis r')) = None ->
         fst (GetSession r' now' "u1") =
         Err (New ("session not found for user " +:+ "u1")).
Proof.
  cbv zeta.
  assert (Hread : redis.HGetAll (redis stored) (t0 + 90 * Minute)
                    (sessionKey "u1") =
                  (Ok (sessionFields (stamp t0 aSession)), redis stored))
    by (vm_compute; reflexivity).
  assert (Hsize : size (sessionFields (stamp t0 aSession)) <> 0%nat)
    by (vm_compute; discriminate).
  assert (Hpast : sExpiresAt (sessionOfFields "u1"
                                (sessionFields (stamp t0 aSession)))
                  < t0 + 90 * Minute)
    by (vm_compute; reflexivity).
  assert (Hnext : redis.next (redis stored) = (None, redis stored))
    by (vm_compute; reflexivity).
  split; [exact Hread|]. split; [exact Hsize|]. split; [exact Hpast|].
  split; [exact Hnext|].
  exact (GetSession_expired stored _ "u1" _ _ _ None Hread Hsize Hpast Hnext).
Defined.




(** After the two logins the first session is gone and the second is read. *)
Example storedTwice_reads_second :
  fst (GetSession stored t0 "u1") = Ok (persisted (stamp t0 aSession)) /\
  fst (GetSession storedTwice (t0 + Minute) "u1") =
    Ok (persisted (stamp (t0 + Minute) bSession)).
Proof. run. Qed.

Lemma CreateSession_expired_no_writes_witness :
  let s := expiring aSession (t0 - Hour) in
  sExpiresAt s <= t0 /\ t0 - sExpiresAt s <= 2 ^ 62 /\
  CreateSession emptyRepo t0 s =
    (Err (New "session already expired"), emptyRepo).
Proof.
  cbv zeta.
  assert (Hle : sExpiresAt (expiring aSession (t0 - Hour)) <= t0)
    by (vm_compute; discriminate).
  assert (Hwin : t0 - sExpiresAt (expiring aSession (t0 - Hour)) <= 2 ^ 62)
    by (vm_compute; discriminate).
  split; [exact Hle|]. split; [exact Hwin|].
  exact (CreateSession_expired_no_writes emptyRepo t0 _ Hle Hwin).
Defined.



End SessionExamples.

(* ===================================================================== *)
(** * Properties of login *)
(* ===================================================================== *)

Module LoginProps.

Import user SessionView.

Section WithParameters.

Context `{Layout} `{Bcrypt}.

Variable generateToken : AuthServiceConfig -> Time -> string -> result string.

(** C7 (as amended).  A login for which no user is found fails with
    "invalid email", one whose password does not verify fails with "invalid
    password": the caller is told which of the two was wrong.  Neither
    touches the repository. *)
Theorem Login_failures_differ (authConfig : AuthServiceConfig)
    (r1 r2 : UserPersistRepository) (now1 now2 : Time)
    (req1 req2 : LoginRequest) (err : error) (account : User) :
  GetByEmail r1 (reqEmail req1) = Err err ->
  GetByEmail r2 (reqEmail req2) = Ok account ->
  CheckPasswordHash (reqPassword req2) (PasswordHash account) = false ->
  Login generateToken authConfig r1 now1 req1 =
    (Err (New "invalid email"), r1) /\
  Login generateToken authConfig r2 now2 req2 =
    (Err (New "invalid password"), r2) /\
  fst (Login generateToken authConfig r1 now1 req1) <>
  fst (Login generateToken authConfig r2 now2 req2).
Proof.
  intros Hnone Hsome Hwrong.
  assert (H1 : Login generateToken authConfig r1 now1 req1 =
               (Err (New "invalid email"), r1)).
  { unfold Login. by rewrite Hnone. }
  assert (H2 : Login generateToken authConfig r2 now2 req2 =
               (Err (New "invalid password"), r2)).
  { unfold Login. by rewrite Hsome, Hwrong. }
  split; [exact H1|]. split; [exact H2|].
  rewrite H1, H2. discriminate.
Qed.

(** A user is not found exactly when no live row has the address. *)
Lemma GetByEmail_unknown (r : UserPersistRepository) (email : string) :
  broken (db r) = None ->
  (forall u, u ∈ rows (db r) -> DeletedAt u = None -> Email u <> email) ->
  GetByEmail r email = Err (New "user not found").
Proof.
  intros Hup Hnone. unfold GetByEmail, First. rewrite Hup.
  destruct (List.find _ (rows (db r))) as [u|] eqn:Hfind; [|reflexivity].
  apply List.find_some in Hfind as [Hin Hcond].
  apply list_elem_of_In in Hin.
  destruct (DeletedAt u) eqn:Hdel; [discriminate|].
  apply String.eqb_eq in Hcond. by destruct (Hnone u Hin Hdel).
Qed.


End WithParameters.

(** ** Login on concrete inputs *)

Import Reference Fixtures.

#[local] Existing Instance rfc3339_utc.
#[local] Existing Instance plainBcrypt.

(** C7, the claim as stated, is false: the two failures carry different
    messages. *)
Lemma Login_failures_example :
  GetByEmail repoWithAlice (reqEmail unknownEmail) =
    Err (New "user not found") /\
  GetByEmail repoWithAlice (reqEmail wrongPassword) = Ok alice /\
  CheckPasswordHash (reqPassword wrongPassword) (PasswordHash alice) = false /\
  fst (Login plainGenerateToken authConfig repoWithAlice t0 unknownEmail) =
    Err (New "invalid email") /\
  fst (Login plainGenerateToken authConfig repoWithAlice t0 wrongPassword) =
    Err (New "invalid password") /\
  fst (Login plainGenerateToken authConfig repoWithAlice t0 unknownEmail) <>
  fst (Login plainGenerateToken authConfig repoWithAlice t0 wrongPassword).
Proof. run. Qed.

Lemma Login_failures_differ_witness :
  GetByEmail repoWithAlice (reqEmail unknownEmail) =
    Err (New "user not found") /\
  GetByEmail repoWithAlice (reqEmail wrongPassword) = Ok alice /\
  CheckPasswordHash (reqPassword wrongPassword) (PasswordHash alice) = false /\
  Login plainGenerateToken authConfig repoWithAlice t0 unknownEmail =
    (Err (New "invalid email"), repoWithAlice) /\
  Login plainGenerateToken authConfig repoWithAlice t0 wrongPassword =
    (Err (New "invalid password"), repoWithAlice) /\
  fst (Login plainGenerateToken authConfig repoWithAlice t0 unknownEmail) <>
  fst (Login plainGenerateToken authConfig repoWithAlice t0 wrongPassword).
Proof.
  assert (Hnone : GetByEmail repoWithAlice (reqEmail unknownEmail) =
                  Err (New "user not found")) by reflexivity.
  assert (Hsome : GetByEmail repoWithAlice (reqEmail wrongPassword) =
                  Ok alice) by reflexivity.
  assert (Hwrong : CheckPasswordHash (reqPassword wrongPassword)
                     (PasswordHash alice) = false) by reflexivity.
  split; [exact Hnone|]. split; [exact Hsome|]. split; [exact Hwrong|].
  exact (Login_failures_differ plainGenerateToken authConfig repoWithAlice
           repoWithAlice t0 t0 unknownEmail wrongPassword _ alice
           Hnone Hsome Hwrong).
Defined.


(** The login scenario of the specification: the right password for an
    existing user returns the token, and the session then reads back. *)
Example Login_then_GetSession :
  let result := Login plainGenerateToken authConfig repoWithAlice t0 goodLogin in
  fst result = Ok {| Token := "token-of-u1"; ExpiresAt := t0 + 24 * Hour;
                   RespUser := ToResponse alice |} /\
  fst (GetSession (snd result) (t0 + Minute) "u1") =
    Ok {| sID := ""; sUserID := "u1"; sTokenHash := ""; sUserAgent := "";
          sIP := ""; sExpiresAt := t0 + 24 * Hour; sCreatedAt := t0;
          sUpdatedAt := t0 |} /\
  activeUsers (redis (snd result)) = {["u1"]}.
Proof. run. Qed.

End LoginProps.

(* ===================================================================== *)
(** * What the session store leaves alone *)
(* ===================================================================== *)

Module SessionFrame.

Import user SessionView SessionProps.

(** ** The Redis commands, one key at a time *)

Lemma sessionKey_not_active (userId : string) :
  sessionKey userId <> constants.ActiveUsersRK.
Proof. unfold sessionKey, constants.ActiveUsersRK. cbn. discriminate. Qed.

Lemma next_outcomes (c : redis.Client) (o : option error)
    (rest : list (option error)) :
  redis.outcomes c = o :: rest ->
  redis.next c =
  (o, {| redis.hashes := redis.hashes c; redis.sets := redis.sets c;
         redis.outcomes := rest |}).
Proof. unfold redis.next. by intros ->. Qed.

(** HSET changes the hash of its key and nothing else. *)
Lemma HSet_frame (c c' : redis.Client) (now : Time) (key : string)
    (values : gmap string string) (o : option error) :
  redis.HSet c now key values = (o, c') ->
  redis.sets c' = redis.sets c /\
  forall key', key' <> key -> redis.hashes c' !! key' = redis.hashes c !! key'.
Proof.
  unfold redis.HSet. destruct (redis.next c) as [[err|] c1] eqn:Hn;
    apply next_data in Hn as [Hh Hs]; intros [= <- <-]; cbn.
  - by rewrite Hh, Hs.
  - split; [done|]. intros key' Hne. by rewrite lookup_insert_ne, Hh.
Qed.

(** EXPIRE changes the hash of its key and nothing else. *)
Lemma Expire_frame (c c' : redis.Client) (now : Time) (key : string)
    (d : Duration) (o : option error) :
  redis.Expire c now key d = (o, c') ->
  redis.sets c' = redis.sets c /\
  forall key', key' <> key -> redis.hashes c' !! key' = redis.hashes c !! key'.
Proof.
  unfold redis.Expire. destruct (redis.next c) as [[err|] c1] eqn:Hn;
    apply next_data in Hn as [Hh Hs].
  - intros [= <- <-]. by rewrite Hh, Hs.
  - destruct (redis.liveHash c1 now key) as [e|].
    + destruct (redis.formatSec d <=? 0); intros [= <- <-]; cbn;
        (split; [done|]); intros key' Hne.
      * by rewrite lookup_delete_ne, Hh.
      * by rewrite lookup_insert_ne, Hh.
    + intros [= <- <-]. by rewrite Hh, Hs.
Qed.

(** SADD adds its member to the set of its key and changes nothing else. *)
Lemma SAdd_frame (c c' : redis.Client) (key member : string)
    (o : option error) :
  redis.SAdd c key member = (o, c') ->
  redis.hashes c' = redis.hashes c /\
  (forall key', key' <> key -> redis.sets c' !! key' = redis.sets c !! key') /\
  default ∅ (redis.sets c !! key) ⊆ default ∅ (redis.sets c' !! key) /\
  default ∅ (redis.sets c' !! key) ⊆ {[member]} ∪ default ∅ (redis.sets c !! key).
Proof.
  unfold redis.SAdd. destruct (redis.next c) as [[err|] c1] eqn:Hn;
    apply next_data in Hn as [Hh Hs]; intros [= <- <-]; cbn.
  - rewrite Hh, Hs. split_and!; [done|done|done|set_solver].
  - rewrite Hs. split_and!; [done| | |].
    + intros key' Hne. by rewrite lookup_insert_ne.
    + rewrite lookup_insert_eq. cbn. set_solver.
    + rewrite lookup_insert_eq. cbn. set_solver.
Qed.

Section WithLayout.

Context `{Layout}.

(** What [CreateSession] can change, whatever its outcome. *)
Lemma CreateSession_touches (r : UserPersistRepository) (now : Time)
    (s : UserSession) :
  let r' := snd (CreateSession r now s) in
  db r' = db r /\ logged r' = logged r /\
  (forall key, key <> sessionKey (sUserID s) ->
     redis.hashes (redis r') !! key = redis.hashes (redis r) !! key) /\
  (forall key, key <> constants.ActiveUsersRK ->
     redis.sets (redis r') !! key = redis.sets (redis r) !! key) /\
  activeUsers (redis r) ⊆ activeUsers (redis r') /\
  activeUsers (redis r') ⊆ {[sUserID s]} ∪ activeUsers (redis r).
Proof.
  cbn zeta. unfold CreateSession. cbn zeta. rewrite sessionKey_create.
  cbn [stamp sExpiresAt sUserID]. unfold activeUsers.
  destruct (_ <=? 0); [cbn; split_and!; (done || set_solver)|].
  destruct (redis.HSet _ _ _ _) as [[e1|] c1] eqn:H1;
    apply HSet_frame in H1 as [Hs1 Hh1].
  { cbn. rewrite Hs1. split_and!; (done || set_solver). }
  destruct (redis.Expire _ _ _ _) as [[e2|] c2] eqn:H2;
    apply Expire_frame in H2 as [Hs2 Hh2].
  { cbn. rewrite Hs2, Hs1. split_and!; try (done || set_solver).
    intros key Hne. by rewrite Hh2, Hh1. }
  destruct (redis.SAdd _ _ _) as [o c3] eqn:H3.
  apply SAdd_frame in H3 as (Hh3 & Hs3 & Hsub & Hsup).
  rewrite Hs2, Hs1 in Hs3, Hsub, Hsup.
  assert (Hother : forall key, key <> sessionKey (sUserID s) ->
            redis.hashes c3 !! key = redis.hashes (redis r) !! key).
  { intros key Hne. by rewrite Hh3, Hh2, Hh1. }
  by destruct o; cbn; split_and!.
Qed.

(** Whatever its outcome, [CreateSession] leaves the users table, the log
    and the session hashes of the other users as they were; it removes
    nobody from the active users and adds at most the user of the
    session. *)
Theorem CreateSession_frame (r : UserPersistRepository) (now : Time)
    (s : UserSession) :
  let r' := snd (CreateSession r now s) in
  db r' = db r /\ logged r' = logged r /\
  (forall key, key <> sessionKey (sUserID s) ->
     redis.hashes (redis r') !! key = redis.hashes (redis r) !! key) /\
  (forall key, key <> constants.ActiveUsersRK ->
     redis.sets (redis r') !! key = redis.sets (redis r) !! key) /\
  activeUsers (redis r) ⊆ activeUsers (redis r') /\
  activeUsers (redis r') ⊆ {[sUserID s]} ∪ activeUsers (redis r).
Proof. exact (CreateSession_touches r now s). Qed.

(** A session that [GetSession] returns is for the user asked for, has no id
    and no token, has not expired by the clock of the call, and was read
    from a hash that the store holds for the user and has not timed out;
    returning it changes nothing in the store, the table or the log. *)
Theorem GetSession_Ok (r r' : UserPersistRepository) (now : Time)
    (userId : string) (s : UserSession) :
  GetSession r now userId = (Ok s, r') ->
  sUserID s = userId /\ sID s = "" /\ sTokenHash s = "" /\
  now <= sExpiresAt s /\
  (exists e, redis.hashes (redis r) !! sessionKey userId = Some e /\
             redis.live now e = true /\
             s = sessionOfFields userId (redis.fields e)) /\
  redis.hashes (redis r') = redis.hashes (redis r) /\
  redis.sets (redis r') = redis.sets (redis r) /\
  db r' = db r /\ logged r' = logged r.
Proof.
  unfold GetSession. cbn zeta. rewrite sessionKey_get. unfold redis.HGetAll.
  destruct (redis.next (redis r)) as [[err|] c] eqn:Hn; [done|].
  apply next_data in Hn as [Hh Hs].
  destruct (redis.liveHash c now (sessionKey userId)) as [e|] eqn:Hlive;
    [|by rewrite map_size_empty].
  apply liveHash_live in Hlive as [He Hl]. rewrite Hh in He.
  destruct (size (redis.fields e) =? 0)%nat; [done|].
  destruct (After now _) eqn:Hafter.
  { by destruct (redis.Del c _) as [[?|] ?]. }
  intros [= <- <-]. apply Z.ltb_ge in Hafter. cbn.
  split_and!; try done. by exists e.
Qed.

(** [GetSession] never touches the set of active users, the table, or the
    hash of another key: a user whose expired session it deletes stays among
    the active users. *)
Theorem GetSession_keeps_active_users (r : UserPersistRepository)
    (now : Time) (userId : string) :
  let r' := snd (GetSession r now userId) in
  activeUsers (redis r') = activeUsers (redis r) /\
  db r' = db r /\
  forall key, key <> sessionKey userId ->
    redis.hashes (redis r') !! key = redis.hashes (redis r) !! key.
Proof.
  cbn zeta. unfold GetSession. cbn zeta. rewrite sessionKey_get.
  unfold redis.HGetAll, activeUsers.
  destruct (redis.next (redis r)) as [[err|] c] eqn:Hn;
    apply next_data in Hn as [Hh Hs]; cbn.
  { by rewrite Hh, Hs. }
  destruct (size _ =? 0)%nat; cbn; [by rewrite Hh, Hs|].
  destruct (After now _); cbn; [|by rewrite Hh, Hs].
  unfold redis.Del.
  destruct (redis.next c) as [[err|] c1] eqn:Hn1;
    apply next_data in Hn1 as [Hh1 Hs1]; cbn.
  { by rewrite Hh1, Hs1, Hh, Hs. }
  rewrite Hh1, Hs1, Hh, Hs.
  rewrite lookup_delete_ne by apply sessionKey_not_active.
  split_and!; [done|done|]. intros key Hne. by rewrite lookup_delete_ne.
Qed.

End WithLayout.

End SessionFrame.

(* ===================================================================== *)
(** * Failures in the middle of storing a session *)
(* ===================================================================== *)

Module SessionFailures.

Import user SessionView SessionProps SessionFrame.

Lemma formatSec_upper (d : Duration) :
  0 < d -> redis.formatSec d * Second <= Z.max d Second.
Proof.
  intros Hpos. unfold redis.formatSec, Second, Nanosecond.
  destruct (Z.ltb_spec 0 d); [|lia].
  destruct (Z.ltb_spec d (1000000000 * 1)); cbn [andb]; [lia|].
  pose proof (Z.quot_rem' d (1000000000 * 1)) as Hqr.
  pose proof (Z.rem_bound_pos d (1000000000 * 1)) as Hrem. lia.
Qed.

Lemma ttl_ahead (expiresAt now : Time) :
  0 < expiresAt - now < 2 ^ 62 ->
  mulDuration (Sub expiresAt now) 2 = 2 * (expiresAt - now).
Proof.
  intros Hleft. unfold mulDuration.
  rewrite Sub_small by (unfold minDuration, maxDuration; lia).
  rewrite wrap64_small; lia.
Qed.

Section WithLayout.

Context `{Layout}.

(** Reading a hash that holds the fields of a stamped session, whatever its
    deadline, as long as it has not timed out. *)
Lemma GetSession_stored (r : UserPersistRepository) (now' : Time)
    (s : UserSession) (old : gmap string string) (d : option Time) :
  redis.hashes (redis r) !! sessionKey (sUserID s) =
    Some {| redis.fields := sessionFields s ∪ old; redis.deadline := d |} ->
  redis.live now' {| redis.fields := sessionFields s ∪ old;
                     redis.deadline := d |} = true ->
  roundTrips s ->
  now' <= truncSec (sExpiresAt s) ->
  fst (redis.next (redis r)) = None ->
  exists r2, GetSession r now' (sUserID s) = (Ok (persisted s), r2).
Proof.
  intros Hstored Hlive Hround Hnow Hnext.
  destruct (redis.next (redis r)) as [o c] eqn:Hn. cbn in Hnext. subst o.
  pose proof (next_data _ _ _ Hn) as [Hh _].
  assert (Hread : redis.HGetAll (redis r) now' (sessionKey (sUserID s)) =
                  (Ok (sessionFields s ∪ old), c)).
  { unfold redis.HGetAll, redis.liveHash. by rewrite Hn, Hh, Hstored, Hlive. }
  rewrite (GetSession_read _ _ _ _ _ Hread (sessionFields_size _ _)).
  rewrite sessionOfFields_union, (sessionOfFields_persisted _ Hround).
  assert (Hafter : After now' (sExpiresAt (persisted s)) = false).
  { apply Z.ltb_ge. cbn. lia. }
  rewrite Hafter. by eexists.
Qed.

(** [CreateSession] is not atomic.  When the HSET goes through and the
    EXPIRE fails, the call reports the failure, yet the hash of the session
    is in the store; where the user had no session before it has no
    deadline, so the store never drops it, and the user is not added to the
    active users.  A [GetSession] that the store answers then returns the
    session whose creation was reported as failed, until its expiry. *)
Theorem CreateSession_failed_expire (r : UserPersistRepository) (now : Time)
    (s : UserSession) (err : error) (rest : list (option error)) :
  0 < sExpiresAt s - now < 2 ^ 62 ->
  redis.outcomes (redis r) = None :: Some err :: rest ->
  redis.liveHash (redis r) now (sessionKey (sUserID s)) = None ->
  exists r',
    CreateSession r now s =
      (Err (Errorf_w "failed to set session expiration: " err), r') /\
    redis.hashes (redis r') !! sessionKey (sUserID s) =
      Some {| redis.fields := sessionFields (stamp now s);
              redis.deadline := None |} /\
    activeUsers (redis r') = activeUsers (redis r) /\
    redis.outcomes (redis r') = rest /\
    forall now',
      roundTrips (stamp now s) ->
      now' <= truncSec (sExpiresAt s) ->
      fst (redis.next (redis r')) = None ->
      exists r2,
        GetSession r' now' (sUserID s) = (Ok (persisted (stamp now s)), r2).
Proof.
  intros Hleft Hout Hnone. unfold CreateSession. cbn zeta.
  rewrite sessionKey_create. cbn [stamp sExpiresAt sUserID].
  rewrite (ttl_ahead _ _ Hleft).
  destruct (Z.leb_spec (2 * (sExpiresAt s - now)) 0); [lia|].
  unfold redis.HSet. rewrite (next_outcomes _ _ _ Hout).
  unfold redis.liveHash in Hnone |- *. cbn [redis.hashes].
  destruct (redis.hashes (redis r) !! sessionKey (sUserID s)) as [e|] eqn:He.
  - destruct (redis.live now e) eqn:Hl; [done|].
    unfold default, from_option, id. cbn [redis.fields redis.deadline].
    unfold redis.Expire, redis.next. cbn [redis.withHashes redis.outcomes].
    eexists. split; [reflexivity|]. cbn.
    rewrite lookup_insert_eq, (right_id_L ∅ (∪)).
    split_and!; try done.
    intros now' Hround Hnow' Hnext.
    eapply (GetSession_stored _ now' (stamp now s) ∅ None); try done.
    cbn. by rewrite lookup_insert_eq, (right_id_L ∅ (∪)).
  - unfold default, from_option, id. cbn [redis.fields redis.deadline].
    unfold redis.Expire, redis.next. cbn [redis.withHashes redis.outcomes].
    eexists. split; [reflexivity|]. cbn.
    rewrite lookup_insert_eq, (right_id_L ∅ (∪)).
    split_and!; try done.
    intros now' Hround Hnow' Hnext.
    eapply (GetSession_stored _ now' (stamp now s) ∅ None); try done.
    cbn. by rewrite lookup_insert_eq, (right_id_L ∅ (∪)).
Qed.



End WithLayout.

End SessionFailures.

(* ===================================================================== *)
(** * What the validators accept *)
(* ===================================================================== *)

Module TokenAcceptance.

Import jwt Observe TokenProps.

(** The reading of a numeric date claim by the library's check: absent, or
    zero, or met by the clock. *)
Lemma verifyDateClaim_true (check : option Time -> Time -> bool -> bool)
    (m : MapClaims) (name : string) (cmp : Z) :
  verifyDateClaim check m name cmp false = true ->
  match m !! name with
  | None => True
  | Some (JNumber v) =>
      if v =? 0 then check None (FromUnix cmp) false = true
      else check (Some (FromUnix v)) (FromUnix cmp) false = true
  | Some _ => False
  end.
Proof.
  unfold verifyDateClaim. destruct (m !! name) as [[| v | |]|]; try done.
  by destruct (v =? 0).
Qed.

Lemma flag_not_valid (v : vErr) (err : error) (bit : Z) :
  0 <= vErrors v -> 0 < bit -> valid (flag v err bit) = false.
Proof.
  intros Hv Hbit. unfold valid, flag. cbn. apply Z.eqb_neq. intros Hz.
  apply Z.lor_eq_0_iff in Hz. lia.
Qed.

(** An error of [MapClaims.Valid] is a [ValidationError] with a flag set and
    no text; there is none exactly when the three date claims pass. *)
Lemma ClaimsValid_cases (clock : Time) (m : MapClaims) :
  (ClaimsValid clock m = None /\
   VerifyExpiresAt m (Unix clock) false = true /\
   VerifyIssuedAt m (Unix clock) false = true /\
   VerifyNotBefore m (Unix clock) false = true) \/
  (exists inner flags,
     ClaimsValid clock m = Some (ValidationError inner flags "") /\ 0 < flags).
Proof.
  unfold ClaimsValid.
  destruct (VerifyExpiresAt m (Unix clock) false),
    (VerifyIssuedAt m (Unix clock) false),
    (VerifyNotBefore m (Unix clock) false); cbn;
    first [ by left | right; eexists _, _; split; [reflexivity|done] ].
Qed.

Lemma GetSigningMethod_HMAC (h : Hash) :
  GetSigningMethod (Alg (SigningMethodHMAC h)) = Some (SigningMethodHMAC h).
Proof. by destruct h. Qed.

Section WithMac.

Context `{Mac}.

(** What it takes for [Parse] to return a token, for a key function that
    hands out [key] to the HMAC methods and turns the others away. *)
Lemma Parse_Ok (clock : Time) (tokenString : TokenString)
    (keyFunc : Token -> result string) (key : string) (token : Token)
    (events : list ParseEvent) :
  (forall t, keyFunc t = Ok key \/
             (isSigningMethodHMAC (Method t) = false /\ isOk (keyFunc t) = false)) ->
  Parse clock tokenString keyFunc = (Ok token, events) ->
  exists header claims h,
    tokenString =
      Compact (Encoded header) (Encoded claims)
        (Encoded (hmacSum h key (Encoded header, Encoded claims))) /\
    header !! "alg" = Some (JString (Alg (SigningMethodHMAC h))) /\
    ClaimsValid clock claims = None /\
    Claims token = claims /\ Valid token = true /\
    events = [CallKeyfunc; CallVerify].
Proof.
  intros Hkey. unfold Parse, ParseUnverified.
  destruct tokenString as [[header|raw e] [claims|raw' e'] sig|raw];
    try done; [|by destruct (String.prefix _ _)..].
  destruct (header !! "alg") as [[alg| | |]|] eqn:Halg; try done.
  destruct (GetSigningMethod alg) as [m|] eqn:Hget; [|done].
  pose proof (GetSigningMethod_Alg _ _ Hget) as <-.
  cbn [Method Claims Signature TokenHeader].
  match goal with |- context [keyFunc ?t] => destruct (Hkey t) as [Hk|[Hm Hk]] end.
  2:{ destruct (keyFunc _) as [|[]]; done. }
  rewrite Hk.
  destruct (ClaimsValid_cases clock claims)
    as [(Hvalid & _)|(inner & flags & Hvalid & Hpos)]; rewrite Hvalid.
  - destruct m as [h| | | | |]; cbn [Verify];
      try (rewrite flag_not_valid by done; done).
    destruct sig as [sig|raw e]; [|by rewrite flag_not_valid].
    destruct (String.eqb_spec sig (hmacSum h key (Encoded header, Encoded claims)))
      as [->|_]; [|by rewrite flag_not_valid].
    cbn. intros [= <- <-]. by eexists _, _, _.
  - destruct (Verify m _ sig key).
    + rewrite flag_not_valid; [done|cbn; lia|done].
    + unfold valid. cbn [vErrors].
      destruct (Z.eqb_spec flags 0); [lia|done].
Qed.

(** Whatever [AuthServiceImpl.ValidateToken] accepts is a token of the HMAC
    family whose signature is the MAC of its first two segments under the
    configured secret, whose [exp] is a number that the clock has not
    passed, and whose [sub] is the string returned. *)
Theorem ValidateToken_sound (authConfig : user.AuthServiceConfig)
    (now : Time) (tokenString : TokenString) (userID : string)
    (events : list ParseEvent) :
  user.ValidateToken authConfig now tokenString = (Ok userID, events) ->
  exists header claims h exp,
    tokenString =
      Compact (Encoded header) (Encoded claims)
        (Encoded (hmacSum h (user.JWTSecret authConfig)
                          (Encoded header, Encoded claims))) /\
    header !! "alg" = Some (JString (Alg (SigningMethodHMAC h))) /\
    claims !! "sub" = Some (JString userID) /\
    claims !! "exp" = Some (JNumber exp) /\
    now <= FromUnix exp /\
    events = [CallKeyfunc; CallVerify].
Proof.
  unfold user.ValidateToken.
  destruct (Parse now tokenString _) as [[token|e] ev] eqn:Hparse; [|done].
  apply (Parse_Ok _ _ _ (user.JWTSecret authConfig)) in Hparse
    as (header & claims & h & -> & Halg & _ & <- & -> & ->).
  2:{ intros t. unfold user.keyFunc.
      destruct (isSigningMethodHMAC (Method t)); [by left|by right]. }
  destruct (Claims token !! "exp") as [[| exp | |]|] eqn:Hexp; try done.
  destruct (Before (FromUnix exp) now) eqn:Hbefore; [done|].
  destruct (Claims token !! "sub") as [[sub| | |]|] eqn:Hsub; try done.
  intros [= <- <-]. exists header, (Claims token), h, exp.
  apply Z.ltb_ge in Hbefore. by split_and!.
Qed.

(** Whatever [utils.ValidateToken] accepts is a token of the HMAC family
    signed under the secret of the environment; the claims returned are
    those of the token, and their [exp] is absent, zero, or a number of
    seconds that the clock has not reached. *)
Theorem ValidateToken_claims_sound (env : gmap string string) (now : Time)
    (tokenString : TokenString) (claims : MapClaims)
    (events : list ParseEvent) :
  utils.ValidateToken env now tokenString = (Ok claims, events) ->
  exists header h,
    tokenString =
      Compact (Encoded header) (Encoded claims)
        (Encoded (hmacSum h (config.JwtScretKey (config.EnvLoad env))
                          (Encoded header, Encoded claims))) /\
    header !! "alg" = Some (JString (Alg (SigningMethodHMAC h))) /\
    match claims !! "exp" with
    | None => True
    | Some (JNumber exp) => exp = 0 \/ Unix now < exp
    | Some _ => False
    end /\
    events = [CallKeyfunc; CallVerify].
Proof.
  unfold utils.ValidateToken.
  destruct (Parse now tokenString _) as [[token|e] ev] eqn:Hparse; [|done].
  apply (Parse_Ok _ _ _ (config.JwtScretKey (config.EnvLoad env))) in Hparse
    as (header & claims' & h & -> & Halg & Hvalid & <- & -> & ->).
  2:{ intros t. unfold utils.keyFunc.
      destruct (isSigningMethodHMAC (Method t)); [by left|by right]. }
  intros [= <- <-]. exists header, h. split_and!; try done.
  destruct (ClaimsValid_cases now (Claims token))
    as [(_ & Hexp & _)|(? & ? & Hsome & _)]; [|congruence].
  apply verifyDateClaim_true in Hexp.
  destruct (Claims token !! "exp") as [[| exp | |]|]; try done.
  destruct (Z.eqb_spec exp 0); [by left|right].
  unfold verifyExp, Before, FromUnix, Second, Nanosecond in Hexp.
  apply Z.ltb_lt in Hexp. lia.
Qed.

(** The date claims of a claim set with an expiry ahead and neither [iat]
    nor [nbf] pass the library's check. *)
Lemma ClaimsValid_exp_ahead (now : Time) (claims : MapClaims) (exp : Z) :
  claims !! "exp" = Some (JNumber exp) -> Unix now < exp ->
  claims !! "iat" = None -> claims !! "nbf" = None ->
  ClaimsValid now claims = None.
Proof.
  intros Hexp Hlt Hiat Hnbf.
  unfold ClaimsValid, VerifyExpiresAt, VerifyIssuedAt, VerifyNotBefore,
    verifyDateClaim.
  rewrite Hexp, Hiat, Hnbf.
  assert (Hok : (if exp =? 0 then verifyExp None (FromUnix (Unix now)) false
                 else verifyExp (Some (FromUnix exp)) (FromUnix (Unix now))
                                false) = true).
  { destruct (exp =? 0); [reflexivity|].
    unfold verifyExp, Before, FromUnix, Second, Nanosecond.
    apply Z.ltb_lt. lia. }
  by rewrite Hok.
Qed.

Lemma ClaimsValid_no_dates (now : Time) (claims : MapClaims) :
  claims !! "exp" = None -> claims !! "iat" = None ->
  claims !! "nbf" = None ->
  ClaimsValid now claims = None.
Proof.
  intros Hexp Hiat Hnbf.
  unfold ClaimsValid, VerifyExpiresAt, VerifyIssuedAt, VerifyNotBefore,
    verifyDateClaim.
  by rewrite Hexp, Hiat, Hnbf.
Qed.

(** [Parse] on a token of the HMAC family that carries the MAC under the
    key the key function hands out and whose claims pass. *)
Lemma Parse_signed (now : Time) (header : Header) (claims : MapClaims)
    (h : Hash) (keyFunc : Token -> result string) (key : string) :
  header !! "alg" = Some (JString (Alg (SigningMethodHMAC h))) ->
  (forall t, isSigningMethodHMAC (Method t) = true -> keyFunc t = Ok key) ->
  ClaimsValid now claims = None ->
  Parse now (Compact (Encoded header) (Encoded claims)
               (Encoded (hmacSum h key (Encoded header, Encoded claims))))
        keyFunc =
  (Ok {| Method := SigningMethodHMAC h; TokenHeader := header;
         Claims := claims;
         Signature := Encoded (hmacSum h key (Encoded header, Encoded claims));
         Valid := true |}, [CallKeyfunc; CallVerify]).
Proof.
  intros Halg Hkey Hvalid. unfold Parse, ParseUnverified.
  rewrite Halg, GetSigningMethod_HMAC, Hkey by done.
  cbn [Claims Method Signature TokenHeader]. rewrite Hvalid.
  unfold Verify. by rewrite String.eqb_refl.
Qed.


(** The two validators disagree on a token without an expiry.  For a
    correctly signed token of the HMAC family with no date claim, at every
    time: [utils.ValidateToken] returns its claims, so the token never
    stops being valid, and [AuthServiceImpl.ValidateToken] refuses it. *)
Theorem ValidateToken_without_exp (env : gmap string string)
    (authConfig : user.AuthServiceConfig) (now : Time) (header : Header)
    (claims : MapClaims) (h : Hash) :
  header !! "alg" = Some (JString (Alg (SigningMethodHMAC h))) ->
  claims !! "exp" = None -> claims !! "iat" = None ->
  claims !! "nbf" = None ->
  utils.ValidateToken env now
    (Compact (Encoded header) (Encoded claims)
       (Encoded (hmacSum h (config.JwtScretKey (config.EnvLoad env))
                         (Encoded header, Encoded claims)))) =
    (Ok claims, [CallKeyfunc; CallVerify]) /\
  user.ValidateToken authConfig now
    (Compact (Encoded header) (Encoded claims)
       (Encoded (hmacSum h (user.JWTSecret authConfig)
                         (Encoded header, Encoded claims)))) =
    (Err (New "invalid token expiration"), [CallKeyfunc; CallVerify]).
Proof.
  intros Halg Hexp Hiat Hnbf.
  pose proof (ClaimsValid_no_dates now claims Hexp Hiat Hnbf) as Hvalid.
  split.
  - unfold utils.ValidateToken.
    rewrite (Parse_signed now header claims h _
               (config.JwtScretKey (config.EnvLoad env)) Halg); [done| |done].
    intros t Ht. unfold utils.keyFunc. by rewrite Ht.
  - unfold user.ValidateToken.
    rewrite (Parse_signed now header claims h _ (user.JWTSecret authConfig)
               Halg); [|intros t Ht; unfold user.keyFunc; by rewrite Ht|done].
    cbn [Valid Claims]. by rewrite Hexp.
Qed.

(** A token of the HMAC family whose signature is not the MAC under the
    configured secret is refused by both validators, and the error they
    report is that of the signature, whatever else is wrong with the
    claims: the signature check is reached and its finding is the one
    kept. *)
Theorem ValidateToken_bad_signature (env : gmap string string)
    (authConfig : user.AuthServiceConfig) (now : Time) (header : Header)
    (claims : MapClaims) (h : Hash) (sig : string) :
  header !! "alg" = Some (JString (Alg (SigningMethodHMAC h))) ->
  sig <> hmacSum h (user.JWTSecret authConfig)
           (Encoded header, Encoded claims) ->
  sig <> hmacSum h (config.JwtScretKey (config.EnvLoad env))
           (Encoded header, Encoded claims) ->
  let tokenString := Compact (Encoded header) (Encoded claims) (Encoded sig) in
  (exists flags,
     user.ValidateToken authConfig now tokenString =
       (Err (ValidationError (Some ErrSignatureInvalid) flags ""),
        [CallKeyfunc; CallVerify]) /\
     Z.land flags ValidationErrorSignatureInvalid =
       ValidationErrorSignatureInvalid) /\
  utils.ValidateToken env now tokenString =
    (Err (New "failed to parse token: signature is invalid"),
     [CallKeyfunc; CallVerify]).
Proof.
  intros Halg Hsig1 Hsig2 tokenString. subst tokenString.
  unfold user.ValidateToken, utils.ValidateToken, Parse, ParseUnverified.
  rewrite Halg, GetSigningMethod_HMAC.
  unfold user.keyFunc, utils.keyFunc.
  cbn [Method isSigningMethodHMAC negb Claims Signature Verify].
  destruct (String.eqb_spec sig (hmacSum h (user.JWTSecret authConfig)
                                   (Encoded header, Encoded claims)));
    [done|].
  destruct (String.eqb_spec sig
              (hmacSum h (config.JwtScretKey (config.EnvLoad env))
                 (Encoded header, Encoded claims))); [done|].
  destruct (ClaimsValid_cases now claims)
    as [(Hvalid & _)|(inner & flags & Hvalid & Hpos)]; rewrite Hvalid.
  - split; [|done]. eexists. split; [reflexivity|done].
  - rewrite !flag_not_valid by (done || (cbn; lia)).
    split; [|done]. eexists. split; [reflexivity|]. cbn [flag vErrors].
    apply Z.bits_inj'. intros i _. rewrite Z.land_spec, Z.lor_spec.
    by destruct (Z.testbit flags i),
      (Z.testbit ValidationErrorSignatureInvalid i).
Qed.

End WithMac.

End TokenAcceptance.

(* ===================================================================== *)
(** * Properties of the users table *)
(* ===================================================================== *)

Module RepositoryProps.

Import user repository UserView.

(** ** Searching a table *)

Lemma find_pointwise {A} (p q : A -> bool) (l : list A) :
  (forall v, p v = q v) -> List.find p l = List.find q l.
Proof.
  intros Hpq. induction l as [|a l IH]; [done|]. cbn. by rewrite Hpq, IH.
Qed.

Lemma find_map_none {A} (q : A -> bool) (f : A -> A) (l : list A) :
  (forall v, v ∈ l -> q (f v) = false) -> List.find q (List.map f l) = None.
Proof.
  induction l as [|a l IH]; intros Hq; [done|]. cbn.
  rewrite (Hq a) by set_solver. apply IH. intros v Hv. apply Hq. set_solver.
Qed.

Lemma find_map_same {A} (q : A -> bool) (f : A -> A) (l : list A) :
  (forall v, q (f v) = q v) -> (forall v, q v = true -> f v = v) ->
  List.find q (List.map f l) = List.find q l.
Proof.
  intros Hq Hf. induction l as [|a l IH]; [done|]. cbn. rewrite Hq.
  destruct (q a) eqn:Ha; [by rewrite Hf|exact IH].
Qed.

Lemma find_map_kept {A} (q : A -> bool) (f : A -> A) (l : list A) (u : A) :
  List.find q l = Some u -> f u = u ->
  (forall v, q v = false -> q (f v) = false) ->
  List.find q (List.map f l) = Some u.
Proof.
  intros Hfind Hu Hq. induction l as [|a l IH]; [done|]. cbn in *.
  destruct (q a) eqn:Ha.
  - injection Hfind as ->. by rewrite Hu, Ha.
  - rewrite (Hq a Ha). by apply IH.
Qed.

Lemma First_Ok (d : DB) (cond : User -> bool) (u : User) :
  First d cond = Ok u ->
  broken d = None /\ u ∈ rows d /\ liveUser u = true /\ cond u = true.
Proof.
  unfold First, liveUser. destruct (broken d); [done|].
  destruct (List.find _ _) as [v|] eqn:Hfind; [|done]. intros [= <-].
  apply List.find_some in Hfind as [Hin Hcond].
  apply list_elem_of_In in Hin. by destruct (DeletedAt v).
Qed.

Lemma First_found (d : DB) (cond : User -> bool) (u : User) :
  broken d = None -> u ∈ rows d -> liveUser u = true -> cond u = true ->
  exists v, First d cond = Ok v.
Proof.
  unfold First, liveUser. intros -> Hin Hlive Hcond.
  destruct (List.find _ _) as [v|] eqn:Hfind; [by exists v|].
  apply list_elem_of_In in Hin.
  pose proof (List.find_none _ _ Hfind u Hin) as Hno. cbn in Hno.
  destruct (DeletedAt u); congruence.
Qed.

Lemma First_none (d : DB) (cond : User -> bool) :
  broken d = None ->
  (forall u, u ∈ rows d -> liveUser u = true -> cond u = false) ->
  First d cond = Err ErrRecordNotFound.
Proof.
  unfold First, liveUser. intros -> Hnone.
  destruct (List.find _ _) as [v|] eqn:Hfind; [|done].
  apply List.find_some in Hfind as [Hin Hcond].
  apply list_elem_of_In in Hin. specialize (Hnone v Hin).
  destruct (DeletedAt v); [done|]. rewrite Hnone in Hcond; done.
Qed.

(** ** What a soft delete does to the rows *)

Lemma markDeleted_ID (now : Time) (cond : User -> bool) (u : User) :
  ID (markDeleted now cond u) = ID u.
Proof. unfold markDeleted. by destruct (DeletedAt u), (cond u). Qed.

Lemma markDeleted_Username (now : Time) (cond : User -> bool) (u : User) :
  Username (markDeleted now cond u) = Username u.
Proof. unfold markDeleted. by destruct (DeletedAt u), (cond u). Qed.

Lemma markDeleted_Email (now : Time) (cond : User -> bool) (u : User) :
  Email (markDeleted now cond u) = Email u.
Proof. unfold markDeleted. by destruct (DeletedAt u), (cond u). Qed.

(** A row is live afterwards exactly when it was live and did not meet the
    condition, and such a row is as it was. *)
Lemma markDeleted_live (now : Time) (cond : User -> bool) (u : User) :
  liveUser (markDeleted now cond u) = liveUser u && negb (cond u).
Proof.
  unfold markDeleted, liveUser.
  destruct (DeletedAt u) eqn:Hd; [by rewrite Hd|].
  destruct (cond u); [done|]. by rewrite Hd.
Qed.

Lemma markDeleted_kept (now : Time) (cond : User -> bool) (u : User) :
  liveUser u = false \/ cond u = false -> markDeleted now cond u = u.
Proof.
  unfold markDeleted, liveUser. destruct (DeletedAt u); [done|].
  by intros [? | ->].
Qed.

(** The condition of [First] on a row, soft deletion included. *)
Lemma liveUser_cond (cond : User -> bool) (u : User) :
  match DeletedAt u with None => cond u | Some _ => false end =
  liveUser u && cond u.
Proof. unfold liveUser. by destruct (DeletedAt u). Qed.

Lemma First_ext (d : DB) (cond : User -> bool) :
  First d cond =
  match broken d with
  | Some err => Err err
  | None =>
      match List.find (fun u => liveUser u && cond u) (rows d) with
      | Some u => Ok u
      | None => Err ErrRecordNotFound
      end
  end.
Proof.
  unfold First. destruct (broken d); [done|].
  by rewrite (find_pointwise _ _ _ (liveUser_cond cond)).
Qed.

(** Deleting by a key hides every row of that key from a search by the
    key. *)
Lemma First_after_delete (d : DB) (now : Time) (cond : User -> bool) :
  broken d = None ->
  First {| rows := List.map (markDeleted now cond) (rows d); broken := None |}
        cond = Err ErrRecordNotFound.
Proof.
  intros Hup. rewrite First_ext. cbn.
  rewrite find_map_none; [done|]. intros v _.
  rewrite markDeleted_live. unfold markDeleted.
  destruct (liveUser v) eqn:Hl; [|done]. unfold liveUser in Hl.
  destruct (DeletedAt v); [done|]. destruct (cond v) eqn:Hc; [done|].
  by rewrite Hc.
Qed.

(** A search that found a row the delete does not meet finds it again. *)
Lemma First_kept (d : DB) (now : Time) (cond search : User -> bool)
    (u : User) :
  (forall v, search (markDeleted now cond v) = search v) ->
  First d search = Ok u -> cond u = false ->
  First {| rows := List.map (markDeleted now cond) (rows d); broken := None |}
        search = Ok u.
Proof.
  intros Hsearch Hfound Hcond. rewrite First_ext in *. cbn.
  destruct (broken d); [done|].
  destruct (List.find _ (rows d)) as [v|] eqn:Hfind; [|done].
  injection Hfound as ->.
  rewrite (find_map_kept _ _ _ u Hfind); [done| |].
  - apply markDeleted_kept. by right.
  - intros v. rewrite markDeleted_live, Hsearch.
    destruct (liveUser v); [|done]. cbn. intros ->. by rewrite andb_false_r.
Qed.

(** A search by another key than the one deleted by, whose rows the delete
    does not meet, finds what it found before. *)
Lemma First_other (d : DB) (now : Time) (cond search : User -> bool) :
  broken d = None ->
  (forall v, search (markDeleted now cond v) = search v) ->
  (forall v, search v = true -> cond v = false) ->
  First {| rows := List.map (markDeleted now cond) (rows d); broken := None |}
        search = First d search.
Proof.
  intros Hup Hsearch Hdisjoint. rewrite !First_ext. cbn. rewrite Hup.
  rewrite find_map_same; [done| |].
  - intros v. rewrite markDeleted_live, Hsearch.
    destruct (search v) eqn:Hs; [|by rewrite !andb_false_r].
    by rewrite (Hdisjoint v Hs), andb_true_r.
  - intros v Hv. apply andb_prop in Hv as [_ Hs].
    apply markDeleted_kept. right. by apply Hdisjoint.
Qed.

Lemma eqb_Username_mark (now : Time) (cond : User -> bool) (key : string)
    (v : User) :
  String.eqb (Username (markDeleted now cond v)) key =
  String.eqb (Username v) key.
Proof. by rewrite markDeleted_Username. Qed.

Lemma eqb_ID_mark (now : Time) (cond : User -> bool) (key : string)
    (v : User) :
  String.eqb (ID (markDeleted now cond v)) key = String.eqb (ID v) key.
Proof. by rewrite markDeleted_ID. Qed.

(** What [Delete] returns over a connection that is up. *)
Lemma Delete_eq (r : UserPersistRepository) (now : Time) (username : string) :
  broken (db r) = None ->
  Delete r now username =
  (None, withDB r
           {| rows := List.map
                        (markDeleted now
                           (fun u => String.eqb (Username u) username))
                        (rows (db r));
              broken := None |}).
Proof. intros Hup. unfold Delete, softDelete. by rewrite Hup. Qed.

(** The lookups, once the search has answered. *)
Lemma GetByID_Ok (r : UserPersistRepository) (id : string) (u : User) :
  GetByID r id = Ok u <-> First (db r) (fun v => String.eqb (ID v) id) = Ok u.
Proof.
  unfold GetByID. destruct (First _ _) as [v|err]; [done|].
  by destruct (isRecordNotFound err).
Qed.

Lemma GetByUsername_Ok (r : UserPersistRepository) (name : string) (u : User) :
  GetByUsername r name = Ok u <->
  First (db r) (fun v => String.eqb (Username v) name) = Ok u.
Proof.
  unfold GetByUsername. destruct (First _ _) as [v|err]; [done|].
  by destruct (isRecordNotFound err).
Qed.

Lemma GetByEmail_Ok (r : UserPersistRepository) (email : string) (u : User) :
  GetByEmail r email = Ok u <->
  First (db r) (fun v => String.eqb (Email v) email) = Ok u.
Proof.
  unfold GetByEmail. destruct (First _ _) as [v|err]; [done|].
  by destruct (isRecordNotFound err).
Qed.

(** Over a connection that is up, [Delete] reports no error, whether or not
    a user of that name exists.  Afterwards no user is found under the
    name; a lookup by another name finds what it found before; a user of
    another name is still found by its id; every row is still in the table
    (the delete is a soft one); and the session store and the log are
    untouched, so a session of the deleted user is still served. *)
Theorem Delete_hides_user (r : UserPersistRepository) (now : Time)
    (username : string) :
  broken (db r) = None ->
  exists r',
    Delete r now username = (None, r') /\
    GetByUsername r' username = Err (New "user not found") /\
    (forall other, other <> username ->
       GetByUsername r' other = GetByUsername r other) /\
    (forall id u, GetByID r id = Ok u -> Username u <> username ->
       GetByID r' id = Ok u) /\
    List.map ID (rows (db r')) = List.map ID (rows (db r)) /\
    redis r' = redis r /\ logged r' = logged r.
Proof.
  intros Hup. rewrite (Delete_eq r now username Hup).
  eexists. split; [reflexivity|]. cbn [db withDB redis logged].
  split_and!; try done.
  - unfold GetByUsername. cbn [db withDB]. by rewrite First_after_delete.
  - intros other Hother. unfold GetByUsername. cbn [db withDB].
    rewrite First_other; [done|done| |].
    + intros v. apply eqb_Username_mark.
    + intros v Hv. apply String.eqb_eq in Hv. apply String.eqb_neq.
      congruence.
  - intros id u Hfound Hname. apply GetByID_Ok. cbn [db withDB].
    apply GetByID_Ok in Hfound. apply First_kept; [|done|].
    + intros v. apply eqb_ID_mark.
    + by apply String.eqb_neq.
  - cbn [rows]. rewrite List.map_map. apply List.map_ext.
    intros v. apply markDeleted_ID.
Qed.

End RepositoryProps.

(* ===================================================================== *)
(** * Properties of the user service *)
(* ===================================================================== *)

Module ServiceProps.

Import user repository service UserView RepositoryProps.

Lemma lookup_down (d : DB) (cond : User -> bool) (err : error) :
  broken d = Some err ->
  exists e,
    match First d cond with
    | Err err => if isRecordNotFound err then Err (New "user not found")
                 else Err err
    | Ok u => Ok u
    end = Err e.
Proof.
  unfold First. intros ->. destruct (isRecordNotFound err); by eexists.
Qed.

Lemma GetByUsername_taken (r : UserPersistRepository) (name : string) :
  broken (db r) = None -> hasUsername r name ->
  exists u, GetByUsername r name = Ok u.
Proof.
  intros Hup (u & Hin & Hlive & Hname).
  destruct (First_found (db r) (fun v => String.eqb (Username v) name) u)
    as [v Hv]; try done.
  { by apply String.eqb_eq. }
  exists v. by apply GetByUsername_Ok.
Qed.

Lemma GetByUsername_free (r : UserPersistRepository) (name : string) :
  ~ hasUsername r name -> exists e, GetByUsername r name = Err e.
Proof.
  intros Hfree. destruct (GetByUsername r name) as [u|e] eqn:Hget;
    [|by exists e].
  apply GetByUsername_Ok, First_Ok in Hget as (_ & Hin & Hlive & Hname).
  apply String.eqb_eq in Hname. destruct Hfree. by exists u.
Qed.

Lemma GetByEmail_taken (r : UserPersistRepository) (email : string) :
  broken (db r) = None -> hasEmail r email ->
  exists u, GetByEmail r email = Ok u.
Proof.
  intros Hup (u & Hin & Hlive & Hemail).
  destruct (First_found (db r) (fun v => String.eqb (Email v) email) u)
    as [v Hv]; try done.
  { by apply String.eqb_eq. }
  exists v. by apply GetByEmail_Ok.
Qed.

(** [CheckEmailAndUsername] has two answers: taken, with an error that says
    which, or free, with none. *)
Lemma CheckEmailAndUsername_cases (r : UserPersistRepository)
    (chk : CheckEmailAndUsernameRequest) :
  (exists u, GetByUsername r (chkUsername chk) = Ok u /\
             CheckEmailAndUsername r chk =
               (true, Some (New "username already exists"))) \/
  (exists e u, GetByUsername r (chkUsername chk) = Err e /\
               GetByEmail r (chkEmail chk) = Ok u /\
               CheckEmailAndUsername r chk =
                 (true, Some (New "email already exists"))) \/
  (exists e1 e2, GetByUsername r (chkUsername chk) = Err e1 /\
                 GetByEmail r (chkEmail chk) = Err e2 /\
                 CheckEmailAndUsername r chk = (false, None)).
Proof.
  unfold CheckEmailAndUsername.
  destruct (GetByUsername r _) as [u|e1]; [left; by exists u|right].
  destruct (GetByEmail r _) as [u|e2]; [left|right]; by eexists _, _.
Qed.

Section WithParameters.

Context `{BcryptHash}.

Variable dbCreate : DB -> Time -> User -> option error * User * DB.
Variable dbSave : DB -> Time -> User -> option error * User * DB.

(** Over a connection that is up, [Register] turns a request away without
    hashing or writing anything when a live user has its user name or its
    address.  The user name is looked at first: when both are taken the
    error names the user name. *)
Theorem Register_duplicate (r : UserPersistRepository) (now : Time)
    (req : CreateUserRequest) :
  broken (db r) = None ->
  (hasUsername r (cUsername req) ->
   Register dbCreate r now req = (Err (New "username already exists"), r)) /\
  (~ hasUsername r (cUsername req) -> hasEmail r (cEmail req) ->
   Register dbCreate r now req = (Err (New "email already exists"), r)).
Proof.
  intros Hup. split.
  - intros Htaken.
    destruct (GetByUsername_taken r _ Hup Htaken) as [u Hu].
    unfold Register. by rewrite Hu.
  - intros Hfree Htaken.
    destruct (GetByUsername_free r _ Hfree) as [e He].
    destruct (GetByEmail_taken r _ Hup Htaken) as [u Hu].
    unfold Register. by rewrite He, Hu.
Qed.

(** What a successful [Register] has done.  The token it returns is empty
    and the session store is untouched, so registering logs nobody in.  The
    record handed to [Create] has no id (the store is to give one), the
    hash of the password, the request's word for [IsVerified] and
    [IsPrivate], and is not premium whatever the request says; the user
    returned is that record as [Create] left it.  Over a connection that is
    up, no live user had the user name or the address. *)
Theorem Register_Ok (r r' : UserPersistRepository) (now : Time)
    (req : CreateUserRequest) (u : User) (token : string) :
  Register dbCreate r now req = (Ok (u, token), r') ->
  token = "" /\ redis r' = redis r /\ logged r' = logged r /\
  (broken (db r) = None ->
   ~ hasUsername r (cUsername req) /\ ~ hasEmail r (cEmail req)) /\
  exists user hashed,
    HashPassword (cPassword req) = Ok hashed /\
    dbCreate (db r) now user = (None, u, db r') /\
    ID user = "" /\ Username user = cUsername req /\
    Email user = cEmail req /\ PasswordHash user = hashed /\
    IsPremium user = false /\ IsVerified user = cIsVerified req /\
    IsPrivate user = cIsPrivate req /\
    CreatedAt user = now /\ UpdatedAt user = now /\ DeletedAt user = None.
Proof.
  unfold Register.
  destruct (GetByUsername r (cUsername req)) as [?|e1] eqn:Hname; [done|].
  destruct (GetByEmail r (cEmail req)) as [?|e2] eqn:Hemail; [done|].
  destruct (HashPassword (cPassword req)) as [hashed|e3] eqn:Hhash; [|done].
  unfold Create.
  destruct (dbCreate (db r) now _) as [[[err|] u'] d] eqn:Hcreate; [done|].
  intros [= <- <- <-]. split_and!; try done.
  - intros Hup. split.
    + intros Htaken. destruct (GetByUsername_taken r _ Hup Htaken) as [v Hv].
      congruence.
    + intros Htaken. destruct (GetByEmail_taken r _ Hup Htaken) as [v Hv].
      congruence.
  - eexists _, hashed. split; [done|]. split; [exact Hcreate|]. done.
Qed.

(** [CheckEmailAndUsername] and [Register] agree.  For the same user name
    and address: what the check reports as taken, [Register] refuses with
    the same error and without a write; what the check reports as free gets
    past the two lookups of [Register], as far as the hashing of the
    password. *)
Theorem CheckEmailAndUsername_Register (r : UserPersistRepository)
    (now : Time) (req : CreateUserRequest)
    (chk : CheckEmailAndUsernameRequest) :
  chkUsername chk = cUsername req -> chkEmail chk = cEmail req ->
  match CheckEmailAndUsername r chk with
  | (true, Some err) => Register dbCreate r now req = (Err err, r)
  | (false, None) =>
      forall e, HashPassword (cPassword req) = Err e ->
                Register dbCreate r now req =
                  (Err (New "failed to hash password"), r)
  | _ => False
  end.
Proof.
  intros Hname Hemail.
  destruct (CheckEmailAndUsername_cases r chk)
    as [(u & Hu & ->)|[(e & u & He & Hu & ->)|(e1 & e2 & He1 & He2 & ->)]];
    rewrite Hname in *; rewrite ?Hemail in *; unfold Register.
  - by rewrite Hu.
  - by rewrite He, Hu.
  - intros e Hhash. by rewrite He1, He2, Hhash.
Qed.

(** While the connection to the database is down, every user name and
    address reads as free: [CheckEmailAndUsername] answers that nothing is
    taken, with no error, and [Register] does not report the failure of its
    lookups but goes on to hash the password. *)
Theorem lookups_down_read_as_free (r : UserPersistRepository) (now : Time)
    (req : CreateUserRequest) (chk : CheckEmailAndUsernameRequest)
    (err : error) :
  broken (db r) = Some err ->
  CheckEmailAndUsername r chk = (false, None) /\
  forall e, HashPassword (cPassword req) = Err e ->
            Register dbCreate r now req =
              (Err (New "failed to hash password"), r).
Proof.
  intros Hdown.
  assert (Hname : forall name, exists e, GetByUsername r name = Err e).
  { intros name. by apply (lookup_down (db r) _ err). }
  assert (Hemail : forall email, exists e, GetByEmail r email = Err e).
  { intros email. by apply (lookup_down (db r) _ err). }
  split.
  - unfold CheckEmailAndUsername.
    destruct (Hname (chkUsername chk)) as [e1 ->].
    by destruct (Hemail (chkEmail chk)) as [e2 ->].
  - intros e Hhash. unfold Register.
    destruct (Hname (cUsername req)) as [e1 ->].
    destruct (Hemail (cEmail req)) as [e2 ->]. by rewrite Hhash.
Qed.

(** [UpdateProfile] reads five fields of the request: two requests that
    agree on the names, the two pictures and the featured pictures have the
    same effect, whatever their [Email], [IsPremium], [PremiumExp],
    [IsPrivate] and [IsVerified] say. *)
Theorem UpdateProfile_ignored_fields (r : UserPersistRepository) (now : Time)
    (userID : string) (req1 req2 : UpdateUserRequest) :
  sameProfileFields req1 req2 ->
  UpdateProfile dbSave r now userID req1 =
  UpdateProfile dbSave r now userID req2.
Proof.
  intros (Hfirst & Hlast & Hpicture & Hcover & Hft3).
  unfold UpdateProfile, applyUpdate.
  by rewrite Hfirst, Hlast, Hpicture, Hcover, Hft3.
Qed.

(** In [UpdateProfile] an empty field means "keep": the request has the
    effect of the one in which every empty name or picture and a missing
    list of featured pictures is replaced by the value the user has, so no
    update can empty a name or a picture. *)
Theorem UpdateProfile_empty_means_keep (r : UserPersistRepository)
    (now : Time) (userID : string) (req : UpdateUserRequest) (u : User) :
  GetByID r userID = Ok u ->
  UpdateProfile dbSave r now userID req =
  UpdateProfile dbSave r now userID (filledIn u req).
Proof.
  intros Hfound. unfold UpdateProfile. rewrite Hfound.
  assert (Heq : applyUpdate now (filledIn u req) u = applyUpdate now req u).
  { unfold applyUpdate, filledIn. cbn.
    destruct (String.eqb_spec (upFirstName req) ""),
      (String.eqb_spec (upLastName req) ""),
      (String.eqb_spec (upProfilePicture req) ""),
      (String.eqb_spec (upCoverPicture req) "");
      repeat match goal with
             | |- context [if String.eqb ?a "" then ?x else ?x] =>
                 replace (if String.eqb a "" then x else x) with x
                   by (by destruct (String.eqb a ""))
             | |- context [if String.eqb ?a "" then _ else _] =>
                 destruct (String.eqb_spec a ""); [congruence|]
             end; reflexivity. }
  by rewrite Heq.
Qed.

End WithParameters.

(** [DeleteProfile] hands the user id to a delete that goes by user name.
    For a user whose user name is not its id the call reports success and
    the user is still there, found by its id and with its profile;
    what is gone is whoever had that id as a user name. *)
Theorem DeleteProfile_keeps_user (r : UserPersistRepository) (now : Time)
    (userID : string) (u : User) :
  GetByID r userID = Ok u -> Username u <> userID ->
  exists r',
    DeleteProfile r now userID = (None, r') /\
    GetByID r' userID = Ok u /\
    GetProfile r' userID = Ok (ToProfile u) /\
    GetByUsername r' userID = Err (New "user not found").
Proof.
  intros Hfound Hname.
  pose proof Hfound as Hfirst. apply GetByID_Ok in Hfirst.
  pose proof (First_Ok _ _ _ Hfirst) as (Hup & _).
  unfold DeleteProfile. rewrite Hfound, (Delete_eq r now userID Hup).
  eexists. split; [reflexivity|].
  assert (Hstill : GetByID
            (withDB r {| rows := List.map
                           (markDeleted now
                              (fun v => String.eqb (Username v) userID))
                           (rows (db r));
                         broken := None |}) userID = Ok u).
  { apply GetByID_Ok. cbn [db withDB]. apply First_kept; [|done|].
    - intros v. apply eqb_ID_mark.
    - by apply String.eqb_neq. }
  split_and!; [done| |].
  - unfold GetProfile. by rewrite Hstill.
  - unfold GetByUsername. cbn [db withDB]. by rewrite First_after_delete.
Qed.

End ServiceProps.

(* ===================================================================== *)
(** * Login, the session store and the users table *)
(* ===================================================================== *)

Module LoginStore.

Import user repository SessionView UserView SessionProps SessionFrame
  RepositoryProps.

Section WithParameters.

Context `{Layout} `{Bcrypt}.

Variable generateToken : AuthServiceConfig -> Time -> string -> result string.

(** [GetSession] reads the session store only. *)
Lemma GetSession_reads_redis (r1 r2 : UserPersistRepository) (now : Time)
    (userId : string) :
  redis r1 = redis r2 ->
  fst (GetSession r1 now userId) = fst (GetSession r2 now userId).
Proof.
  intros Heq. unfold GetSession. cbn zeta. rewrite Heq.
  destruct (redis.HGetAll _ _ _) as [[data|err] c]; [|done].
  destruct (size data =? 0)%nat; [done|].
  destruct (After now _); [|done].
  by destruct (redis.Del c _) as [[?|] ?].
Qed.

(** [Login] writes neither to the users table nor to the log, so it leaves
    [LastLoginAt] as it was; in the session store it removes nobody from
    the active users and changes no hash but the session of a user of the
    table. *)
Theorem Login_never_writes_users (authConfig : AuthServiceConfig)
    (r : UserPersistRepository) (now : Time) (req : LoginRequest) :
  let r' := snd (Login generateToken authConfig r now req) in
  db r' = db r /\ logged r' = logged r /\
  activeUsers (redis r) ⊆ activeUsers (redis r') /\
  forall key,
    (forall u, u ∈ rows (db r) -> key <> sessionKey (ID u)) ->
    redis.hashes (redis r') !! key = redis.hashes (redis r) !! key.
Proof.
  cbn zeta. unfold Login.
  destruct (GetByEmail r (reqEmail req)) as [account|e] eqn:Hfound; [|done].
  destruct (negb _); [done|].
  destruct (generateToken _ _ _) as [token|e]; [|done].
  set (session := {| sID := ""; sUserID := ID account; sTokenHash := token;
                     sUserAgent := ""; sIP := "";
                     sExpiresAt := Add now (TokenExpiration authConfig);
                     sCreatedAt := now; sUpdatedAt := now |}).
  pose proof (CreateSession_touches r now session)
    as (Hdb & Hlog & Hhash & _ & Hsub & _).
  apply GetByEmail_Ok, First_Ok in Hfound as (_ & Hin & _).
  destruct (CreateSession r now session) as [[s'|e] r']; cbn in *;
    (split_and!; [done|done|done|]);
    intros key Hkey; apply Hhash; by apply Hkey.
Qed.

(** A login with the right password fails with "failed to create session"
    and leaves the store as it was both when the configured token lifetime
    is not positive and when the store fails the first command; what went
    wrong in the store is not part of the error. *)
Theorem Login_session_failure (authConfig : AuthServiceConfig)
    (r : UserPersistRepository) (now : Time) (req : LoginRequest)
    (account : User) (token : string) :
  GetByEmail r (reqEmail req) = Ok account ->
  CheckPasswordHash (reqPassword req) (PasswordHash account) = true ->
  generateToken authConfig now (ID account) = Ok token ->
  - 2 ^ 62 <= TokenExpiration authConfig <= 0 \/
  (0 < TokenExpiration authConfig < 2 ^ 62 /\
   exists err, fst (redis.next (redis r)) = Some err) ->
  exists r',
    Login generateToken authConfig r now req =
      (Err (New "failed to create session"), r') /\
    redis.hashes (redis r') = redis.hashes (redis r) /\
    redis.sets (redis r') = redis.sets (redis r).
Proof.
  intros Hfound Hpassword Htoken Hcase.
  unfold Login. rewrite Hfound, Hpassword, Htoken. cbn [negb].
  unfold CreateSession. cbn zeta. cbn [stamp sExpiresAt sUserID]. unfold Add.
  destruct Hcase as [Hlife|[Hlife [err Hnext]]].
  - pose proof (ttl_expired (now + TokenExpiration authConfig) now
                  ltac:(lia) ltac:(lia)) as Httl.
    destruct (Z.leb_spec
                (mulDuration (Sub (now + TokenExpiration authConfig) now) 2) 0);
      [|lia].
    by eexists.
  - unfold mulDuration.
    rewrite Sub_small by (unfold minDuration, maxDuration; lia).
    rewrite wrap64_small by lia.
    destruct (Z.leb_spec ((now + TokenExpiration authConfig - now) * 2) 0);
      [lia|].
    unfold redis.HSet.
    destruct (redis.next (redis r)) as [o c] eqn:Hn. cbn in Hnext. subst o.
    apply next_data in Hn as [Hh Hs]. by eexists.
Qed.


(** Once the account of an address has been deleted, a login with that
    address fails with "invalid email" whatever the password; a session the
    account had is still served. *)
Theorem Login_after_Delete (authConfig : AuthServiceConfig)
    (r : UserPersistRepository) (now now' : Time) (username : string)
    (req : LoginRequest) :
  broken (db r) = None ->
  (forall v, v ∈ rows (db r) -> liveUser v = true ->
             Email v = reqEmail req -> Username v = username) ->
  exists r',
    Delete r now username = (None, r') /\
    Login generateToken authConfig r' now' req =
      (Err (New "invalid email"), r') /\
    forall userId,
      fst (GetSession r' now' userId) = fst (GetSession r now' userId).
Proof.
  intros Hup Hunique. rewrite (Delete_eq r now username Hup).
  eexists. split; [reflexivity|]. split.
  - unfold Login, GetByEmail. cbn [db withDB]. rewrite First_ext. cbn.
    rewrite find_map_none; [done|].
    intros v Hv. rewrite markDeleted_live, markDeleted_Email.
    destruct (liveUser v) eqn:Hlive; [|done].
    destruct (String.eqb_spec (Email v) (reqEmail req)) as [Hemail|];
      [|by rewrite andb_false_r].
    rewrite (Hunique v Hv Hlive Hemail), String.eqb_refl. done.
  - intros userId. by apply GetSession_reads_redis.
Qed.

End WithParameters.

End LoginStore.

(* ===================================================================== *)
(** * Properties of the configured ports *)
(* ===================================================================== *)

Module ConfigProps.

Import config ports strconv UserView.

Lemma digit_range (c : ascii) (d : Z) : digit c = Some d -> 0 <= d <= 9.
Proof.
  unfold digit. set (n := Z.of_N (N_of_ascii c)).
  destruct (Z.leb_spec 48 n), (Z.leb_spec n 57); cbn; intros [= <-]; lia.
Qed.

(** Below nineteen digits the loop of [ParseUint] cannot overflow, so a
    byte that is not a digit is met and reported. *)
Lemma parseUint_not_digits (s : string) :
  forall (n : Z) (k : nat),
    0 <= n < 10 ^ Z.of_nat k -> (String.length s + k <= 18)%nat ->
    allDigits s = false ->
    parseUint s n = (0, Some ErrSyntax).
Proof.
  induction s as [|c rest IH]; intros n k Hn Hlen Hbad; [done|].
  cbn in Hbad, Hlen |- *. unfold isDigit in Hbad.
  destruct (digit c) as [d|] eqn:Hd; [|done].
  apply digit_range in Hd. cbn in Hbad.
  assert (Hpow : 10 ^ Z.of_nat k <= 10 ^ 17)
    by (apply Z.pow_le_mono_r; lia).
  assert (Hsucc : 10 ^ Z.of_nat (S k) = 10 * 10 ^ Z.of_nat k)
    by (rewrite Nat2Z.inj_succ; apply Z.pow_succ_r; lia).
  unfold maxUint64.
  destruct (Z.leb_spec ((2 ^ 64 - 1) / 10 + 1) n) as [Hover|_].
  { change ((2 ^ 64 - 1) / 10 + 1) with 1844674407370955162 in Hover.
    change (10 ^ 17) with 100000000000000000 in Hpow. lia. }
  destruct (Z.ltb_spec (2 ^ 64 - 1) (n * 10 + d)) as [Hover|_].
  { change (2 ^ 64 - 1) with 18446744073709551615 in Hover.
    change (10 ^ 17) with 100000000000000000 in Hpow. lia. }
  apply (IH _ (S k)); [lia|lia|done].
Qed.

(** [Atoi] on a text of fewer than nineteen bytes that is not an optional
    sign followed by digits. *)
Lemma Atoi_not_a_number (s : string) :
  (String.length s < 19)%nat ->
  allDigits (unsigned s) = false \/ unsigned s = "" ->
  Atoi s = (0, Some ErrSyntax).
Proof.
  intros Hlen Hbad. unfold Atoi, ParseInt.
  destruct s as [|c rest]; [done|].
  assert (Hbody : forall body,
            (String.length body < 19)%nat ->
            allDigits body = false \/ body = "" ->
            match body with
            | EmptyString => (0, Some ErrSyntax)
            | String _ _ =>
                match parseUint body 0 with
                | (_, Some ErrSyntax) => (0, Some ErrSyntax)
                | (un, _) =>
                    if negb false && (2 ^ 63 <=? un)
                    then (2 ^ 63 - 1, Some ErrRange)
                    else if false && (2 ^ 63 <? un)
                         then (- 2 ^ 63, Some ErrRange)
                         else (un, None)
                end
            end = (0, Some ErrSyntax)).
  { intros body Hl [Hb| ->]; [|done]. destruct body as [|c' rest']; [done|].
    by rewrite (parseUint_not_digits _ 0 0%nat) by (done || cbn in *; lia). }
  assert (Hneg : forall body,
            (String.length body < 19)%nat ->
            allDigits body = false \/ body = "" ->
            match body with
            | EmptyString => (0, Some ErrSyntax)
            | String _ _ =>
                match parseUint body 0 with
                | (_, Some ErrSyntax) => (0, Some ErrSyntax)
                | (un, _) =>
                    if negb true && (2 ^ 63 <=? un)
                    then (2 ^ 63 - 1, Some ErrRange)
                    else if true && (2 ^ 63 <? un)
                         then (- 2 ^ 63, Some ErrRange)
                         else (- un, None)
                end
            end = (0, Some ErrSyntax)).
  { intros body Hl [Hb| ->]; [|done]. destruct body as [|c' rest']; [done|].
    by rewrite (parseUint_not_digits _ 0 0%nat) by (done || cbn in *; lia). }
  destruct (Ascii.ascii_dec c "+") as [->|Hplus];
    [apply Hbody; [cbn in *; lia|exact Hbad]|].
  destruct (Ascii.ascii_dec c "-") as [->|Hminus];
    [apply Hneg; [cbn in *; lia|exact Hbad]|].
  assert (Hsame : unsigned (String c rest) = String c rest).
  { destruct c as [[] [] [] [] [] [] [] []]; try reflexivity; congruence. }
  rewrite Hsame in Hbad.
  destruct c as [[] [] [] [] [] [] [] []];
    first [congruence | exact (Hbody _ Hlen Hbad)].
Qed.

(** The two ports of the configuration.  A variable that is unset or empty
    gives the default, 9090 and 5432.  A value of fewer than nineteen bytes
    that is not an optional sign followed by digits gives port 0, and
    nothing reports it: the error of [Atoi] is dropped. *)
Theorem ports_of_environment (env : gmap string string) :
  (Getenv env "PORT" = "" -> Port env = 9090) /\
  (Getenv env "DB_PORT" = "" -> DBPort env = 5432) /\
  forall s,
    s <> "" -> (String.length s < 19)%nat ->
    allDigits (unsigned s) = false \/ unsigned s = "" ->
    (env !! "PORT" = Some s -> Port env = 0) /\
    (env !! "DB_PORT" = Some s -> DBPort env = 0).
Proof.
  split_and!.
  - intros Hunset. unfold Port, getEnv. by rewrite Hunset.
  - intros Hunset. unfold DBPort, getEnv. by rewrite Hunset.
  - intros s Hs Hlen Hbad.
    apply String.eqb_neq in Hs.
    split; intros Hset; unfold Port, DBPort, getEnv, Getenv; rewrite Hset;
      unfold default, from_option, id; rewrite Hs;
      by rewrite (Atoi_not_a_number s Hlen Hbad).
Qed.

End ConfigProps.

(* ===================================================================== *)
(** * Users, tokens and failures on concrete inputs *)
(* ===================================================================== *)

Module ScenarioExamples.

Import user repository service jwt Observe SessionView UserView.
Import Reference Fixtures UserFixtures.

#[local] Existing Instance rfc3339_utc.
#[local] Existing Instance plainBcrypt.
#[local] Existing Instance plainBcryptHash.
#[local] Existing Instance plainMac.

(** ** The session store *)

Lemma GetSession_Ok_witness :
  let now := t0 + Minute in
  let s := persisted (stamp t0 aSession) in
  GetSession stored now "u1" = (Ok s, stored) /\
  sUserID s = "u1" /\ sID s = "" /\ sTokenHash s = "" /\
  now <= sExpiresAt s /\
  (exists e, redis.hashes (redis stored) !! sessionKey "u1" = Some e /\
             redis.live now e = true /\
             s = sessionOfFields "u1" (redis.fields e)) /\
  redis.hashes (redis stored) = redis.hashes (redis stored) /\
  redis.sets (redis stored) = redis.sets (redis stored) /\
  db stored = db stored /\ logged stored = logged stored.
Proof.
  cbv zeta.
  assert (Hget : GetSession stored (t0 + Minute) "u1" =
                 (Ok (persisted (stamp t0 aSession)), stored))
    by (vm_compute; reflexivity).
  split; [exact Hget|].
  exact (SessionFrame.GetSession_Ok stored stored (t0 + Minute) "u1" _ Hget).
Defined.

Lemma CreateSession_failed_expire_witness :
  let err := New "connection reset by peer" in
  let r := repoAliceFailing [None; Some err] in
  0 < sExpiresAt aSession - t0 < 2 ^ 62 /\
  redis.outcomes (redis r) = None :: Some err :: [] /\
  redis.liveHash (redis r) t0 (sessionKey (sUserID aSession)) = None /\
  exists r',
    CreateSession r t0 aSession =
      (Err (Errorf_w "failed to set session expiration: " err), r') /\
    redis.hashes (redis r') !! sessionKey (sUserID aSession) =
      Some {| redis.fields := sessionFields (stamp t0 aSession);
              redis.deadline := None |} /\
    activeUsers (redis r') = activeUsers (redis r) /\
    redis.outcomes (redis r') = [] /\
    forall now',
      roundTrips (stamp t0 aSession) ->
      now' <= truncSec (sExpiresAt aSession) ->
      fst (redis.next (redis r')) = None ->
      exists r2,
        GetSession r' now' (sUserID aSession) =
          (Ok (persisted (stamp t0 aSession)), r2).
Proof.
  cbv zeta.
  assert (Hleft : 0 < sExpiresAt aSession - t0 < 2 ^ 62)
    by (split; vm_compute; reflexivity).
  assert (Hout : redis.outcomes
                   (redis (repoAliceFailing
                             [None; Some (New "connection reset by peer")])) =
                 None :: Some (New "connection reset by peer") :: [])
    by reflexivity.
  assert (Hnone : redis.liveHash
                    (redis (repoAliceFailing
                              [None; Some (New "connection reset by peer")]))
                    t0 (sessionKey (sUserID aSession)) = None)
    by (vm_compute; reflexivity).
  split; [exact Hleft|]. split; [exact Hout|]. split; [exact Hnone|].
  exact (SessionFailures.CreateSession_failed_expire _ t0 aSession _ _
           Hleft Hout Hnone).
Defined.



(** ** Tokens *)

Lemma ValidateToken_sound_witness :
  let tokenString := signedHS512 "s3cret" hs512Header subClaims in
  user.ValidateToken authConfig t0 tokenString =
    (Ok "u1", [CallKeyfunc; CallVerify]) /\
  exists header claims h exp,
    tokenString =
      Compact (Encoded header) (Encoded claims)
        (Encoded (hmacSum h (JWTSecret authConfig)
                          (Encoded header, Encoded claims))) /\
    header !! "alg" = Some (JString (Alg (SigningMethodHMAC h))) /\
    claims !! "sub" = Some (JString "u1") /\
    claims !! "exp" = Some (JNumber exp) /\
    t0 <= FromUnix exp /\
    [CallKeyfunc; CallVerify] = [CallKeyfunc; CallVerify].
Proof.
  cbv zeta.
  assert (Hrun : user.ValidateToken authConfig t0
                   (signedHS512 "s3cret" hs512Header subClaims) =
                 (Ok "u1", [CallKeyfunc; CallVerify]))
    by (vm_compute; reflexivity).
  split; [exact Hrun|].
  exact (TokenAcceptance.ValidateToken_sound authConfig t0 _ "u1" _ Hrun).
Defined.

Lemma ValidateToken_claims_sound_witness :
  let tokenString := signedHS512 "s3cret" hs512Header undatedClaims in
  utils.ValidateToken envSecret t0 tokenString =
    (Ok undatedClaims, [CallKeyfunc; CallVerify]) /\
  exists header h,
    tokenString =
      Compact (Encoded header) (Encoded undatedClaims)
        (Encoded (hmacSum h (config.JwtScretKey (config.EnvLoad envSecret))
                          (Encoded header, Encoded undatedClaims))) /\
    header !! "alg" = Some (JString (Alg (SigningMethodHMAC h))) /\
    match undatedClaims !! "exp" with
    | None => True
    | Some (JNumber exp) => exp = 0 \/ Unix t0 < exp
    | Some _ => False
    end /\
    [CallKeyfunc; CallVerify] = [CallKeyfunc; CallVerify].
Proof.
  cbv zeta.
  assert (Hrun : utils.ValidateToken envSecret t0
                   (signedHS512 "s3cret" hs512Header undatedClaims) =
                 (Ok undatedClaims, [CallKeyfunc; CallVerify]))
    by (vm_compute; reflexivity).
  split; [exact Hrun|].
  exact (TokenAcceptance.ValidateToken_claims_sound envSecret t0 _ _ _ Hrun).
Defined.


Lemma ValidateToken_without_exp_witness :
  hs512Header !! "alg" = Some (JString (Alg (SigningMethodHMAC SHA512))) /\
  undatedClaims !! "exp" = None /\ undatedClaims !! "iat" = None /\
  undatedClaims !! "nbf" = None /\
  utils.ValidateToken envSecret t0
    (Compact (Encoded hs512Header) (Encoded undatedClaims)
       (Encoded (hmacSum SHA512
                   (config.JwtScretKey (config.EnvLoad envSecret))
                   (Encoded hs512Header, Encoded undatedClaims)))) =
    (Ok undatedClaims, [CallKeyfunc; CallVerify]) /\
  user.ValidateToken authConfig t0
    (Compact (Encoded hs512Header) (Encoded undatedClaims)
       (Encoded (hmacSum SHA512 (JWTSecret authConfig)
                         (Encoded hs512Header, Encoded undatedClaims)))) =
    (Err (New "invalid token expiration"), [CallKeyfunc; CallVerify]).
Proof.
  assert (Halg : hs512Header !! "alg" =
                 Some (JString (Alg (SigningMethodHMAC SHA512))))
    by reflexivity.
  assert (Hexp : undatedClaims !! "exp" = None) by reflexivity.
  assert (Hiat : undatedClaims !! "iat" = None) by reflexivity.
  assert (Hnbf : undatedClaims !! "nbf" = None) by reflexivity.
  split; [exact Halg|]. split; [exact Hexp|]. split; [exact Hiat|].
  split; [exact Hnbf|].
  exact (TokenAcceptance.ValidateToken_without_exp envSecret authConfig t0
           hs512Header undatedClaims SHA512 Halg Hexp Hiat Hnbf).
Defined.

Lemma ValidateToken_bad_signature_witness :
  let tokenString :=
    Compact (Encoded hs512Header) (Encoded subClaims) (Encoded "forged") in
  hs512Header !! "alg" = Some (JString (Alg (SigningMethodHMAC SHA512))) /\
  "forged" <> hmacSum SHA512 (JWTSecret authConfig)
                (Encoded hs512Header, Encoded subClaims) /\
  "forged" <> hmacSum SHA512 (config.JwtScretKey (config.EnvLoad envSecret))
                (Encoded hs512Header, Encoded subClaims) /\
  (exists flags,
     user.ValidateToken authConfig t0 tokenString =
       (Err (ValidationError (Some ErrSignatureInvalid) flags ""),
        [CallKeyfunc; CallVerify]) /\
     Z.land flags ValidationErrorSignatureInvalid =
       ValidationErrorSignatureInvalid) /\
  utils.ValidateToken envSecret t0 tokenString =
    (Err (New "failed to parse token: signature is invalid"),
     [CallKeyfunc; CallVerify]).
Proof.
  cbv zeta.
  assert (Halg : hs512Header !! "alg" =
                 Some (JString (Alg (SigningMethodHMAC SHA512))))
    by reflexivity.
  assert (Hsig1 : "forged" <> hmacSum SHA512 (JWTSecret authConfig)
                                (Encoded hs512Header, Encoded subClaims))
    by (vm_compute; discriminate).
  assert (Hsig2 : "forged" <> hmacSum SHA512
                                (config.JwtScretKey (config.EnvLoad envSecret))
                                (Encoded hs512Header, Encoded subClaims))
    by (vm_compute; discriminate).
  split; [exact Halg|]. split; [exact Hsig1|]. split; [exact Hsig2|].
  exact (TokenAcceptance.ValidateToken_bad_signature envSecret authConfig t0
           hs512Header subClaims SHA512 "forged" Halg Hsig1 Hsig2).
Defined.

(** ** Login *)

Lemma Login_session_failure_witness :
  let r := repoAliceFailing [Some (New "connection refused")] in
  GetByEmail r (reqEmail goodLogin) = Ok alice /\
  CheckPasswordHash (reqPassword goodLogin) (PasswordHash alice) = true /\
  plainGenerateToken authConfig t0 (ID alice) = Ok "token-of-u1" /\
  (- 2 ^ 62 <= TokenExpiration authConfig <= 0 \/
   (0 < TokenExpiration authConfig < 2 ^ 62 /\
    exists err, fst (redis.next (redis r)) = Some err)) /\
  exists r',
    Login plainGenerateToken authConfig r t0 goodLogin =
      (Err (New "failed to create session"), r') /\
    redis.hashes (redis r') = redis.hashes (redis r) /\
    redis.sets (redis r') = redis.sets (redis r).
Proof.
  cbv zeta.
  assert (Hfound : GetByEmail
                     (repoAliceFailing [Some (New "connection refused")])
                     (reqEmail goodLogin) = Ok alice) by reflexivity.
  assert (Hpassword : CheckPasswordHash (reqPassword goodLogin)
                        (PasswordHash alice) = true) by reflexivity.
  assert (Htoken : plainGenerateToken authConfig t0 (ID alice) =
                   Ok "token-of-u1") by reflexivity.
  assert (Hcase :
    - 2 ^ 62 <= TokenExpiration authConfig <= 0 \/
    (0 < TokenExpiration authConfig < 2 ^ 62 /\
     exists err,
       fst (redis.next
              (redis (repoAliceFailing [Some (New "connection refused")]))) =
       Some err)).
  { right. split; [split; vm_compute; reflexivity|].
    by exists (New "connection refused"). }
  split; [exact Hfound|]. split; [exact Hpassword|]. split; [exact Htoken|].
  split; [exact Hcase|].
  exact (LoginStore.Login_session_failure plainGenerateToken authConfig _ t0
           goodLogin alice "token-of-u1" Hfound Hpassword Htoken Hcase).
Defined.


Lemma Login_after_Delete_witness :
  let now := t0 + Hour in
  let now' := t0 + 2 * Hour in
  broken (db repoWithTwo) = None /\
  (forall v, v ∈ rows (db repoWithTwo) -> liveUser v = true ->
             Email v = reqEmail goodLogin -> Username v = "alice") /\
  exists r',
    Delete repoWithTwo now "alice" = (None, r') /\
    Login plainGenerateToken authConfig r' now' goodLogin =
      (Err (New "invalid email"), r') /\
    forall userId,
      fst (GetSession r' now' userId) =
      fst (GetSession repoWithTwo now' userId).
Proof.
  cbv zeta.
  assert (Hup : broken (db repoWithTwo) = None) by reflexivity.
  assert (Hunique : forall v, v ∈ rows (db repoWithTwo) ->
                      liveUser v = true ->
                      Email v = reqEmail goodLogin -> Username v = "alice").
  { intros v Hv _ Hemail. cbn in Hv.
    apply elem_of_cons in Hv as [->|Hv]; [reflexivity|].
    apply elem_of_cons in Hv as [->|Hv]; [discriminate Hemail|].
    by apply elem_of_nil in Hv. }
  split; [exact Hup|]. split; [exact Hunique|].
  exact (LoginStore.Login_after_Delete plainGenerateToken authConfig
           repoWithTwo (t0 + Hour) (t0 + 2 * Hour) "alice" goodLogin
           Hup Hunique).
Defined.

(** ** Users *)

Lemma Delete_hides_user_witness :
  broken (db repoWithTwo) = None /\
  exists r',
    Delete repoWithTwo t0 "alice" = (None, r') /\
    GetByUsername r' "alice" = Err (New "user not found") /\
    (forall other, other <> "alice" ->
       GetByUsername r' other = GetByUsername repoWithTwo other) /\
    (forall id u, GetByID repoWithTwo id = Ok u -> Username u <> "alice" ->
       GetByID r' id = Ok u) /\
    List.map ID (rows (db r')) = List.map ID (rows (db repoWithTwo)) /\
    redis r' = redis repoWithTwo /\ logged r' = logged repoWithTwo.
Proof.
  assert (Hup : broken (db repoWithTwo) = None) by reflexivity.
  split; [exact Hup|].
  exact (RepositoryProps.Delete_hides_user repoWithTwo t0 "alice" Hup).
Defined.

Lemma Register_duplicate_witness :
  broken (db repoWithAlice) = None /\
  hasUsername repoWithAlice (cUsername aliceAgain) /\
  Register plainCreate repoWithAlice t0 aliceAgain =
    (Err (New "username already exists"), repoWithAlice).
Proof.
  assert (Hup : broken (db repoWithAlice) = None) by reflexivity.
  assert (Htaken : hasUsername repoWithAlice (cUsername aliceAgain)).
  { exists alice. split; [apply list_elem_of_here|]. split; reflexivity. }
  split; [exact Hup|]. split; [exact Htaken|].
  exact (proj1 (ServiceProps.Register_duplicate plainCreate repoWithAlice t0
                  aliceAgain Hup) Htaken).
Defined.

Lemma Register_Ok_witness :
  Register plainCreate repoWithAlice t0 bobRequest =
    (Ok (bob, ""), repoWithBob) /\
  "" = "" /\ redis repoWithBob = redis repoWithAlice /\
  logged repoWithBob = logged repoWithAlice /\
  (broken (db repoWithAlice) = None ->
   ~ hasUsername repoWithAlice (cUsername bobRequest) /\
   ~ hasEmail repoWithAlice (cEmail bobRequest)) /\
  exists user hashed,
    HashPassword (cPassword bobRequest) = Ok hashed /\
    plainCreate (db repoWithAlice) t0 user = (None, bob, db repoWithBob) /\
    ID user = "" /\ Username user = cUsername bobRequest /\
    Email user = cEmail bobRequest /\ PasswordHash user = hashed /\
    IsPremium user = false /\ IsVerified user = cIsVerified bobRequest /\
    IsPrivate user = cIsPrivate bobRequest /\
    CreatedAt user = t0 /\ UpdatedAt user = t0 /\ DeletedAt user = None.
Proof.
  assert (Hrun : Register plainCreate repoWithAlice t0 bobRequest =
                 (Ok (bob, ""), repoWithBob))
    by (vm_compute; reflexivity).
  split; [exact Hrun|].
  exact (ServiceProps.Register_Ok plainCreate repoWithAlice repoWithBob t0
           bobRequest bob "" Hrun).
Defined.

Lemma CheckEmailAndUsername_Register_witness :
  chkUsername checkAlice = cUsername aliceAgain /\
  chkEmail checkAlice = cEmail aliceAgain /\
  CheckEmailAndUsername repoWithAlice checkAlice =
    (true, Some (New "username already exists")) /\
  match CheckEmailAndUsername repoWithAlice checkAlice with
  | (true, Some err) =>
      Register plainCreate repoWithAlice t0 aliceAgain =
        (Err err, repoWithAlice)
  | (false, None) =>
      forall e, HashPassword (cPassword aliceAgain) = Err e ->
                Register plainCreate repoWithAlice t0 aliceAgain =
                  (Err (New "failed to hash password"), repoWithAlice)
  | _ => False
  end.
Proof.
  assert (Hname : chkUsername checkAlice = cUsername aliceAgain)
    by reflexivity.
  assert (Hemail : chkEmail checkAlice = cEmail aliceAgain) by reflexivity.
  split; [exact Hname|]. split; [exact Hemail|]. split; [reflexivity|].
  exact (ServiceProps.CheckEmailAndUsername_Register plainCreate
           repoWithAlice t0 aliceAgain checkAlice Hname Hemail).
Defined.

Lemma lookups_down_read_as_free_witness :
  broken (db repoDown) = Some (New "connection refused") /\
  hasUsername repoDown (chkUsername checkAlice) /\
  CheckEmailAndUsername repoDown checkAlice = (false, None) /\
  forall e, HashPassword (cPassword aliceAgain) = Err e ->
            Register plainCreate repoDown t0 aliceAgain =
              (Err (New "failed to hash password"), repoDown).
Proof.
  assert (Hdown : broken (db repoDown) = Some (New "connection refused"))
    by reflexivity.
  assert (Htaken : hasUsername repoDown (chkUsername checkAlice)).
  { exists alice. split; [apply list_elem_of_here|]. split; reflexivity. }
  split; [exact Hdown|]. split; [exact Htaken|].
  exact (ServiceProps.lookups_down_read_as_free plainCreate repoDown t0
           aliceAgain checkAlice _ Hdown).
Defined.

Lemma UpdateProfile_ignored_fields_witness :
  sameProfileFields rename renameOnly /\
  UpdateProfile plainSave repoWithAlice t0 "u1" rename =
  UpdateProfile plainSave repoWithAlice t0 "u1" renameOnly.
Proof.
  assert (Hsame : sameProfileFields rename renameOnly).
  { unfold sameProfileFields.
    split; [reflexivity|]. split; [reflexivity|]. split; [reflexivity|].
    split; reflexivity. }
  split; [exact Hsame|].
  exact (ServiceProps.UpdateProfile_ignored_fields plainSave repoWithAlice t0
           "u1" rename renameOnly Hsame).
Defined.

Lemma UpdateProfile_empty_means_keep_witness :
  GetByID repoWithAlice "u1" = Ok alice /\
  UpdateProfile plainSave repoWithAlice t0 "u1" rename =
  UpdateProfile plainSave repoWithAlice t0 "u1" (filledIn alice rename).
Proof.
  assert (Hfound : GetByID repoWithAlice "u1" = Ok alice) by reflexivity.
  split; [exact Hfound|].
  exact (ServiceProps.UpdateProfile_empty_means_keep plainSave repoWithAlice
           t0 "u1" rename alice Hfound).
Defined.

Lemma DeleteProfile_keeps_user_witness :
  GetByID repoWithTwo "u1" = Ok alice /\
  Username alice <> "u1" /\
  GetByUsername repoWithTwo "u1" = Ok mallory /\
  exists r',
    DeleteProfile repoWithTwo t0 "u1" = (None, r') /\
    GetByID r' "u1" = Ok alice /\
    GetProfile r' "u1" = Ok (ToProfile alice) /\
    GetByUsername r' "u1" = Err (New "user not found").
Proof.
  assert (Hfound : GetByID repoWithTwo "u1" = Ok alice) by reflexivity.
  assert (Hname : Username alice <> "u1") by discriminate.
  split; [exact Hfound|]. split; [exact Hname|]. split; [reflexivity|].
  exact (ServiceProps.DeleteProfile_keeps_user repoWithTwo t0 "u1" alice
           Hfound Hname).
Defined.

(** ** Configuration *)

Lemma ports_of_environment_witness :
  config.Getenv envBadPort "DB_PORT" = "" /\ envBadPort !! "PORT" = Some "80 80" /\
  allDigits (unsigned "80 80") = false /\
  ports.DBPort envBadPort = 5432 /\ ports.Port envBadPort = 0.
Proof.
  assert (Hunset : config.Getenv envBadPort "DB_PORT" = "") by reflexivity.
  assert (Hset : envBadPort !! "PORT" = Some "80 80") by reflexivity.
  assert (Hbad : allDigits (unsigned "80 80") = false) by reflexivity.
  split; [exact Hunset|]. split; [exact Hset|]. split; [exact Hbad|].
  split.
  - exact (proj1 (proj2 (ConfigProps.ports_of_environment envBadPort)) Hunset).
  - assert (Hne : "80 80" <> "") by discriminate.
    assert (Hlen : (String.length "80 80" < 19)%nat) by (cbn; lia).
    exact (proj1 (proj2 (proj2 (ConfigProps.ports_of_environment envBadPort))
                    "80 80" Hne Hlen (or_introl Hbad)) Hset).
Defined.

End ScenarioExamples.
